(** * ContinuousOptimalBinning2D: the fit / transform pipeline

    A shallow embedding of
    [optbinning/binning/multidimensional/continuous_binning_2d.py]:
    [_check_parameters], [_prebinning_matrices], [_fit_optimizer], [_fit]
    and [transform], together with the NumPy operations they rely on.

    Conventions of the embedding.
    - a finite float64 value is the rational it denotes ([Q]), and sums,
      squares and quotients of data are the exact ones, of which the
      code's values are the roundings.  Rounding is explicit where an
      integer depends on it: the product under [np.ceil] in
      [_fit_optimizer] is rounded by [float64].  The special values are
      explicit where they decide the behaviour: a parameter may be [nan]
      or an infinity, and the true division [_sums / _n_records] produces
      an [npfloat].
    - a Python exception is a value of [exn]; code that may raise lives in
      [result], and code that also writes attributes of [self] lives in the
      monad [M], whose state survives a raised exception (as the attributes
      of a Python object do).
    - functions imported from other modules of the package, from
      scikit-learn and from joblib are fields of the record [Externals];
      every theorem holds for all their implementations.
    - logging and the wall-clock timers ([time.perf_counter]) are left out:
      no attribute other than the [_time_*] fields depends on them. *)

From Stdlib Require Import ZArith QArith Qround Qminmax Qpower Lia Lqa String.
From stdpp Require Import base list strings.

Set Default Proof Using "Type".
Open Scope string_scope.
Open Scope list_scope.
Open Scope nat_scope.

(** ** Exceptions and fallible computations *)

Inductive exn : Type :=
| TypeError (what : string)
| ValueError (what : string)
| IndexError (what : string)
| UnboundLocalError (what : string)
| OverflowError (what : string)
| NotFittedError
| ExternalError (what : string).

Inductive result (A : Type) : Type :=
| Ok (a : A)
| Raise (e : exn).
Arguments Ok {A} a.
Arguments Raise {A} e.

Definition rbind {A B} (r : result A) (k : A -> result B) : result B :=
  match r with
  | Ok a => k a
  | Raise e => Raise e
  end.

Declare Scope result_scope.
Delimit Scope result_scope with result.
Notation "x <- r ;; k" := (rbind r (fun x => k))
  (at level 100, r at next level, right associativity) : result_scope.

(** [for v in l: acc = body(v, acc)], stopping at the first exception. *)
Fixpoint for_each {A S} (l : list A) (body : A -> S -> result S) (acc : S)
  : result S :=
  match l with
  | [] => Ok acc
  | v :: l' => rbind (body v acc) (for_each l' body)
  end.

(** ** Rational helpers *)

Definition Qltb (a b : Q) : bool := negb (Qle_bool b a).

Definition Qsum (l : list Q) : Q := foldr Qplus 0%Q l.

Definition Zsum (l : list Z) : Z := foldr Z.add 0%Z l.

(** ** binary64 rounding

    Where an integer result depends on how a float operation rounds, the
    rounding is made explicit. *)

(** The nearest integer, ties to the even one. *)
Definition round_half_even (x : Q) : Z :=
  let f := Qfloor x in
  match (x - inject_Z f ?= 1 # 2)%Q with
  | Lt => f
  | Gt => (f + 1)%Z
  | Eq => if Z.even f then f else (f + 1)%Z
  end.

(** The exponent [k] with [2^k <= x < 2^(k+1)], for a positive [x]. *)
Definition binade (x : Q) : Z :=
  let e := (Z.log2 (Qnum x) - Z.log2 (Z.pos (Qden x)))%Z in
  if Qltb x (2 ^ e) then (e - 1)%Z else e.

(** A positive [x] rounded to 53 significant bits. *)
Definition float64_pos (x : Q) : Q :=
  let u := (2 ^ (binade x - 52))%Q in
  (inject_Z (round_half_even (x / u)) * u)%Q.

(** The binary64 number that an arithmetic operation returns for the exact
    result [x]: the nearest number with 53 significant bits, ties to the
    even significand.  The exponent range is left unbounded: no overflow
    to infinity above [2^1024], and no coarser grid below [2^-1022]. *)
Definition float64 (x : Q) : Q :=
  match (x ?= 0)%Q with
  | Eq => 0%Q
  | Gt => float64_pos x
  | Lt => (- float64_pos (- x))%Q
  end.

(** ** NumPy: searchsorted and digitize *)

(** The loop of NumPy's [binsearch] for [side='right']: the window
    [lo, hi) shrinks until it is empty; [fuel] bounds the iterations. *)
Fixpoint binsearch_right (fuel : nat) (arr : list Q) (key : Q) (lo hi : nat)
  : nat :=
  match fuel with
  | O => lo
  | S fuel' =>
      if (lo <? hi)%nat then
        let mid := (lo + (hi - lo) / 2)%nat in
        match arr !! mid with
        | Some mid_val =>
            if Qltb key mid_val
            then binsearch_right fuel' arr key lo mid
            else binsearch_right fuel' arr key (mid + 1) hi
        | None => lo
        end
      else lo
  end.

Definition np_searchsorted_right (arr : list Q) (key : Q) : nat :=
  binsearch_right (length arr) arr key 0 (length arr).

Fixpoint nondecreasing (l : list Q) : bool :=
  match l with
  | a :: (b :: _) as l' => Qle_bool a b && nondecreasing l'
  | _ => true
  end.

Fixpoint nonincreasing (l : list Q) : bool :=
  match l with
  | a :: (b :: _) as l' => Qle_bool b a && nonincreasing l'
  | _ => true
  end.

(** [np.digitize(x, bins, right=False)]: bins must be monotonic; increasing
    bins are searched directly, decreasing ones reversed and the result
    inverted. *)
Definition np_digitize (x bins : list Q) : result (list nat) :=
  if nondecreasing bins then
    Ok (map (np_searchsorted_right bins) x)
  else if nonincreasing bins then
    Ok (map (fun v => (length bins - np_searchsorted_right (rev bins) v)%nat) x)
  else Raise (ValueError "bins must be monotonically increasing or decreasing").

(** Sortedness read through lookups. *)
Definition sorted_by_lookup (arr : list Q) : Prop :=
  forall i j a b, i <= j -> arr !! i = Some a -> arr !! j = Some b -> (a <= b)%Q.

(** The two ways of counting split points against a value. *)
Definition splits_le (splits : list Q) (v : Q) : nat :=
  length (filter (fun s => Qle_bool s v = true) splits).

Definition splits_lt (splits : list Q) (v : Q) : nat :=
  length (filter (fun s => Qltb s v = true) splits).

(** The reading of [np.digitize] by which the index of a value is the
    number of split points strictly less than it. *)
Definition digitize_counts_strictly_less (splits : list Q) (v : Q) : Prop :=
  np_digitize [v] splits = Ok [splits_lt splits v].

(** ** Python values of the configuration

    Constructor parameters are dynamically typed; [_check_parameters]
    inspects their classes.  The scalar universe below covers [None],
    [bool], [int], [float] and [str]; a float is finite ([PyFloat]), an
    infinity ([PyInf]) or [nan] ([PyNan]).  The two special-code
    parameters additionally range over lists and arrays. *)

Inductive pyobj : Type :=
| PyNone
| PyBool (b : bool)
| PyInt (n : Z)
| PyFloat (q : Q)
| PyInf (negative : bool)
| PyNan
| PyStr (s : string).

(** A float64 value: finite, an infinity or [nan]. *)
Inductive npfloat : Type :=
| Finite (q : Q)
| PosInf
| NegInf
| NaN.

Inductive pycodes : Type :=
| CodesList (l : list Q)
| CodesNdarray (l : list Q)
| CodesScalar (o : pyobj).

(** [isinstance(o, str)] *)
Definition is_str (o : pyobj) : bool :=
  match o with PyStr _ => true | _ => false end.

(** [isinstance(o, bool)] *)
Definition is_bool (o : pyobj) : bool :=
  match o with PyBool _ => true | _ => false end.

(** [isinstance(o, numbers.Integral)]: [bool] is a subclass of [int]. *)
Definition is_integral (o : pyobj) : bool :=
  match o with PyInt _ | PyBool _ => true | _ => false end.

(** [isinstance(o, numbers.Number)] *)
Definition is_number (o : pyobj) : bool :=
  match o with
  | PyInt _ | PyBool _ | PyFloat _ | PyInf _ | PyNan => true
  | _ => false
  end.

(** [o is None] *)
Definition is_none (o : pyobj) : bool :=
  match o with PyNone => true | _ => false end.

(** [isinstance(c, (np.ndarray, list))] *)
Definition is_array_or_list (c : pycodes) : bool :=
  match c with CodesList _ | CodesNdarray _ => true | CodesScalar _ => false end.

Definition codes_is_none (c : pycodes) : bool :=
  match c with CodesScalar PyNone => true | _ => false end.

(** The value of a finite number; [True] and [False] count as 1 and 0. *)
Definition number_value (o : pyobj) : option Q :=
  match o with
  | PyBool b => Some (inject_Z (if b then 1 else 0))
  | PyInt n => Some (inject_Z n)
  | PyFloat q => Some q
  | _ => None
  end.

(** [o in (s1, s2, ...)] for a tuple of string literals. *)
Definition str_in (o : pyobj) (allowed : list string) : bool :=
  match o with
  | PyStr s => bool_decide (s ∈ allowed)
  | _ => false
  end.

(** Ordering comparisons of Python.  Every comparison of this file has a
    number on at least one side (a literal, or a parameter whose class was
    tested just before), so the other side is a number too or the
    comparison raises [TypeError]. *)
Definition float_value (o : pyobj) : option npfloat :=
  match o with
  | PyInf false => Some PosInf
  | PyInf true => Some NegInf
  | PyNan => Some NaN
  | _ => option_map Finite (number_value o)
  end.

(** An ordering test [cmp] on floats: false as soon as one side is [nan],
    and otherwise decided by how the two sides are ordered, an infinity
    lying beyond every finite number. *)
Definition np_cmp (cmp : Q -> Q -> bool) (x y : npfloat) : bool :=
  match x, y with
  | Finite a, Finite b => cmp a b
  | NaN, _ | _, NaN => false
  | PosInf, PosInf | NegInf, NegInf => cmp 0%Q 0%Q
  | PosInf, _ | _, NegInf => cmp 1%Q 0%Q
  | _, PosInf | NegInf, _ => cmp 0%Q 1%Q
  end.

Definition py_cmp (cmp : Q -> Q -> bool) (a b : pyobj) : result bool :=
  match float_value a, float_value b with
  | Some x, Some y => Ok (np_cmp cmp x y)
  | _, _ => Raise (TypeError "ordering not supported between these types")
  end.

Definition py_lt := py_cmp Qltb.
Definition py_le := py_cmp Qle_bool.
Definition py_gt := py_cmp (fun x y => Qltb y x).

(** The chained comparison [lo < v <= hi]; the second test is evaluated
    only when the first holds. *)
Definition py_in_left_open (lo : Q) (v : pyobj) (hi : Q) : result bool :=
  (b1 <- py_lt (PyFloat lo) v ;;
   if b1 : bool then py_le v (PyFloat hi) else Ok false)%result.

(** The chained comparison [lo <= v <= hi]. *)
Definition py_in_closed (lo : Z) (v : pyobj) (hi : Z) : result bool :=
  (b1 <- py_le (PyInt lo) v ;;
   if b1 : bool then py_le v (PyInt hi) else Ok false)%result.

(** [if cond: raise e] *)
Definition raise_if (cond : bool) (e : exn) : result unit :=
  if cond then Raise e else Ok tt.

(** The constructor parameters, as returned by [get_params()]. *)
Record Params : Type := {
  name_x : pyobj;
  name_y : pyobj;
  dtype_x : pyobj;
  dtype_y : pyobj;
  prebinning_method : pyobj;
  strategy : pyobj;
  solver : pyobj;
  max_n_prebins_x : pyobj;
  max_n_prebins_y : pyobj;
  min_prebin_size_x : pyobj;
  min_prebin_size_y : pyobj;
  min_n_bins : pyobj;
  max_n_bins : pyobj;
  min_bin_size : pyobj;
  max_bin_size : pyobj;
  monotonic_trend_x : pyobj;
  monotonic_trend_y : pyobj;
  min_mean_diff_x : pyobj;
  min_mean_diff_y : pyobj;
  gamma : pyobj;
  special_codes_x : pycodes;
  special_codes_y : pycodes;
  split_digits : pyobj;
  n_jobs : pyobj;
  time_limit : pyobj;
  verbose : pyobj
}.

(** ** [_check_parameters] *)

Definition check_positive_int (v : pyobj) (what : string) : result unit :=
  if is_none v then Ok tt
  else if negb (is_integral v) then Raise (ValueError what)
  else (b <- py_le v (PyInt 0) ;; raise_if b (ValueError what))%result.

Definition check_prebins (v : pyobj) (what : string) : result unit :=
  if negb (is_integral v) then Raise (ValueError what)
  else (b <- py_le v (PyInt 1) ;; raise_if b (ValueError what))%result.

Definition check_fraction (v : pyobj) (hi : Q) (what : string) : result unit :=
  (b <- py_in_left_open 0 v hi ;; raise_if (negb b) (ValueError what))%result.

Definition check_bin_size (v : pyobj) (hi : Q) (what : string) : result unit :=
  if is_none v then Ok tt
  else if negb (is_number v) then Raise (ValueError what)
  else check_fraction v hi what.

Definition check_trend (v : pyobj) (what : string) : result unit :=
  if is_none v then Ok tt
  else raise_if (negb (str_in v ["ascending"; "descending"])) (ValueError what).

Definition check_nonnegative (v : pyobj) (what : string) : result unit :=
  if negb (is_number v) then Raise (ValueError what)
  else (b <- py_lt v (PyInt 0) ;; raise_if b (ValueError what))%result.

Definition check_codes (c : pycodes) (what : string) : result unit :=
  if codes_is_none c then Ok tt
  else raise_if (negb (is_array_or_list c)) (TypeError what).

Definition _check_parameters (p : Params) : result unit :=
  (_ <- raise_if (negb (is_str (name_x p))) (TypeError "name_x") ;;
   _ <- raise_if (negb (is_str (name_y p))) (TypeError "name_y") ;;
   _ <- raise_if (negb (str_in (dtype_x p) ["numerical"])) (ValueError "dtype_x") ;;
   _ <- raise_if (negb (str_in (dtype_y p) ["numerical"])) (ValueError "dtype_y") ;;
   _ <- raise_if (negb (str_in (prebinning_method p)
                          ["cart"; "mdlp"; "quantile"; "uniform"]))
                 (ValueError "prebinning_method") ;;
   _ <- raise_if (negb (str_in (strategy p) ["grid"; "cart"]))
                 (ValueError "strategy") ;;
   _ <- raise_if (negb (str_in (solver p) ["cp"; "mip"])) (ValueError "solver") ;;
   _ <- check_prebins (max_n_prebins_x p) "max_n_prebins_x" ;;
   _ <- check_prebins (max_n_prebins_y p) "max_n_prebins_y" ;;
   _ <- check_fraction (min_prebin_size_x p) (1#2) "min_prebin_size_x" ;;
   _ <- check_fraction (min_prebin_size_y p) (1#2) "min_prebin_size_y" ;;
   _ <- check_positive_int (min_n_bins p) "min_n_bins" ;;
   _ <- check_positive_int (max_n_bins p) "max_n_bins" ;;
   _ <- (if negb (is_none (min_n_bins p)) && negb (is_none (max_n_bins p))
         then b <- py_gt (min_n_bins p) (max_n_bins p) ;;
              raise_if b (ValueError "min_n_bins must be <= max_n_bins")
         else Ok tt) ;;
   _ <- check_bin_size (min_bin_size p) (1#2) "min_bin_size" ;;
   _ <- check_bin_size (max_bin_size p) 1 "max_bin_size" ;;
   _ <- (if negb (is_none (min_bin_size p)) && negb (is_none (max_bin_size p))
         then b <- py_gt (min_bin_size p) (max_bin_size p) ;;
              raise_if b (ValueError "min_bin_size must be <= max_bin_size")
         else Ok tt) ;;
   _ <- check_trend (monotonic_trend_x p) "monotonic_trend_x" ;;
   _ <- check_trend (monotonic_trend_y p) "monotonic_trend_y" ;;
   _ <- raise_if (negb (is_number (min_mean_diff_x p))) (ValueError "min_mean_diff_x") ;;
   _ <- raise_if (negb (is_number (min_mean_diff_y p))) (ValueError "min_mean_diff_y") ;;
   _ <- check_nonnegative (gamma p) "gamma" ;;
   _ <- check_codes (special_codes_x p) "special_codes_x" ;;
   _ <- check_codes (special_codes_y p) "special_codes_y" ;;
   _ <- (if is_none (split_digits p) then Ok tt
         else if negb (is_integral (split_digits p))
              then Raise (ValueError "split_digits")
              else b <- py_in_closed 0 (split_digits p) 8 ;;
                   raise_if (negb b) (ValueError "split_digits")) ;;
   _ <- (if is_none (n_jobs p) then Ok tt
         else raise_if (negb (is_integral (n_jobs p))) (ValueError "n_jobs")) ;;
   _ <- check_nonnegative (time_limit p) "time_limit" ;;
   raise_if (negb (is_bool (verbose p))) (TypeError "verbose"))%result.

Definition is_configuration_error (e : exn) : Prop :=
  match e with
  | TypeError _ | ValueError _ => True
  | _ => False
  end.

(** The invalid configurations: the four kinds the documentation names and,
    in general, whatever [_check_parameters] rejects. *)
Inductive invalid_configuration (p : Params) : Prop :=
| negative_gamma g :
    number_value (gamma p) = Some g -> (g < 0)%Q -> invalid_configuration p
| negative_time_limit t :
    number_value (time_limit p) = Some t -> (t < 0)%Q ->
    invalid_configuration p
| prebin_size_x_out_of_range q :
    number_value (min_prebin_size_x p) = Some q ->
    ~ (0 < q /\ q <= 1 # 2)%Q -> invalid_configuration p
| prebin_size_y_out_of_range q :
    number_value (min_prebin_size_y p) = Some q ->
    ~ (0 < q /\ q <= 1 # 2)%Q -> invalid_configuration p
| bin_counts_reversed a b :
    min_n_bins p = PyInt a -> max_n_bins p = PyInt b -> (b < a)%Z ->
    invalid_configuration p
| rejected e : _check_parameters p = Raise e -> invalid_configuration p.

(** ** The configurations that validation accepts *)

(** [v] is a number whose value satisfies [P]. *)
Definition number_with (P : Q -> Prop) (v : pyobj) : Prop :=
  exists q, number_value v = Some q /\ P q.

(** [v] is an integer (or a boolean) whose value satisfies [P]. *)
Definition integer_with (P : Q -> Prop) (v : pyobj) : Prop :=
  is_integral v = true /\ number_with P v.

(** [v] is [None] or satisfies [P]. *)
Definition optional (P : pyobj -> Prop) (v : pyobj) : Prop :=
  v = PyNone \/ P v.

(** [v] is one of the listed strings. *)
Definition one_of (allowed : list string) (v : pyobj) : Prop :=
  exists s, v = PyStr s /\ s ∈ allowed.

(** When both are set, [lo] does not exceed [hi]. *)
Definition ordered (lo hi : pyobj) : Prop :=
  forall a b, number_value lo = Some a -> number_value hi = Some b ->
    (a <= b)%Q.

(** [v] is a number and [v < 0] does not hold: a finite number from zero
    on, the positive infinity, or [nan]. *)
Definition not_negative (v : pyobj) : Prop :=
  number_with (fun q => 0 <= q)%Q v \/ v = PyInf false \/ v = PyNan.

Definition codes_accepted (c : pycodes) : Prop :=
  c = CodesScalar PyNone \/ is_array_or_list c = true.

Record well_configured (p : Params) : Prop := {
  wc_name_x : is_str (name_x p) = true;
  wc_name_y : is_str (name_y p) = true;
  wc_dtype_x : dtype_x p = PyStr "numerical";
  wc_dtype_y : dtype_y p = PyStr "numerical";
  wc_prebinning_method :
    one_of ["cart"; "mdlp"; "quantile"; "uniform"] (prebinning_method p);
  wc_strategy : one_of ["grid"; "cart"] (strategy p);
  wc_solver : one_of ["cp"; "mip"] (solver p);
  wc_max_n_prebins_x : integer_with (fun q => 1 < q)%Q (max_n_prebins_x p);
  wc_max_n_prebins_y : integer_with (fun q => 1 < q)%Q (max_n_prebins_y p);
  wc_min_prebin_size_x :
    number_with (fun q => 0 < q /\ q <= 1 # 2)%Q (min_prebin_size_x p);
  wc_min_prebin_size_y :
    number_with (fun q => 0 < q /\ q <= 1 # 2)%Q (min_prebin_size_y p);
  wc_min_n_bins : optional (integer_with (fun q => 0 < q)%Q) (min_n_bins p);
  wc_max_n_bins : optional (integer_with (fun q => 0 < q)%Q) (max_n_bins p);
  wc_n_bins : ordered (min_n_bins p) (max_n_bins p);
  wc_min_bin_size :
    optional (number_with (fun q => 0 < q /\ q <= 1 # 2)%Q) (min_bin_size p);
  wc_max_bin_size :
    optional (number_with (fun q => 0 < q /\ q <= 1)%Q) (max_bin_size p);
  wc_bin_size : ordered (min_bin_size p) (max_bin_size p);
  wc_monotonic_trend_x :
    optional (one_of ["ascending"; "descending"]) (monotonic_trend_x p);
  wc_monotonic_trend_y :
    optional (one_of ["ascending"; "descending"]) (monotonic_trend_y p);
  wc_min_mean_diff_x : is_number (min_mean_diff_x p) = true;
  wc_min_mean_diff_y : is_number (min_mean_diff_y p) = true;
  wc_gamma : not_negative (gamma p);
  wc_special_codes_x : codes_accepted (special_codes_x p);
  wc_special_codes_y : codes_accepted (special_codes_y p);
  wc_split_digits :
    optional (integer_with (fun q => 0 <= q /\ q <= 8)%Q) (split_digits p);
  wc_n_jobs : optional (fun v => is_integral v = true) (n_jobs p);
  wc_time_limit : not_negative (time_limit p);
  wc_verbose : is_bool (verbose p) = true
}.

(** ** NumPy arrays *)

(** A true division returns [nan] or an infinity (with a warning) instead
    of raising when the divisor is zero. *)
Definition np_true_divide (a b : Q) : npfloat :=
  if Qeq_bool b 0 then
    if Qeq_bool a 0 then NaN
    else if Qltb 0 a then PosInf else NegInf
  else Finite (a / b).

(** A two-dimensional array in row-major order. *)
Record ndarray2 (A : Type) : Type := {
  nrows : nat;
  ncols : nat;
  data : list A
}.
Arguments nrows {A} _.
Arguments ncols {A} _.
Arguments data {A} _.

(** [np.empty]: the contents are whatever the allocator left there,
    [junk i] at position [i]. *)
Definition np_empty {A} (junk : nat -> A) (n : nat) : list A :=
  map junk (seq 0 n).

Definition np_empty2 {A} (junk : nat -> A) (r c : nat) : ndarray2 A :=
  {| nrows := r; ncols := c; data := np_empty junk (r * c) |}.

(** [a.reshape((r, c))] of a flat array *)
Definition reshape {A} (a : list A) (r c : nat) : result (ndarray2 A) :=
  if (length a =? r * c)%nat then Ok {| nrows := r; ncols := c; data := a |}
  else Raise (ValueError "cannot reshape array").

(** [a[i] = v] for a non-negative index *)
Definition setitem {A} (a : list A) (i : nat) (v : A) : result (list A) :=
  if (i <? length a)%nat then Ok (<[i := v]> a)
  else Raise (IndexError "index out of bounds").

(** [a[-k] = v] *)
Definition setitem_neg {A} (a : list A) (k : nat) (v : A) : result (list A) :=
  if (k <=? length a)%nat then Ok (<[(length a - k)%nat := v]> a)
  else Raise (IndexError "index out of bounds").

(** [a[i]] for a non-negative index *)
Definition getitem {A} (a : list A) (i : nat) : result A :=
  match a !! i with
  | Some v => Ok v
  | None => Raise (IndexError "index out of bounds")
  end.

(** [a[i, j] = v] *)
Definition setitem2 {A} (a : ndarray2 A) (i j : nat) (v : A)
  : result (ndarray2 A) :=
  if (i <? nrows a)%nat && (j <? ncols a)%nat then
    Ok {| nrows := nrows a; ncols := ncols a;
          data := <[(i * ncols a + j)%nat := v]> (data a) |}
  else Raise (IndexError "index out of bounds").

(** Writing [v] at every position listed in [r]. *)
Definition paint {A} (a : list A) (r : list nat) (v : A) : list A :=
  foldl (fun acc k => <[k := v]> acc) a r.

(** [a[r] = v] for a list [r] of non-negative indices: all of them are
    checked before anything is written. *)
Definition setitem_fancy {A} (a : list A) (r : list nat) (v : A)
  : result (list A) :=
  if forallb (fun k => (k <? length a)%nat) r then Ok (paint a r v)
  else Raise (IndexError "index out of bounds").

(** The last of the index lists [l], numbered from [a], that mentions
    position [k]. *)
Fixpoint last_cover (a : nat) (l : list (list nat)) (k : nat) : option nat :=
  match l with
  | [] => None
  | r :: l' =>
      match last_cover (S a) l' k with
      | Some j => Some j
      | None => if bool_decide (k ∈ r) then Some a else None
      end
  end.

(** [indices == i] *)
Definition np_eq_scalar (a : list nat) (i : nat) : list bool :=
  map (fun k => (k =? i)%nat) a.

(** [a & b] with NumPy broadcasting of one-dimensional arrays *)
Definition np_logical_and (a b : list bool) : result (list bool) :=
  if (length a =? length b)%nat then Ok (zip_with andb a b)
  else match a, b with
       | [x], _ => Ok (map (andb x) b)
       | _, [y] => Ok (map (fun x => andb x y) a)
       | _, _ => Raise (ValueError "operands could not be broadcast together")
       end.

Fixpoint compress {A} (mask : list bool) (a : list A) : list A :=
  match mask, a with
  | b :: mask', v :: a' =>
      if b then v :: compress mask' a' else compress mask' a'
  | _, _ => []
  end.

(** [a[mask]] for a boolean mask *)
Definition getitem_mask {A} (a : list A) (mask : list bool) : result (list A) :=
  if (length mask =? length a)%nat then Ok (compress mask a)
  else Raise (IndexError "boolean index did not match indexed array").

(** [a[mask] = v] for a boolean mask of the length of [a] *)
Definition setitem_mask {A} (a : list A) (mask : list bool) (v : A)
  : result (list A) :=
  if (length mask =? length a)%nat
  then Ok (zip_with (fun (b : bool) old => if b then v else old) mask a)
  else Raise (IndexError "boolean index did not match indexed array").

Definition np_count_nonzero (mask : list bool) : nat :=
  length (filter (fun b => b = true) mask).

(** [np.c_[a, b]] for two one-dimensional arrays *)
Definition np_c_ {A B} (a : list A) (b : list B) : result (list (A * B)) :=
  if (length a =? length b)%nat then Ok (zip a b)
  else Raise (ValueError "all the input array dimensions must match").

Definition enumerate {A} (l : list A) : list (nat * A) :=
  zip (seq 0 (length l)) l.

(** ** Collaborators

    What the file imports from the rest of the package, from scikit-learn
    and from joblib.  Each may raise. *)

(** [DecisionTreeRegressor(min_samples_leaf=.., max_leaf_nodes=..)] after
    [fit]: its two hyper-parameters and the fitted tree. *)
Record DecisionTreeRegressor (Tree : Type) : Type := {
  min_samples_leaf : Q;
  max_leaf_nodes : nat;
  tree_ : Tree
}.
Arguments min_samples_leaf {Tree} _.
Arguments max_leaf_nodes {Tree} _.
Arguments tree_ {Tree} _.

(** The nine arrays returned by [split_data_2d]. *)
Record SplitData (A : Type) : Type := {
  x_clean : list Q;  y_clean : list Q;  z_clean : list Q;
  x_missing : list A;  y_missing : list A;  z_missing : list Q;
  x_special : list A;  y_special : list A;  z_special : list Q
}.
Arguments x_clean {A} _.
Arguments y_clean {A} _.
Arguments z_clean {A} _.
Arguments x_missing {A} _.
Arguments y_missing {A} _.
Arguments z_missing {A} _.
Arguments x_special {A} _.
Arguments y_special {A} _.
Arguments z_special {A} _.

(** The eleven values returned by [continuous_model_data] and
    [continuous_model_data_cart]. *)
Record ModelData : Type := {
  md_n_grid : nat;
  md_n_rectangles : nat;
  md_rows : list (list nat);
  md_cols : list (list nat);
  md_c : list Q;
  md_d_connected_x : list (list nat);
  md_d_connected_y : list (list nat);
  md_mean : list Q;
  md_n_records : list Z;
  md_sums : list Q;
  md_stds : list Q
}.

(** The constructor arguments of [Binning2DCP] and [Binning2DMIP]. *)
Inductive backend : Type := CP | MIP.

Record Optimizer : Type := {
  opt_backend : backend;
  opt_monotonic_trend_x : pyobj;
  opt_monotonic_trend_y : pyobj;
  opt_min_n_bins : pyobj;
  opt_max_n_bins : pyobj;
  opt_min_mean_diff_x : pyobj;
  opt_min_mean_diff_y : pyobj;
  opt_gamma : pyobj;
  opt_n_jobs : Z;
  opt_time_limit : pyobj
}.

(** What [_fit_optimizer] hands to the model-data builder. *)
Record ModelDataArgs : Type := {
  arg_R : ndarray2 Q;
  arg_S : ndarray2 Q;
  arg_SS : ndarray2 Q;
  arg_monotonic_trend_x : pyobj;
  arg_monotonic_trend_y : pyobj;
  arg_scale : option Z;
  arg_min_bin_size : option Z;
  arg_max_bin_size : option Z
}.

Class Externals : Type := {
  (** elements of the input arrays [x] and [y], which may be missing or
      special; the target [z] holds numbers *)
  raw : Type;
  (** the fitted state of a scikit-learn tree *)
  Tree : Type;
  (** an optimizer after [build_model] *)
  SolverModel : Type;
  (** [optimizer.solver_] *)
  SolverHandle : Type;
  (** the first component of [solver_statistics] *)
  SolverInfo : Type;
  (** the optimal split arrays of one axis *)
  OptSplits : Type;
  (** the array returned by [transform_continuous_target] *)
  Transformed : Type;

  split_data_2d :
    pyobj -> pyobj -> list raw -> list raw -> list Q ->
    pycodes -> pycodes -> bool -> result (SplitData raw);
  (** inherited method [self._fit_prebinning(dtype, x, z, max_n_prebins,
      min_prebin_size)]; it reads the configuration of [self] *)
  _fit_prebinning :
    Params -> pyobj -> list Q -> list Q -> pyobj -> pyobj -> result (list Q);
  np_std : list Q -> Q;
  (** contents of freshly allocated float and int arrays *)
  uninit_float : nat -> Q;
  uninit_float64 : nat -> npfloat;
  uninit_int : nat -> Z;
  (** [DecisionTreeRegressor(..).fit(xyt, z)] *)
  tree_fit : Q -> nat -> list (Z * Z) -> list Q -> result Tree;
  effective_n_jobs : pyobj -> result Z;
  continuous_model_data : ModelDataArgs -> result ModelData;
  continuous_model_data_cart :
    DecisionTreeRegressor Tree -> ModelDataArgs -> result ModelData;
  (** [optimizer.build_model(n_grid, n_rectangles, cols, c, d_connected_x,
      d_connected_y, mean, n_records)] *)
  build_model :
    Optimizer -> nat -> nat -> list (list nat) -> list Q ->
    list (list nat) -> list (list nat) -> list Q -> list Z ->
    result SolverModel;
  (** [optimizer.solve()]: status, selection vector, and the solver *)
  solve : SolverModel -> result (string * list bool * SolverHandle);
  solver_statistics : pyobj -> SolverHandle -> result (SolverInfo * Q);
  (** inherited method [self._splits_xy_optimal(selected_rows, splits_x,
      splits_y, P)] *)
  _splits_xy_optimal :
    list (list nat) -> list Q -> list Q -> ndarray2 Z ->
    result (OptSplits * OptSplits);
  transform_continuous_target :
    option OptSplits -> option OptSplits -> list raw -> list raw ->
    option (list Z) -> option (list Q) -> pycodes -> pycodes ->
    pyobj -> pyobj -> pyobj -> pyobj -> bool -> result Transformed
}.

Declare Scope method_scope.
Delimit Scope method_scope with method.

(** ** The instance *)

Section Pipeline.

Context `{ext : Externals}.

(** The thirteen constructor arguments of [ContinuousBinningTable2D]. *)
Record ContinuousBinningTable2D : Type := {
  bt_name_x : pyobj;
  bt_name_y : pyobj;
  bt_dtype_x : pyobj;
  bt_dtype_y : pyobj;
  bt_splits_x_optimal : OptSplits;
  bt_splits_y_optimal : OptSplits;
  bt_m : nat;
  bt_n : nat;
  bt_n_records : list Z;
  bt_sums : list Q;
  bt_stds : list Q;
  bt_D : ndarray2 npfloat;
  bt_P : ndarray2 Z
}.

(** Attributes under [# auxiliary] in [__init__]. *)
Record Auxiliary : Type := {
  _n_records_special : option nat;
  _n_records_missing : option nat;
  _sum_special : option Q;
  _sum_missing : option Q;
  _std_special : option Q;
  _std_missing : option Q
}.

(** Attributes under [# info] in [__init__], and [_time_optimizer], which
    comes from the solver and not from the clock. *)
Record Info : Type := {
  _binning_table : option ContinuousBinningTable2D;
  _n_prebins : option nat;
  _n_refinements : Z;
  _n_samples : option nat;
  _optimizer : option SolverInfo;
  _solution : option (list bool);
  _splits_x_optimal : option OptSplits;
  _splits_y_optimal : option OptSplits;
  _status : option string;
  _time_optimizer : option Q
}.

(** Attributes that only [_fit] and [_fit_optimizer] create. *)
Record FitAttrs : Type := {
  _clf : option (DecisionTreeRegressor Tree);
  _selected_rows : option (list (list nat));
  _m : option nat;
  _n : option nat;
  _sums : option (list Q);
  _n_records : option (list Z);
  _cols : option (list (list nat));
  _rows : option (list (list nat));
  _c : option (list Q);
  name : option string
}.

Record ContinuousOptimalBinning2D : Type := {
  params : Params;
  aux : Auxiliary;
  info : Info;
  attrs : FitAttrs;
  _is_fitted : bool
}.

Definition __init__ (p : Params) : ContinuousOptimalBinning2D :=
  {| params := p;
     aux := {| _n_records_special := None; _n_records_missing := None;
               _sum_special := None; _sum_missing := None;
               _std_special := None; _std_missing := None |};
     info := {| _binning_table := None; _n_prebins := None;
                _n_refinements := 0; _n_samples := None;
                _optimizer := None; _solution := None;
                _splits_x_optimal := None; _splits_y_optimal := None;
                _status := None; _time_optimizer := None |};
     attrs := {| _clf := None; _selected_rows := None; _m := None;
                 _n := None; _sums := None; _n_records := None;
                 _cols := None; _rows := None; _c := None; name := None |};
     _is_fitted := false |}.

(** *** Attribute assignment *)

Definition with_aux (a : Auxiliary) (self : ContinuousOptimalBinning2D) :=
  {| params := params self; aux := a; info := info self;
     attrs := attrs self; _is_fitted := _is_fitted self |}.

Definition with_info (f : Info -> Info) (self : ContinuousOptimalBinning2D) :=
  {| params := params self; aux := aux self; info := f (info self);
     attrs := attrs self; _is_fitted := _is_fitted self |}.

Definition with_attrs (f : FitAttrs -> FitAttrs)
    (self : ContinuousOptimalBinning2D) :=
  {| params := params self; aux := aux self; info := info self;
     attrs := f (attrs self); _is_fitted := _is_fitted self |}.

Definition set_is_fitted (b : bool) (self : ContinuousOptimalBinning2D) :=
  {| params := params self; aux := aux self; info := info self;
     attrs := attrs self; _is_fitted := b |}.

Definition set_binning_table (v : ContinuousBinningTable2D) (i : Info) : Info :=
  {| _binning_table := Some v; _n_prebins := _n_prebins i;
     _n_refinements := _n_refinements i; _n_samples := _n_samples i;
     _optimizer := _optimizer i; _solution := _solution i;
     _splits_x_optimal := _splits_x_optimal i;
     _splits_y_optimal := _splits_y_optimal i;
     _status := _status i; _time_optimizer := _time_optimizer i |}.

Definition set_n_prebins (v : nat) (i : Info) : Info :=
  {| _binning_table := _binning_table i; _n_prebins := Some v;
     _n_refinements := _n_refinements i; _n_samples := _n_samples i;
     _optimizer := _optimizer i; _solution := _solution i;
     _splits_x_optimal := _splits_x_optimal i;
     _splits_y_optimal := _splits_y_optimal i;
     _status := _status i; _time_optimizer := _time_optimizer i |}.

Definition set_n_refinements (v : Z) (i : Info) : Info :=
  {| _binning_table := _binning_table i; _n_prebins := _n_prebins i;
     _n_refinements := v; _n_samples := _n_samples i;
     _optimizer := _optimizer i; _solution := _solution i;
     _splits_x_optimal := _splits_x_optimal i;
     _splits_y_optimal := _splits_y_optimal i;
     _status := _status i; _time_optimizer := _time_optimizer i |}.

Definition set_n_samples (v : nat) (i : Info) : Info :=
  {| _binning_table := _binning_table i; _n_prebins := _n_prebins i;
     _n_refinements := _n_refinements i; _n_samples := Some v;
     _optimizer := _optimizer i; _solution := _solution i;
     _splits_x_optimal := _splits_x_optimal i;
     _splits_y_optimal := _splits_y_optimal i;
     _status := _status i; _time_optimizer := _time_optimizer i |}.

Definition set_solution (v : list bool) (i : Info) : Info :=
  {| _binning_table := _binning_table i; _n_prebins := _n_prebins i;
     _n_refinements := _n_refinements i; _n_samples := _n_samples i;
     _optimizer := _optimizer i; _solution := Some v;
     _splits_x_optimal := _splits_x_optimal i;
     _splits_y_optimal := _splits_y_optimal i;
     _status := _status i; _time_optimizer := _time_optimizer i |}.

(** [self._optimizer, self._time_optimizer = ...] *)
Definition set_optimizer (v : SolverInfo) (t : Q) (i : Info) : Info :=
  {| _binning_table := _binning_table i; _n_prebins := _n_prebins i;
     _n_refinements := _n_refinements i; _n_samples := _n_samples i;
     _optimizer := Some v; _solution := _solution i;
     _splits_x_optimal := _splits_x_optimal i;
     _splits_y_optimal := _splits_y_optimal i;
     _status := _status i; _time_optimizer := Some t |}.

Definition set_status (v : string) (i : Info) : Info :=
  {| _binning_table := _binning_table i; _n_prebins := _n_prebins i;
     _n_refinements := _n_refinements i; _n_samples := _n_samples i;
     _optimizer := _optimizer i; _solution := _solution i;
     _splits_x_optimal := _splits_x_optimal i;
     _splits_y_optimal := _splits_y_optimal i;
     _status := Some v; _time_optimizer := _time_optimizer i |}.

Definition set_splits_optimal (sx sy : OptSplits) (i : Info) : Info :=
  {| _binning_table := _binning_table i; _n_prebins := _n_prebins i;
     _n_refinements := _n_refinements i; _n_samples := _n_samples i;
     _optimizer := _optimizer i; _solution := _solution i;
     _splits_x_optimal := Some sx; _splits_y_optimal := Some sy;
     _status := _status i; _time_optimizer := _time_optimizer i |}.

Definition set_clf (v : DecisionTreeRegressor Tree) (a : FitAttrs)
  : FitAttrs :=
  {| _clf := Some v; _selected_rows := _selected_rows a; _m := _m a;
     _n := _n a; _sums := _sums a; _n_records := _n_records a;
     _cols := _cols a; _rows := _rows a; _c := _c a; name := name a |}.

(** [self._selected_rows = ..; self._m, self._n = m, n] *)
Definition set_selected_rows (v : list (list nat)) (m n : nat) (a : FitAttrs)
  : FitAttrs :=
  {| _clf := _clf a; _selected_rows := Some v; _m := Some m;
     _n := Some n; _sums := _sums a; _n_records := _n_records a;
     _cols := _cols a; _rows := _rows a; _c := _c a; name := name a |}.

(** [self._sums = ..; self._n_records = ..] *)
Definition set_sums_n_records (s : list Q) (r : list Z) (a : FitAttrs)
  : FitAttrs :=
  {| _clf := _clf a; _selected_rows := _selected_rows a; _m := _m a;
     _n := _n a; _sums := Some s; _n_records := Some r;
     _cols := _cols a; _rows := _rows a; _c := _c a; name := name a |}.

(** [self._cols = ..; self._rows = ..; self._c = ..] *)
Definition set_cols_rows_c (cols rows : list (list nat)) (c : list Q)
    (a : FitAttrs) : FitAttrs :=
  {| _clf := _clf a; _selected_rows := _selected_rows a; _m := _m a;
     _n := _n a; _sums := _sums a; _n_records := _n_records a;
     _cols := Some cols; _rows := Some rows; _c := Some c; name := name a |}.

Definition set_name (v : string) (a : FitAttrs) : FitAttrs :=
  {| _clf := _clf a; _selected_rows := _selected_rows a; _m := _m a;
     _n := _n a; _sums := _sums a; _n_records := _n_records a;
     _cols := _cols a; _rows := _rows a; _c := _c a; name := Some v |}.

(** *** The monad of methods

    A method maps the instance to an outcome and the instance it leaves
    behind; attributes written before an exception stay written. *)

Definition M (A : Type) : Type :=
  ContinuousOptimalBinning2D -> result A * ContinuousOptimalBinning2D.

Definition mret {A} (a : A) : M A := fun self => (Ok a, self).

Definition mbind {A B} (m : M A) (k : A -> M B) : M B :=
  fun self =>
    match m self with
    | (Ok a, self') => k a self'
    | (Raise e, self') => (Raise e, self')
    end.

Definition lift {A} (r : result A) : M A := fun self => (r, self).

Definition getattr {A} (f : ContinuousOptimalBinning2D -> A) : M A :=
  fun self => (Ok (f self), self).

Definition setattr
    (f : ContinuousOptimalBinning2D -> ContinuousOptimalBinning2D) : M unit :=
  fun self => (Ok tt, f self).

Notation "x <- m ;; k" := (mbind m (fun x => k))
  (at level 100, m at next level, right associativity) : method_scope.

(** [o == "literal"] *)
Definition py_eq_str (o : pyobj) (s : string) : bool :=
  match o with
  | PyStr t => bool_decide (t = s)
  | _ => false
  end.

(** Reading an attribute that is still [None] where a value is needed. *)
Definition require {A} (o : option A) (what : string) : result A :=
  match o with
  | Some v => Ok v
  | None => Raise (TypeError what)
  end.

(** ** [_prebinning_matrices]

    The matrices [R], [S] and [SS] of the source are [mR], [mS] and [mSS]
    here. *)

Definition CellMatrices : Type := ndarray2 Q * ndarray2 Q * ndarray2 Q.

(** The body of the inner loop, for row index [i] and column index [j]. *)
Definition cell_body (indices_x indices_y : list nat) (z_clean : list Q)
    (i j : nat) (acc : CellMatrices) : result CellMatrices :=
  let '(mR, mS, mSS) := acc in
  let mask_y := np_eq_scalar indices_y i in
  let mask_x := np_eq_scalar indices_x j in
  (mask <- np_logical_and mask_x mask_y ;;
   zmask <- getitem_mask z_clean mask ;;
   mR' <- setitem2 mR i j (inject_Z (Z.of_nat (np_count_nonzero mask))) ;;
   mS' <- setitem2 mS i j (Qsum zmask) ;;
   mSS' <- setitem2 mSS i j (Qsum (map (fun z => z * z)%Q zmask)) ;;
   Ok (mR', mS', mSS'))%result.

Definition cell_matrices (splits_x splits_y x_clean y_clean z_clean : list Q)
  : result CellMatrices :=
  let n_splits_x := length splits_x in
  let n_splits_y := length splits_y in
  (indices_x <- np_digitize x_clean splits_x ;;
   let n_bins_x := (n_splits_x + 1)%nat in
   indices_y <- np_digitize y_clean splits_y ;;
   let n_bins_y := (n_splits_y + 1)%nat in
   let mR := np_empty2 uninit_float n_bins_x n_bins_y in
   let mS := np_empty2 uninit_float n_bins_x n_bins_y in
   let mSS := np_empty2 uninit_float n_bins_x n_bins_y in
   for_each (seq 0 n_bins_y)
     (fun i acc =>
        for_each (seq 0 n_bins_x) (cell_body indices_x indices_y z_clean i) acc)
     (mR, mS, mSS))%result.

(** [np.std(z) if len(z) else 0] *)
Definition subset_std (z : list Q) : Q :=
  if (0 <? length z)%nat then np_std z else 0%Q.

(** Count, sum and standard deviation of the missing and special subsets. *)
Definition subset_statistics (z_missing z_special : list Q) : Auxiliary :=
  {| _n_records_missing := Some (length z_missing);
     _n_records_special := Some (length z_special);
     _sum_missing := Some (Qsum z_missing);
     _sum_special := Some (Qsum z_special);
     _std_missing := Some (subset_std z_missing);
     _std_special := Some (subset_std z_special) |}.

Definition _prebinning_matrices (splits_x splits_y : list Q)
    (x_clean y_clean z_clean : list Q)
    (x_missing y_missing : list raw) (z_missing : list Q)
    (x_special y_special : list raw) (z_special : list Q) : M CellMatrices :=
  (_ <- setattr (with_aux (subset_statistics z_missing z_special)) ;;
   lift (cell_matrices splits_x splits_y x_clean y_clean z_clean))%method.

(** *** What the cell loops compute

    The three matrices come as a triple [(R, S, SS)]; [mats.1.1] is [R],
    [mats.1.2] is [S] and [mats.2] is [SS]. *)

Definition same_shape (r c : nat) (m : ndarray2 Q) : Prop :=
  nrows m = r /\ ncols m = c /\ length (data m) = r * c.

Definition shaped (r c : nat) (acc : CellMatrices) : Prop :=
  same_shape r c acc.1.1 /\ same_shape r c acc.1.2 /\ same_shape r c acc.2.

(** [(indices_x == j) & (indices_y == i)] for arrays of one length *)
Definition cell_mask (indices_x indices_y : list nat) (i j : nat) : list bool :=
  zip_with andb (np_eq_scalar indices_x j) (np_eq_scalar indices_y i).

(** The value that the loops write at flat position [p] of a matrix with
    [c] columns, for a function [F] of the row and the column. *)
Definition at_position (F : nat -> nat -> Q) (c p : nat) : Q :=
  F (p / c) (p mod c).

Definition cell_count (ix iy : list nat) (i j : nat) : Q :=
  inject_Z (Z.of_nat (np_count_nonzero (cell_mask ix iy i j))).

Definition cell_sum (ix iy : list nat) (zc : list Q) (i j : nat) : Q :=
  Qsum (compress (cell_mask ix iy i j) zc).

Definition cell_sum_squares (ix iy : list nat) (zc : list Q) (i j : nat) : Q :=
  Qsum (map (fun z => z * z)%Q (compress (cell_mask ix iy i j) zc)).

(** Positions [lo, hi) of [new] hold the final values, the others what
    [old] held. *)
Definition filled (F : nat -> nat -> Q) (c lo hi : nat)
    (old new : ndarray2 Q) : Prop :=
  forall p,
    data new !! p =
      if decide (lo <= p < hi) then Some (at_position F c p)
      else data old !! p.

Definition all_filled (ix iy : list nat) (zc : list Q) (c lo hi : nat)
    (old new : CellMatrices) : Prop :=
  filled (cell_count ix iy) c lo hi old.1.1 new.1.1 /\
  filled (cell_sum ix iy zc) c lo hi old.1.2 new.1.2 /\
  filled (cell_sum_squares ix iy zc) c lo hi old.2 new.2.

(** The split lists that [np.digitize] accepts. *)
Definition monotone (bins : list Q) : bool :=
  nondecreasing bins || nonincreasing bins.

(** ** [_fit_optimizer] *)

(** [int(np.ceil(fraction * self._n_samples))], or [None] when the
    fraction is [None].  A float fraction multiplies the sample count
    converted to binary64, and the product is rounded; an integer fraction
    multiplies it exactly and [np.ceil] converts the product.  [nan] and
    the infinities pass through the product and [np.ceil] and are refused
    by [int].  (The sample count is a [len] and stays below [2^63].) *)
Definition bin_size_bound (fraction : pyobj) (n_samples : option nat)
  : result (option Z) :=
  match fraction, n_samples with
  | PyNone, _ => Ok None
  | _, None => Raise (TypeError "unsupported operand types for *")
  | PyFloat q, Some n =>
      Ok (Some (Qceiling (float64 (q * float64 (inject_Z (Z.of_nat n))))))
  | PyInt k, Some n =>
      Ok (Some (Qceiling (float64 (inject_Z (k * Z.of_nat n)))))
  | PyBool b, Some n =>
      Ok (Some (Qceiling
                  (float64 (inject_Z ((if b then 1 else 0) * Z.of_nat n)))))
  | PyNan, Some _ | PyInf _, Some O =>
      Raise (ValueError "cannot convert float NaN to integer")
  | PyInf _, Some (S _) =>
      Raise (OverflowError "cannot convert float infinity to integer")
  | PyStr _, Some _ =>
      Raise (TypeError "ufunc 'ceil' not supported for the input types")
  end.

(** The branch on [self.solver]: the scale and the optimizer object.  With
    any other value both names stay unbound and their first use raises. *)
Definition choose_optimizer (p : Params) (jobs : Z)
  : result (option Z * Optimizer) :=
  let make b :=
    {| opt_backend := b;
       opt_monotonic_trend_x := monotonic_trend_x p;
       opt_monotonic_trend_y := monotonic_trend_y p;
       opt_min_n_bins := min_n_bins p;
       opt_max_n_bins := max_n_bins p;
       opt_min_mean_diff_x := min_mean_diff_x p;
       opt_min_mean_diff_y := min_mean_diff_y p;
       opt_gamma := gamma p;
       opt_n_jobs := jobs;
       opt_time_limit := time_limit p |} in
  if py_eq_str (solver p) "cp" then Ok (Some 1000000%Z, make CP)
  else if py_eq_str (solver p) "mip" then Ok (None, make MIP)
  else Raise (UnboundLocalError "scale").

Definition _fit_optimizer (splits_x splits_y : list Q) (mR mS mSS : ndarray2 Q)
  : M (list (list nat) * list Z * list Q * list Q) :=
  (self <- getattr id ;;
   let p := params self in
   min_bs <- lift (bin_size_bound (min_bin_size p) (_n_samples (info self))) ;;
   max_bs <- lift (bin_size_bound (max_bin_size p) (_n_samples (info self))) ;;
   jobs <- lift (effective_n_jobs (n_jobs p)) ;;
   so <- lift (choose_optimizer p jobs) ;;
   let args :=
     {| arg_R := mR; arg_S := mS; arg_SS := mSS;
        arg_monotonic_trend_x := monotonic_trend_x p;
        arg_monotonic_trend_y := monotonic_trend_y p;
        arg_scale := fst so;
        arg_min_bin_size := min_bs;
        arg_max_bin_size := max_bs |} in
   md <- lift (if py_eq_str (strategy p) "cart" then
                 (clf <- require (_clf (attrs self)) "_clf" ;;
                  continuous_model_data_cart clf args)%result
               else continuous_model_data args) ;;
   model <- lift (build_model (snd so) (md_n_grid md) (md_n_rectangles md)
                    (md_cols md) (md_c md) (md_d_connected_x md)
                    (md_d_connected_y md) (md_mean md) (md_n_records md)) ;;
   solved <- lift (solve model) ;;
   _ <- setattr (with_info (set_solution (snd (fst solved)))) ;;
   stats <- lift (solver_statistics (solver p) (snd solved)) ;;
   _ <- setattr (with_info (set_optimizer (fst stats) (snd stats))) ;;
   _ <- setattr (with_info (set_status (fst (fst solved)))) ;;
   _ <- setattr (with_attrs
                   (set_cols_rows_c (md_cols md) (md_rows md) (md_c md))) ;;
   mret (md_rows md, md_n_records md, md_sums md, md_stds md))%method.

(** ** [_fit] *)

(** [min(a, b)]: the second argument wins only when it is smaller. *)
Definition py_min (a b : pyobj) : result pyobj :=
  (lt <- py_lt b a ;; Ok (if lt : bool then b else a))%result.

(** [o * 0.25] and the like: a number times a float literal.  The product
    becomes [min_samples_leaf]; it is only evaluated on validated sizes,
    which are finite, and scikit-learn would refuse a tree with any
    other. *)
Definition py_mul_float (o : pyobj) (q : Q) : result Q :=
  match number_value o with
  | Some v => Ok (v * q)%Q
  | None =>
      if is_number o then Raise (ValueError "min_samples_leaf")
      else Raise (TypeError "unsupported operand types for *")
  end.

(** The block under [if self.strategy == "cart":]. *)
Definition fit_cart_tree (p : Params) (splits_x splits_y : list Q)
    (x_clean y_clean z_clean : list Q)
  : result (DecisionTreeRegressor Tree) :=
  let n_splits_x := length splits_x in
  let n_splits_y := length splits_y in
  let clf_nodes := (n_splits_x * n_splits_y)%nat in
  (indices_x <- np_digitize x_clean splits_x ;;
   let n_bins_x := (n_splits_x + 1)%nat in
   indices_y <- np_digitize y_clean splits_y ;;
   let n_bins_y := (n_splits_y + 1)%nat in
   let xt := np_empty uninit_int (length x_clean) in
   let yt := np_empty uninit_int (length y_clean) in
   xt <- for_each (seq 0 n_bins_x)
           (fun i xt => setitem_mask xt (np_eq_scalar indices_x i) (Z.of_nat i))
           xt ;;
   yt <- for_each (seq 0 n_bins_y)
           (fun i yt => setitem_mask yt (np_eq_scalar indices_y i) (Z.of_nat i))
           yt ;;
   xyt <- np_c_ xt yt ;;
   smaller <- py_min (min_prebin_size_x p) (min_prebin_size_y p) ;;
   min_prebin_size <- py_mul_float smaller (1#4) ;;
   fitted <- tree_fit min_prebin_size clf_nodes xyt z_clean ;;
   Ok {| min_samples_leaf := min_prebin_size;
         max_leaf_nodes := clf_nodes;
         tree_ := fitted |})%result.

(** The local arrays that the reconstruction loop fills. *)
Record Reconstruction : Type := {
  rc_P : list Z;
  rc_D : list npfloat;
  opt_sums : list Q;
  opt_n_records : list Z;
  opt_stds : list Q
}.

(** [np.array(rows, dtype=object)] has two dimensions when the candidates
    all have the same number of cells (and there is at least one): its
    rows are then arrays of objects, not lists.  Candidates of different
    lengths make a one-dimensional array of lists. *)
Definition object_array_is_2d (rows : list (list nat)) : bool :=
  match rows with
  | [] => false
  | r :: rows' => forallb (fun r' => (length r' =? length r)%nat) rows'
  end.

(** The body of [for i, r in enumerate(selected_rows)].  A list [r] of
    cells is an index for [P] and [D]; a row [r] of a two-dimensional
    array of objects ([rows_2d]) is not, and [P[r] = i] raises. *)
Definition reconstruct_body (rows_2d : bool) (solution : list bool)
    (n_records : list Z) (sums stds : list Q) (ir : nat * list nat)
    (acc : Reconstruction) : result Reconstruction :=
  let i := fst ir in
  let r := snd ir in
  (n_sel <- getitem_mask n_records solution ;;
   _n_records <- getitem n_sel i ;;
   s_sel <- getitem_mask sums solution ;;
   _sums <- getitem s_sel i ;;
   let _mean := np_true_divide _sums (inject_Z _n_records) in
   st_sel <- getitem_mask stds solution ;;
   _stds <- getitem st_sel i ;;
   P <- (if rows_2d
         then Raise (IndexError
                "arrays used as indices must be of integer (or boolean) type")
         else setitem_fancy (rc_P acc) r (Z.of_nat i)) ;;
   D <- setitem_fancy (rc_D acc) r _mean ;;
   osums <- setitem (opt_sums acc) i _sums ;;
   on_records <- setitem (opt_n_records acc) i _n_records ;;
   ostds <- setitem (opt_stds acc) i _stds ;;
   Ok {| rc_P := P; rc_D := D; opt_sums := osums;
         opt_n_records := on_records; opt_stds := ostds |})%result.

(** The value of [_mean] in the iteration for the [j]-th selected
    candidate. *)
Definition selected_mean (solution : list bool) (n_records : list Z)
    (sums : list Q) (j : nat) : option npfloat :=
  match compress solution sums !! j, compress solution n_records !! j with
  | Some s, Some n => Some (np_true_divide s (inject_Z n))
  | _, _ => None
  end.

(** The six assignments at positions [-2] and [-1]. *)
Definition append_virtual_bins (a : Auxiliary) (rc : Reconstruction)
  : result Reconstruction :=
  (n_special <- require (_n_records_special a) "_n_records_special" ;;
   on1 <- setitem_neg (opt_n_records rc) 2 (Z.of_nat n_special) ;;
   sum_special <- require (_sum_special a) "_sum_special" ;;
   os1 <- setitem_neg (opt_sums rc) 2 sum_special ;;
   std_special <- require (_std_special a) "_std_special" ;;
   ot1 <- setitem_neg (opt_stds rc) 2 std_special ;;
   n_missing <- require (_n_records_missing a) "_n_records_missing" ;;
   on2 <- setitem_neg on1 1 (Z.of_nat n_missing) ;;
   sum_missing <- require (_sum_missing a) "_sum_missing" ;;
   os2 <- setitem_neg os1 1 sum_missing ;;
   std_missing <- require (_std_missing a) "_std_missing" ;;
   ot2 <- setitem_neg ot1 1 std_missing ;;
   Ok {| rc_P := rc_P rc; rc_D := rc_D rc; opt_sums := os2;
         opt_n_records := on2; opt_stds := ot2 |})%result.

(** [(m * n * (m + 1) * (n + 1)) // 4 - len(rows)] on Python integers *)
Definition n_refinements (m n : nat) (rows : list (list nat)) : Z :=
  (Z.of_nat m * Z.of_nat n * (Z.of_nat m + 1) * (Z.of_nat n + 1)) / 4
  - Z.of_nat (length rows).

(** ["-".join((a, b))] *)
Definition join_names (a b : pyobj) : result string :=
  match a, b with
  | PyStr s, PyStr t => Ok (s ++ "-" ++ t)%string
  | _, _ => Raise (TypeError "sequence item: expected str instance")
  end.

Definition _fit (x y : list raw) (z : list Q) (check_input : bool)
  : M unit :=
  (p <- getattr params ;;
   _ <- lift (_check_parameters p) ;;
   (* Pre-processing *)
   _ <- setattr (with_info (set_n_samples (length x))) ;;
   sd <- lift (split_data_2d (dtype_x p) (dtype_y p) x y z
                 (special_codes_x p) (special_codes_y p) check_input) ;;
   (* Pre-binning *)
   splits_x <- lift (_fit_prebinning p (dtype_x p) (x_clean sd) (z_clean sd)
                       (max_n_prebins_x p) (min_prebin_size_x p)) ;;
   splits_y <- lift (_fit_prebinning p (dtype_y p) (y_clean sd) (z_clean sd)
                       (max_n_prebins_y p) (min_prebin_size_y p)) ;;
   mats <- _prebinning_matrices splits_x splits_y
             (x_clean sd) (y_clean sd) (z_clean sd)
             (x_missing sd) (y_missing sd) (z_missing sd)
             (x_special sd) (y_special sd) (z_special sd) ;;
   let mR := fst (fst mats) in
   let mS := snd (fst mats) in
   let mSS := snd mats in
   _ <- (if py_eq_str (strategy p) "cart" then
           clf <- lift (fit_cart_tree p splits_x splits_y
                          (x_clean sd) (y_clean sd) (z_clean sd)) ;;
           setattr (with_attrs (set_clf clf))
         else mret tt) ;;
   _ <- setattr (with_info (set_n_prebins (length (data mR)))) ;;
   (* Optimization *)
   res <- _fit_optimizer splits_x splits_y mR mS mSS ;;
   let rows := fst (fst (fst res)) in
   let n_records := snd (fst (fst res)) in
   let sums := snd (fst res) in
   let stds := snd res in
   (* Post-processing *)
   let m := nrows mR in
   let n := ncols mR in
   _ <- setattr (with_info (set_n_refinements (n_refinements m n rows))) ;;
   let D := np_empty uninit_float64 (m * n) in
   let P := np_empty uninit_int (m * n) in
   self <- getattr id ;;
   solution <- lift (require (_solution (info self)) "_solution") ;;
   selected_rows <- lift (getitem_mask rows solution) ;;
   _ <- setattr (with_attrs (set_selected_rows selected_rows m n)) ;;
   let n_selected_rows := (length selected_rows + 2)%nat in
   let rc0 :=
     {| rc_P := P; rc_D := D;
        opt_sums := np_empty uninit_float n_selected_rows;
        opt_n_records := np_empty uninit_int n_selected_rows;
        opt_stds := replicate n_selected_rows 0%Q |} in
   rc1 <- lift (for_each (enumerate selected_rows)
                  (reconstruct_body (object_array_is_2d rows)
                     solution n_records sums stds) rc0) ;;
   rc <- lift (append_virtual_bins (aux self) rc1) ;;
   _ <- setattr (with_attrs
                   (set_sums_n_records (opt_sums rc) (opt_n_records rc))) ;;
   D2 <- lift (reshape (rc_D rc) m n) ;;
   P2 <- lift (reshape (rc_P rc) m n) ;;
   opt <- lift (_splits_xy_optimal selected_rows splits_x splits_y P2) ;;
   _ <- setattr (with_info (set_splits_optimal (fst opt) (snd opt))) ;;
   _ <- setattr (with_info (set_binning_table
          {| bt_name_x := name_x p; bt_name_y := name_y p;
             bt_dtype_x := dtype_x p; bt_dtype_y := dtype_y p;
             bt_splits_x_optimal := fst opt;
             bt_splits_y_optimal := snd opt;
             bt_m := m; bt_n := n;
             bt_n_records := opt_n_records rc;
             bt_sums := opt_sums rc;
             bt_stds := opt_stds rc;
             bt_D := D2; bt_P := P2 |})) ;;
   joined <- lift (join_names (name_x p) (name_y p)) ;;
   _ <- setattr (with_attrs (set_name joined)) ;;
   (* Completed successfully *)
   setattr (set_is_fitted true))%method.

Definition fit (x y : list raw) (z : list Q) (check_input : bool)
  : M unit :=
  _fit x y z check_input.

(** Modelled from the spec: [_check_is_fitted] is inherited from the base
    class, which is not part of this file.  The spec (4.6 and 7b) says that
    a query operation requires the model to be fitted and raises an
    unfit-model error otherwise; the only record of a completed fit is
    [_is_fitted]. *)
Definition _check_is_fitted : M unit :=
  (fitted <- getattr _is_fitted ;;
   if fitted : bool then mret tt else lift (Raise NotFittedError))%method.

Definition transform (x y : list raw)
    (metric metric_special metric_missing show_digits : pyobj)
    (check_input : bool) : M Transformed :=
  (_ <- _check_is_fitted ;;
   self <- getattr id ;;
   lift (transform_continuous_target
           (_splits_x_optimal (info self)) (_splits_y_optimal (info self))
           x y (_n_records (attrs self)) (_sums (attrs self))
           (special_codes_x (params self)) (special_codes_y (params self))
           metric metric_special metric_missing show_digits check_input))%method.

Definition fit_transform (x y : list raw) (z : list Q)
    (metric metric_special metric_missing show_digits : pyobj)
    (check_input : bool) : M Transformed :=
  (_ <- fit x y z check_input ;;
   transform x y metric metric_special metric_missing show_digits
     check_input)%method.

(** ** The record of a completed [_fit]

    Every intermediate value of a call of [_fit] that returns normally:
    what each collaborator answered and what each local variable held. *)

Record FitTrace : Type := {
  tr_sd : SplitData raw;
  tr_splits_x : list Q;
  tr_splits_y : list Q;
  tr_mats : CellMatrices;
  tr_clf : option (DecisionTreeRegressor Tree);
  tr_jobs : Z;
  tr_optimizer : option Z * Optimizer;
  tr_args : ModelDataArgs;
  tr_md : ModelData;
  tr_model : SolverModel;
  tr_solved : string * list bool * SolverHandle;
  tr_stats : SolverInfo * Q;
  tr_selected_rows : list (list nat);
  tr_loop : Reconstruction;
  tr_rc : Reconstruction;
  tr_D : ndarray2 npfloat;
  tr_P : ndarray2 Z;
  tr_opt : OptSplits * OptSplits;
  tr_name : string
}.

Definition tr_R (t : FitTrace) : ndarray2 Q := fst (fst (tr_mats t)).
Definition tr_status (t : FitTrace) : string := fst (fst (tr_solved t)).
Definition tr_solution (t : FitTrace) : list bool := snd (fst (tr_solved t)).

(** The arrays before the first iteration of the reconstruction loop. *)
Definition reconstruction_start (m n k : nat) : Reconstruction :=
  {| rc_P := np_empty uninit_int (m * n);
     rc_D := np_empty uninit_float64 (m * n);
     opt_sums := np_empty uninit_float (k + 2);
     opt_n_records := np_empty uninit_int (k + 2);
     opt_stds := replicate (k + 2) 0%Q |}.

Definition fit_table (p : Params) (t : FitTrace) : ContinuousBinningTable2D :=
  {| bt_name_x := name_x p; bt_name_y := name_y p;
     bt_dtype_x := dtype_x p; bt_dtype_y := dtype_y p;
     bt_splits_x_optimal := fst (tr_opt t);
     bt_splits_y_optimal := snd (tr_opt t);
     bt_m := nrows (tr_R t); bt_n := ncols (tr_R t);
     bt_n_records := opt_n_records (tr_rc t);
     bt_sums := opt_sums (tr_rc t);
     bt_stds := opt_stds (tr_rc t);
     bt_D := tr_D t; bt_P := tr_P t |}.

(** The equations between the values of a trace. *)
Definition fit_trace_ok (x y : list raw) (z : list Q) (check_input : bool)
    (p : Params) (t : FitTrace) : Prop :=
  let sd := tr_sd t in
  let md := tr_md t in
  let m := nrows (tr_R t) in
  let n := ncols (tr_R t) in
  _check_parameters p = Ok tt /\
  split_data_2d (dtype_x p) (dtype_y p) x y z
    (special_codes_x p) (special_codes_y p) check_input = Ok sd /\
  _fit_prebinning p (dtype_x p) (x_clean sd) (z_clean sd)
    (max_n_prebins_x p) (min_prebin_size_x p) = Ok (tr_splits_x t) /\
  _fit_prebinning p (dtype_y p) (y_clean sd) (z_clean sd)
    (max_n_prebins_y p) (min_prebin_size_y p) = Ok (tr_splits_y t) /\
  cell_matrices (tr_splits_x t) (tr_splits_y t)
    (x_clean sd) (y_clean sd) (z_clean sd) = Ok (tr_mats t) /\
  (if py_eq_str (strategy p) "cart"
   then exists clf,
       tr_clf t = Some clf /\
       fit_cart_tree p (tr_splits_x t) (tr_splits_y t)
         (x_clean sd) (y_clean sd) (z_clean sd) = Ok clf
   else tr_clf t = None) /\
  bin_size_bound (min_bin_size p) (Some (length x))
    = Ok (arg_min_bin_size (tr_args t)) /\
  bin_size_bound (max_bin_size p) (Some (length x))
    = Ok (arg_max_bin_size (tr_args t)) /\
  effective_n_jobs (n_jobs p) = Ok (tr_jobs t) /\
  choose_optimizer p (tr_jobs t) = Ok (tr_optimizer t) /\
  tr_args t =
    {| arg_R := tr_R t; arg_S := snd (fst (tr_mats t));
       arg_SS := snd (tr_mats t);
       arg_monotonic_trend_x := monotonic_trend_x p;
       arg_monotonic_trend_y := monotonic_trend_y p;
       arg_scale := fst (tr_optimizer t);
       arg_min_bin_size := arg_min_bin_size (tr_args t);
       arg_max_bin_size := arg_max_bin_size (tr_args t) |} /\
  match tr_clf t with
  | Some clf => continuous_model_data_cart clf (tr_args t)
  | None => continuous_model_data (tr_args t)
  end = Ok md /\
  build_model (snd (tr_optimizer t)) (md_n_grid md) (md_n_rectangles md)
    (md_cols md) (md_c md) (md_d_connected_x md) (md_d_connected_y md)
    (md_mean md) (md_n_records md) = Ok (tr_model t) /\
  solve (tr_model t) = Ok (tr_solved t) /\
  solver_statistics (solver p) (snd (tr_solved t)) = Ok (tr_stats t) /\
  getitem_mask (md_rows md) (tr_solution t) = Ok (tr_selected_rows t) /\
  for_each (enumerate (tr_selected_rows t))
    (reconstruct_body (object_array_is_2d (md_rows md))
       (tr_solution t) (md_n_records md) (md_sums md)
       (md_stds md))
    (reconstruction_start m n (length (tr_selected_rows t)))
    = Ok (tr_loop t) /\
  append_virtual_bins
    (subset_statistics (z_missing sd) (z_special sd)) (tr_loop t)
    = Ok (tr_rc t) /\
  reshape (rc_D (tr_rc t)) m n = Ok (tr_D t) /\
  reshape (rc_P (tr_rc t)) m n = Ok (tr_P t) /\
  _splits_xy_optimal (tr_selected_rows t) (tr_splits_x t) (tr_splits_y t)
    (tr_P t) = Ok (tr_opt t) /\
  join_names (name_x p) (name_y p) = Ok (tr_name t).

(** The instance that such a call leaves behind. *)
Definition fit_state (x : list raw) (t : FitTrace)
    (self : ContinuousOptimalBinning2D) : ContinuousOptimalBinning2D :=
  let m := nrows (tr_R t) in
  let n := ncols (tr_R t) in
  let s1 := with_aux (subset_statistics (z_missing (tr_sd t))
                                        (z_special (tr_sd t)))
              (with_info (set_n_samples (length x)) self) in
  let s2 := match tr_clf t with
            | Some clf => with_attrs (set_clf clf) s1
            | None => s1
            end in
  let s3 := with_info (set_n_prebins (length (data (tr_R t)))) s2 in
  let s4 := with_attrs (set_cols_rows_c (md_cols (tr_md t))
                          (md_rows (tr_md t)) (md_c (tr_md t)))
              (with_info (set_status (tr_status t))
                 (with_info (set_optimizer (fst (tr_stats t))
                                           (snd (tr_stats t)))
                    (with_info (set_solution (tr_solution t)) s3))) in
  let s5 := with_attrs (set_selected_rows (tr_selected_rows t) m n)
              (with_info
                 (set_n_refinements (n_refinements m n (md_rows (tr_md t))))
                 s4) in
  let s6 := with_attrs (set_sums_n_records (opt_sums (tr_rc t))
                                           (opt_n_records (tr_rc t))) s5 in
  let s7 := with_info (set_binning_table (fit_table (params self) t))
              (with_info (set_splits_optimal (fst (tr_opt t))
                                             (snd (tr_opt t))) s6) in
  set_is_fitted true (with_attrs (set_name (tr_name t)) s7).

(** ** What a method leaves alone *)

(** A method keeps [f] when it leaves that part of the instance alone
    whatever its outcome. *)
Definition keeps {A B} (f : ContinuousOptimalBinning2D -> B) (m : M A)
  : Prop :=
  forall self, f (snd (m self)) = f self.

(** A method keeps [f] on failure when a call that raises leaves that
    part of the instance as it was. *)
Definition keeps_on_failure {A B} (f : ContinuousOptimalBinning2D -> B)
    (m : M A) : Prop :=
  forall self e, fst (m self) = Raise e -> f (snd (m self)) = f self.

Definition never_fails {A} (m : M A) : Prop :=
  forall self, exists a, fst (m self) = Ok a.

(** What [transform] and the fitted test read, apart from the arrays of
    sums and counts. *)
Definition published (self : ContinuousOptimalBinning2D) :=
  (_is_fitted self, _binning_table (info self),
   _splits_x_optimal (info self), _splits_y_optimal (info self),
   name (attrs self)).

(** ** Readings that the code does not follow

    Each is stated the way the documentation words it, to be compared with
    what the code does. *)

(** A selected candidate with a zero count gets a mean of zero. *)
Definition zero_mean (v : npfloat) : Prop :=
  match v with
  | Finite q => (q == 0)%Q
  | _ => False
  end.

Definition zero_count_gives_zero_mean (selected : list (list nat))
    (table : ContinuousBinningTable2D) : Prop :=
  forall i r c,
    selected !! i = Some r -> c ∈ r ->
    bt_n_records table !! i = Some 0%Z ->
    exists v, data (bt_D table) !! c = Some v /\ zero_mean v.

(** After an infeasible status the fitted check raises. *)
Definition infeasible_leaves_unfit (self : ContinuousOptimalBinning2D)
  : Prop :=
  _status (info self) = Some "INFEASIBLE" ->
  _check_is_fitted self = (Raise NotFittedError, self).

(** The size bound is the fraction of the clean sample count. *)
Definition bound_from_clean_samples (fraction : Q) (sd : SplitData raw) : Z :=
  Qceiling (fraction * inject_Z (Z.of_nat (length (z_clean sd)))).

(** Every cell of the [m] x [n] grid is listed by exactly one selected
    candidate. *)
Definition tiles_grid (m n : nat) (selected : list (list nat)) : Prop :=
  forall c, c < m * n -> length (filter (fun r => c ∈ r) selected) = 1.

(** A call of [_fit], given by its outcome [out], raises when the
    selection it made does not tile the grid. *)
Definition non_tiling_selection_raises
    (out : result unit * ContinuousOptimalBinning2D) : Prop :=
  forall selected m n,
    _selected_rows (attrs (snd out)) = Some selected ->
    _m (attrs (snd out)) = Some m ->
    _n (attrs (snd out)) = Some n ->
    ~ tiles_grid m n selected ->
    exists e, fst out = Raise e.

End Pipeline.

(** ** A closed set of collaborators

    Small executable stand-ins for the collaborators, used to run the
    pipeline on concrete data.  The solver is scripted: it answers with a
    given status and selection vector. *)

Module Demo.

(** Modelled from the spec: the Segmenter (4.1).  A sample is special if
    either coordinate matches its axis's sentinel set; else missing if
    either coordinate is non-finite ([None] here); else clean. *)
Definition is_special (codes : pycodes) (v : option Q) : bool :=
  match codes, v with
  | CodesList l, Some q | CodesNdarray l, Some q => existsb (Qeq_bool q) l
  | _, _ => false
  end.

Definition no_samples : SplitData (option Q) :=
  {| x_clean := []; y_clean := []; z_clean := [];
     x_missing := []; y_missing := []; z_missing := [];
     x_special := []; y_special := []; z_special := [] |}.

Fixpoint segment (codes_x codes_y : pycodes) (x y : list (option Q))
    (z : list Q) : SplitData (option Q) :=
  match x, y, z with
  | vx :: x', vy :: y', vz :: z' =>
      let sd := segment codes_x codes_y x' y' z' in
      if is_special codes_x vx || is_special codes_y vy then
        {| x_clean := x_clean sd; y_clean := y_clean sd; z_clean := z_clean sd;
           x_missing := x_missing sd; y_missing := y_missing sd;
           z_missing := z_missing sd;
           x_special := vx :: x_special sd; y_special := vy :: y_special sd;
           z_special := vz :: z_special sd |}
      else
        match vx, vy with
        | Some qx, Some qy =>
            {| x_clean := qx :: x_clean sd; y_clean := qy :: y_clean sd;
               z_clean := vz :: z_clean sd;
               x_missing := x_missing sd; y_missing := y_missing sd;
               z_missing := z_missing sd;
               x_special := x_special sd; y_special := y_special sd;
               z_special := z_special sd |}
        | _, _ =>
            {| x_clean := x_clean sd; y_clean := y_clean sd;
               z_clean := z_clean sd;
               x_missing := vx :: x_missing sd; y_missing := vy :: y_missing sd;
               z_missing := vz :: z_missing sd;
               x_special := x_special sd; y_special := y_special sd;
               z_special := z_special sd |}
        end
  | _, _, _ => no_samples
  end.

Definition segmenter (dtx dty : pyobj) (x y : list (option Q))
    (z : list Q) (codes_x codes_y : pycodes) (check_input : bool)
  : result (SplitData (option Q)) :=
  if check_input
     && negb ((length x =? length y)%nat && (length y =? length z)%nat)
  then Raise (ValueError "x, y and z must have the same length")
  else Ok (segment codes_x codes_y x y z).

(** Equal-width pre-binning: [k - 1] cuts between the smallest and the
    largest value, for [k = max_n_prebins]. *)
Definition Qmin_list (l : list Q) : Q :=
  foldr (fun a b => if Qle_bool a b then a else b) (hd 0%Q l) l.

Definition Qmax_list (l : list Q) : Q :=
  foldr (fun a b => if Qle_bool a b then b else a) (hd 0%Q l) l.

Definition uniform_splits (values : list Q) (k : nat) : list Q :=
  let lo := Qmin_list values in
  let hi := Qmax_list values in
  if Qltb lo hi then
    map (fun i => Qred (lo + inject_Z (Z.of_nat i) * (hi - lo)
                               / inject_Z (Z.of_nat k)))%Q
        (seq 1 (k - 1))
  else [].

Definition prebinner (p : Params) (dtype : pyobj) (values z : list Q)
    (max_n_prebins min_prebin_size : pyobj) : result (list Q) :=
  match max_n_prebins with
  | PyInt k => Ok (uniform_splits values (Z.to_nat k))
  | _ => Raise (TypeError "max_n_prebins")
  end.

(** The population standard deviation, truncated to six decimals. *)
Definition std (l : list Q) : Q :=
  let n := inject_Z (Z.of_nat (length l)) in
  let mu := (Qsum l / n)%Q in
  let var := (Qsum (map (fun v => (v - mu) * (v - mu)) l) / n)%Q in
  (Z.sqrt (Qfloor (var * 1000000000000)) # 1000000)%Q.

(** scikit-learn rejects [max_leaf_nodes < 2]. *)
Definition fit_tree (min_leaf : Q) (max_leaves : nat) (xyt : list (Z * Z))
    (z : list Q) : result unit :=
  if (max_leaves <? 2)%nat then Raise (ValueError "max_leaf_nodes")
  else Ok tt.

Definition jobs_of (jobs : pyobj) : result Z :=
  match jobs with
  | PyNone => Ok 1%Z
  | PyInt 0 => Raise (ValueError "n_jobs == 0 has no meaning")
  | PyInt k => Ok (Z.max 1 k)
  | _ => Raise (TypeError "n_jobs")
  end.

(** Modelled from the spec: the candidate set of the grid strategy (3 and
    4.4) is every axis-aligned union of contiguous cell ranges, each with
    the count and sum of its member cells. *)
Definition rectangle_cells (ncol r1 r2 c1 c2 : nat) : list nat :=
  flat_map (fun r => map (fun c => (r * ncol + c)%nat) (seq c1 (c2 + 1 - c1)))
           (seq r1 (r2 + 1 - r1)).

Definition rectangles (m n : nat) : list (list nat) :=
  flat_map (fun r1 =>
    flat_map (fun r2 =>
      flat_map (fun c1 =>
        map (fun c2 => rectangle_cells n r1 r2 c1 c2) (seq c1 (n - c1)))
      (seq 0 n))
    (seq r1 (m - r1)))
  (seq 0 m).

Definition gather (a : list Q) (cells : list nat) : Q :=
  Qred (Qsum (map (fun k => default 0%Q (a !! k)) cells)).

Definition grid_model_data (args : ModelDataArgs) : result ModelData :=
  let mR := arg_R args in
  let rows := rectangles (nrows mR) (ncols mR) in
  let counts := map (gather (data mR)) rows in
  let sums := map (gather (data (arg_S args))) rows in
  Ok {| md_n_grid := length (data mR);
        md_n_rectangles := length rows;
        md_rows := rows;
        md_cols :=
          map (fun cell =>
                 map fst (filter (fun ir => bool_decide (cell ∈ snd ir))
                                 (enumerate rows)))
              (seq 0 (length (data mR)));
        md_c := map (fun _ => 0%Q) rows;
        md_d_connected_x := [];
        md_d_connected_y := [];
        md_mean := zip_with (fun s k => Qred (s / k)) sums counts;
        md_n_records := map Qfloor counts;
        md_sums := sums;
        md_stds := map (fun _ => 0%Q) rows |}.

(** Modelled from the spec: the final splits (4.5) are the pre-bin
    boundaries enclosing the cells of each selected candidate; a candidate
    that owns no cell of [P] has no boundaries and the reduction over its
    empty cell set raises.  [None] stands for an infinite bound. *)
Definition bin_edges (splits : list Q) : list (option Q) :=
  (None :: map Some splits ++ [None])%list.

Definition span (edges : list (option Q)) (positions : list nat)
  : result (option Q * option Q) :=
  match positions with
  | [] => Raise (ValueError "zero-size array to reduction operation")
  | k :: _ =>
      let lo := foldr Nat.min k positions in
      let hi := foldr Nat.max k positions in
      match edges !! lo, edges !! (hi + 1)%nat with
      | Some a, Some b => Ok (a, b)
      | _, _ => Raise (IndexError "index out of bounds")
      end
  end.

Definition Splits : Type := list (option Q * option Q).

Definition optimal_splits (selected_rows : list (list nat))
    (splits_x splits_y : list Q) (P : ndarray2 Z)
  : result (Splits * Splits) :=
  for_each (seq 0 (length selected_rows))
    (fun i acc =>
       let owned :=
         filter (fun k => bool_decide (data P !! k = Some (Z.of_nat i)))
                (seq 0 (length (data P))) in
       (sx <- span (bin_edges splits_x) (map (fun k => k mod ncols P)%nat owned) ;;
        sy <- span (bin_edges splits_y) (map (fun k => k / ncols P)%nat owned) ;;
        Ok ((fst acc ++ [sx])%list, (snd acc ++ [sy])%list))%result)
    ([], []).

(** The mean of the bin a sample falls in is not needed by any statement
    below; the stand-in returns the per-bin counts and sums it was given. *)
Definition scorer
    (sx sy : option Splits) (x y : list (option Q))
    (n_records : option (list Z)) (sums : option (list Q))
    (codes_x codes_y : pycodes)
    (metric metric_special metric_missing show_digits : pyobj)
    (check_input : bool) : result (list Z * list Q) :=
  match n_records, sums with
  | Some k, Some s => Ok (k, s)
  | _, _ => Raise (TypeError "NoneType is not subscriptable")
  end.

(** The collaborators, with a solver that answers [status] and
    [solution]. *)
Definition ext (status : string) (solution : list bool) : Externals :=
  {| raw := option Q;
     Tree := unit;
     SolverModel := nat;
     SolverHandle := unit;
     SolverInfo := unit;
     OptSplits := Splits;
     Transformed := list Z * list Q;
     split_data_2d := segmenter;
     _fit_prebinning := prebinner;
     np_std := std;
     uninit_float := fun _ => (-7)%Q;
     uninit_float64 := fun _ => Finite (-7);
     uninit_int := fun _ => (-7)%Z;
     tree_fit := fit_tree;
     effective_n_jobs := jobs_of;
     continuous_model_data := grid_model_data;
     continuous_model_data_cart := fun _ => grid_model_data;
     build_model := fun _ _ n_rectangles _ _ _ _ _ _ => Ok n_rectangles;
     solve := fun _ => Ok (status, solution, tt);
     solver_statistics := fun _ _ => Ok (tt, 0%Q);
     _splits_xy_optimal := optimal_splits;
     transform_continuous_target := scorer |}.

(** The default configuration of [__init__]; the pre-bin size is the
    binary64 number nearest to 0.05. *)
Definition default_params : Params :=
  {| name_x := PyStr ""; name_y := PyStr "";
     dtype_x := PyStr "numerical"; dtype_y := PyStr "numerical";
     prebinning_method := PyStr "cart"; strategy := PyStr "grid";
     solver := PyStr "cp";
     max_n_prebins_x := PyInt 5; max_n_prebins_y := PyInt 5;
     min_prebin_size_x := PyFloat (3602879701896397 # 72057594037927936);
     min_prebin_size_y := PyFloat (3602879701896397 # 72057594037927936);
     min_n_bins := PyNone; max_n_bins := PyNone;
     min_bin_size := PyNone; max_bin_size := PyNone;
     monotonic_trend_x := PyNone; monotonic_trend_y := PyNone;
     min_mean_diff_x := PyInt 0; min_mean_diff_y := PyInt 0;
     gamma := PyInt 0;
     special_codes_x := CodesScalar PyNone;
     special_codes_y := CodesScalar PyNone;
     split_digits := PyNone; n_jobs := PyInt 1; time_limit := PyInt 100;
     verbose := PyBool false |}.

End Demo.

(** ** Concrete runs

    Data for running the pipeline: four clean samples on the corners of the
    unit square and one sample whose [x] is missing. *)

Module Run.

Definition with_prebins (kx ky : Z) (min_bs : pyobj) (strat : string)
  : Params :=
  let d := Demo.default_params in
  {| name_x := PyStr "u"; name_y := PyStr "v";
     dtype_x := dtype_x d; dtype_y := dtype_y d;
     prebinning_method := prebinning_method d; strategy := PyStr strat;
     solver := solver d;
     max_n_prebins_x := PyInt kx; max_n_prebins_y := PyInt ky;
     min_prebin_size_x := min_prebin_size_x d;
     min_prebin_size_y := min_prebin_size_y d;
     min_n_bins := min_n_bins d; max_n_bins := max_n_bins d;
     min_bin_size := min_bs; max_bin_size := max_bin_size d;
     monotonic_trend_x := monotonic_trend_x d;
     monotonic_trend_y := monotonic_trend_y d;
     min_mean_diff_x := min_mean_diff_x d;
     min_mean_diff_y := min_mean_diff_y d;
     gamma := gamma d;
     special_codes_x := special_codes_x d;
     special_codes_y := special_codes_y d;
     split_digits := split_digits d; n_jobs := n_jobs d;
     time_limit := time_limit d; verbose := verbose d |}.

Definition xs : list (option Q) := [Some 0; Some 1; Some 0; Some 1; None]%Q.
Definition ys : list (option Q) := [Some 0; Some 0; Some 1; Some 1; Some 0]%Q.
Definition zs : list Q := [1; 2; 3; 4; 9]%Q.

(** The nine candidates of the 2 x 2 grid are, in order,
    [0], [0;1], [1], [0;2], [0;1;2;3], [1;3], [2], [2;3], [3]. *)

(** the two rows of the grid: a tiling *)
Definition two_rows : list bool :=
  [false; true; false; false; false; false; false; true; false].

(** nothing selected *)
Definition nothing : list bool := replicate 9 false.

(** the top row and the left column: cell 0 is covered twice, cell 3 never *)
Definition overlapping : list bool :=
  [false; true; false; true; false; false; false; false; false].

Definition grid2 : Params := with_prebins 2 2 PyNone "grid".

(** the same grid with a minimum bin size of one half *)
Definition grid2_half : Params := with_prebins 2 2 (PyFloat (1 # 2)) "grid".

(** Three clean samples that leave cell 3 of the 2 x 2 grid empty, and the
    tiling by the top row and the two cells of the bottom row. *)
Definition xs3 : list (option Q) := [Some 0; Some 1; Some 0]%Q.
Definition ys3 : list (option Q) := [Some 0; Some 0; Some 1]%Q.
Definition zs3 : list Q := [1; 2; 3]%Q.

Definition row_and_two_cells : list bool :=
  [false; true; false; false; false; false; true; false; true].

(** The "cart" strategy on a 3 x 3 grid, whose 36 candidates have the whole
    grid at position 14. *)
Definition cart3 : Params := with_prebins 3 3 PyNone "cart".

Definition whole_grid3 : list bool :=
  replicate 14 false ++ [true] ++ replicate 21 false.

(** Two pre-bins on one axis and three on the other. *)
Definition grid2x3 : Params := with_prebins 2 3 PyNone "grid".

(** The default configuration with [gamma = -1]. *)
Definition negative_gamma_params : Params :=
  let d := Demo.default_params in
  {| name_x := name_x d; name_y := name_y d;
     dtype_x := dtype_x d; dtype_y := dtype_y d;
     prebinning_method := prebinning_method d; strategy := strategy d;
     solver := solver d;
     max_n_prebins_x := max_n_prebins_x d;
     max_n_prebins_y := max_n_prebins_y d;
     min_prebin_size_x := min_prebin_size_x d;
     min_prebin_size_y := min_prebin_size_y d;
     min_n_bins := min_n_bins d; max_n_bins := max_n_bins d;
     min_bin_size := min_bin_size d; max_bin_size := max_bin_size d;
     monotonic_trend_x := monotonic_trend_x d;
     monotonic_trend_y := monotonic_trend_y d;
     min_mean_diff_x := min_mean_diff_x d;
     min_mean_diff_y := min_mean_diff_y d;
     gamma := PyInt (-1);
     special_codes_x := special_codes_x d;
     special_codes_y := special_codes_y d;
     split_digits := split_digits d; n_jobs := n_jobs d;
     time_limit := time_limit d; verbose := verbose d |}.

(** Eight samples: the four corners, two samples whose [x] is missing and
    two whose [x] is the special code 99. *)
Definition with_special_x (codes : list Q) (d : Params) : Params :=
  {| name_x := name_x d; name_y := name_y d;
     dtype_x := dtype_x d; dtype_y := dtype_y d;
     prebinning_method := prebinning_method d; strategy := strategy d;
     solver := solver d;
     max_n_prebins_x := max_n_prebins_x d;
     max_n_prebins_y := max_n_prebins_y d;
     min_prebin_size_x := min_prebin_size_x d;
     min_prebin_size_y := min_prebin_size_y d;
     min_n_bins := min_n_bins d; max_n_bins := max_n_bins d;
     min_bin_size := min_bin_size d; max_bin_size := max_bin_size d;
     monotonic_trend_x := monotonic_trend_x d;
     monotonic_trend_y := monotonic_trend_y d;
     min_mean_diff_x := min_mean_diff_x d;
     min_mean_diff_y := min_mean_diff_y d;
     gamma := gamma d;
     special_codes_x := CodesList codes;
     special_codes_y := special_codes_y d;
     split_digits := split_digits d; n_jobs := n_jobs d;
     time_limit := time_limit d; verbose := verbose d |}.

Definition grid2_codes : Params := with_special_x [99%Q] grid2.

Definition xs8 : list (option Q) :=
  [Some 0; Some 1; Some 0; Some 1; None; None; Some 99; Some 99]%Q.
Definition ys8 : list (option Q) :=
  [Some 0; Some 0; Some 1; Some 1; Some 0; Some 1; Some 0; Some 1]%Q.
Definition zs8 : list Q := [1; 2; 3; 4; 9; 11; 5; 9]%Q.

(** The binary64 numbers nearest to 0.1 and to 0.07. *)
Definition tenth : Q := 3602879701896397 # 36028797018963968.
Definition seven_hundredths : Q := 1261007895663739 # 18014398509481984.

(** The runs used to set the documentation against the code: the
    collaborators, the fresh instance and the outcome of [_fit]. *)

Definition empty_cell_ext : Externals := Demo.ext "OPTIMAL" row_and_two_cells.
Definition empty_cell_out :=
  @_fit empty_cell_ext xs3 ys3 zs3 false (@__init__ empty_cell_ext grid2).
Definition empty_cell_table :=
  _binning_table (info (snd empty_cell_out)).

Definition infeasible_ext : Externals := Demo.ext "INFEASIBLE" nothing.
Definition infeasible_out :=
  @_fit infeasible_ext xs ys zs false (@__init__ infeasible_ext grid2).

Definition non_tiling_ext : Externals := Demo.ext "OPTIMAL" overlapping.
Definition non_tiling_self := @__init__ non_tiling_ext grid2.
Definition non_tiling_out :=
  @_fit non_tiling_ext xs ys zs false non_tiling_self.
Definition non_tiling_table :=
  _binning_table (info (snd non_tiling_out)).

(** Two samples at one point: no split on either axis, a grid of one cell
    and its one candidate, selected. *)
Definition single_cell_ext : Externals := Demo.ext "OPTIMAL" [true].
Definition single_cell_out :=
  @_fit single_cell_ext [Some 0; Some 0]%Q [Some 0; Some 0]%Q [1; 2]%Q false
    (@__init__ single_cell_ext grid2).

(** The default configuration with [gamma] replaced. *)
Definition with_gamma (g : pyobj) : Params :=
  let d := Demo.default_params in
  {| name_x := name_x d; name_y := name_y d;
     dtype_x := dtype_x d; dtype_y := dtype_y d;
     prebinning_method := prebinning_method d; strategy := strategy d;
     solver := solver d;
     max_n_prebins_x := max_n_prebins_x d;
     max_n_prebins_y := max_n_prebins_y d;
     min_prebin_size_x := min_prebin_size_x d;
     min_prebin_size_y := min_prebin_size_y d;
     min_n_bins := min_n_bins d; max_n_bins := max_n_bins d;
     min_bin_size := min_bin_size d; max_bin_size := max_bin_size d;
     monotonic_trend_x := monotonic_trend_x d;
     monotonic_trend_y := monotonic_trend_y d;
     min_mean_diff_x := min_mean_diff_x d;
     min_mean_diff_y := min_mean_diff_y d;
     gamma := g;
     special_codes_x := special_codes_x d;
     special_codes_y := special_codes_y d;
     split_digits := split_digits d; n_jobs := n_jobs d;
     time_limit := time_limit d; verbose := verbose d |}.

Definition codes_ext : Externals := Demo.ext "OPTIMAL" two_rows.
Definition codes_out :=
  @_fit codes_ext xs8 ys8 zs8 false (@__init__ codes_ext grid2_codes).
Definition codes_table :=
  _binning_table (info (snd codes_out)).

Definition half_ext : Externals := Demo.ext "OPTIMAL" two_rows.
Definition half_self := @__init__ half_ext grid2_half.

End Run.

(** * Properties *)

(** ** Stepping through fallible code *)

Lemma rbind_ok_inv {A B} (r : result A) (k : A -> result B) (b : B) :
  rbind r k = Ok b -> exists a, r = Ok a /\ k a = Ok b.
Proof. destruct r as [a|e]; simpl; [eauto | discriminate]. Qed.

Lemma rbind_raise_inv {A B} (r : result A) (k : A -> result B) e :
  rbind r k = Raise e ->
  r = Raise e \/ exists a, r = Ok a /\ k a = Raise e.
Proof. destruct r as [a|e']; simpl; [eauto | intros [= ->]; auto]. Qed.

Lemma rbind_raises {A B} (r : result A) (k : A -> result B) :
  (forall a, exists e, k a = Raise e) -> exists e, rbind r k = Raise e.
Proof. intros H. destruct r as [a|e]; simpl; eauto. Qed.

Lemma rbind_raises_here {A B} (r : result A) (k : A -> result B) :
  (exists e, r = Raise e) -> exists e, rbind r k = Raise e.
Proof. intros [e ->]. simpl. eauto. Qed.

Section MethodLaws.

Context `{ext : Externals}.

Lemma mbind_lift {A B} (r : result A) (k : A -> M B) self :
  mbind (lift r) k self =
  match r with Ok a => k a self | Raise e => (Raise e, self) end.
Proof. unfold mbind, lift. destruct r; reflexivity. Qed.

Lemma mbind_getattr {A B} (f : ContinuousOptimalBinning2D -> A)
    (k : A -> M B) self :
  mbind (getattr f) k self = k (f self) self.
Proof. reflexivity. Qed.

Lemma mbind_setattr {B} f (k : unit -> M B) self :
  mbind (setattr f) k self = k tt (f self).
Proof. reflexivity. Qed.

Lemma mbind_mret {A B} (a : A) (k : A -> M B) self :
  mbind (mret a) k self = k a self.
Proof. reflexivity. Qed.

Lemma mbind_assoc {A B C} (m : M A) (k : A -> M B) (h : B -> M C) self :
  mbind (mbind m k) h self = mbind m (fun a => mbind (k a) h) self.
Proof. unfold mbind. destruct (m self) as [[a|e] s]; reflexivity. Qed.

Lemma mbind_ok_inv {A B} (m : M A) (k : A -> M B) self b self' :
  mbind m k self = (Ok b, self') ->
  exists a s, m self = (Ok a, s) /\ k a s = (Ok b, self').
Proof.
  unfold mbind. destruct (m self) as [[a|e] s]; [eauto | discriminate].
Qed.

(** A call known by its outcome alone. *)
Lemma method_returned {A} (m : M A) self a :
  fst (m self) = Ok a -> m self = (Ok a, snd (m self)).
Proof. destruct (m self) as [r s]. simpl. by intros ->. Qed.

Lemma _check_is_fitted_passes self :
  _is_fitted self = true -> _check_is_fitted self = (Ok tt, self).
Proof.
  intros H. unfold _check_is_fitted. rewrite mbind_getattr, H. reflexivity.
Qed.

End MethodLaws.

(** Peel the next fallible statement off a successful run [H], naming its
    value [a] and its equation [E]. *)
Ltac run_lift H a E :=
  repeat first [ rewrite mbind_getattr in H
               | rewrite mbind_setattr in H
               | rewrite mbind_mret in H ];
  rewrite mbind_lift in H;
  match type of H with
  | match ?r with Ok _ => _ | Raise _ => _ end = _ =>
      destruct r as [a|] eqn:E; [ | discriminate H ]
  end.

(** ** Loops *)

Lemma for_each_app {A S} (l1 l2 : list A) (body : A -> S -> result S) acc :
  for_each (l1 ++ l2) body acc
  = rbind (for_each l1 body acc) (for_each l2 body).
Proof.
  revert acc. induction l1 as [|v l1 IH]; intros acc; simpl; [done|].
  destruct (body v acc); simpl; [apply IH | done].
Qed.

(** A loop that returns has run its body, to completion, on every element;
    an invariant of the body holds throughout. *)
Lemma for_each_ok_inv {A S} (I : S -> Prop) (l : list A)
    (body : A -> S -> result S) :
  (forall v a a', body v a = Ok a' -> I a -> I a') ->
  forall acc acc',
    for_each l body acc = Ok acc' -> I acc ->
    I acc' /\ forall v, v ∈ l -> exists a a', I a /\ body v a = Ok a'.
Proof.
  intros Hbody. induction l as [|v l IH]; intros acc acc' H HI.
  - injection H as <-. split; [done|]. intros v Hv. by apply elem_of_nil in Hv.
  - simpl in H. apply rbind_ok_inv in H as (a1 & H1 & H).
    destruct (IH _ _ H (Hbody _ _ _ H1 HI)) as [HI' Hall].
    split; [done|]. intros w Hw. apply elem_of_cons in Hw as [->|Hw]; eauto.
Qed.

(** A loop that raises does so in its body, at a state the invariant
    holds of. *)
Lemma for_each_raise_inv {A S} (I : S -> Prop) (l : list A)
    (body : A -> S -> result S) e :
  (forall v a a', body v a = Ok a' -> I a -> I a') ->
  forall acc,
    for_each l body acc = Raise e -> I acc ->
    exists v a, v ∈ l /\ I a /\ body v a = Raise e.
Proof.
  intros Hbody. induction l as [|v l IH]; intros acc H HI; [discriminate|].
  simpl in H. destruct (body v acc) as [a1|e1] eqn:E1; simpl in H.
  - destruct (IH _ H (Hbody _ _ _ E1 HI)) as (w & a & Hw & Ha & Hr).
    exists w, a. split; [by right | done].
  - injection H as ->. exists v, acc. split; [by left | done].
Qed.

(** ** Refinement count *)

Lemma quarter_exact (m n : Z) :
  (4 * ((m * n * (m + 1) * (n + 1)) / 4) = m * n * (m + 1) * (n + 1))%Z.
Proof.
  assert (Hm : exists a, (m * (m + 1) = 2 * a)%Z).
  { destruct (Z.Even_or_Odd m) as [[a ->]|[a ->]].
    - exists (a * (2 * a + 1))%Z. ring.
    - exists ((2 * a + 1) * (a + 1))%Z. ring. }
  assert (Hn : exists b, (n * (n + 1) = 2 * b)%Z).
  { destruct (Z.Even_or_Odd n) as [[b ->]|[b ->]].
    - exists (b * (2 * b + 1))%Z. ring.
    - exists ((2 * b + 1) * (b + 1))%Z. ring. }
  destruct Hm as [a Ha], Hn as [b Hb].
  replace (m * n * (m + 1) * (n + 1))%Z with ((a * b) * 4)%Z
    by (transitivity ((m * (m + 1)) * (n * (n + 1)))%Z;
        [rewrite Ha, Hb|]; ring).
  rewrite Z.div_mul by discriminate. ring.
Qed.

(** ** binary64 rounding *)

Lemma round_half_even_comp x y : (x == y)%Q -> round_half_even x = round_half_even y.
Proof.
  intros H. unfold round_half_even.
  rewrite (Qfloor_comp _ _ H).
  assert (E : (x - inject_Z (Qfloor y) == y - inject_Z (Qfloor y))%Q)
    by (rewrite H; reflexivity).
  by rewrite (Qcompare_comp _ _ E _ _ (Qeq_refl (1 # 2))).
Qed.

Lemma round_half_even_Z z : round_half_even (inject_Z z) = z.
Proof.
  unfold round_half_even. rewrite Qfloor_Z.
  assert (E : (inject_Z z - inject_Z z ?= 1 # 2)%Q = Lt).
  { apply Qlt_alt.
    assert (E0 : (inject_Z z - inject_Z z == 0)%Q) by ring.
    rewrite E0. reflexivity. }
  by rewrite E.
Qed.

Lemma round_half_even_floor x :
  (Qfloor x <= round_half_even x <= Qfloor x + 1)%Z.
Proof.
  unfold round_half_even.
  destruct (x - inject_Z (Qfloor x) ?= 1 # 2)%Q; [destruct (Z.even _)|..]; lia.
Qed.

Ltac compare_facts :=
  repeat match goal with
         | H : (_ ?= _)%Q = Eq |- _ => apply Qeq_alt in H
         | H : (_ ?= _)%Q = Lt |- _ => apply Qlt_alt in H
         | H : (_ ?= _)%Q = Gt |- _ => apply Qgt_alt in H
         end.

Lemma round_half_even_mono x y :
  (x <= y)%Q -> (round_half_even x <= round_half_even y)%Z.
Proof.
  intros H. pose proof (Qfloor_resp_le _ _ H) as Hf.
  pose proof (round_half_even_floor x). pose proof (round_half_even_floor y).
  destruct (Z.eq_dec (Qfloor x) (Qfloor y)) as [E|E]; [|lia].
  unfold round_half_even. rewrite <- E.
  destruct (x - inject_Z (Qfloor x) ?= 1 # 2)%Q eqn:Cx;
    destruct (y - inject_Z (Qfloor x) ?= 1 # 2)%Q eqn:Cy;
    try destruct (Z.even (Qfloor x)); try lia;
    exfalso; compare_facts; lra.
Qed.

Lemma round_half_even_lower a x :
  (inject_Z a <= x)%Q -> (a <= round_half_even x)%Z.
Proof.
  intros H. rewrite <- (round_half_even_Z a). by apply round_half_even_mono.
Qed.

Lemma round_half_even_upper a x :
  (x <= inject_Z a)%Q -> (round_half_even x <= a)%Z.
Proof.
  intros H. rewrite <- (round_half_even_Z a). by apply round_half_even_mono.
Qed.

(** Powers of two *)

Lemma pow2_pos z : (0 < 2 ^ z)%Q.
Proof. by apply Qpower_0_lt. Qed.

Lemma pow2_plus a b : (2 ^ (a + b) == 2 ^ a * 2 ^ b)%Q.
Proof. by apply Qpower_plus. Qed.

Lemma pow2_succ a : (2 ^ (a + 1) == 2 * 2 ^ a)%Q.
Proof. rewrite pow2_plus. change (2 ^ 1)%Q with 2%Q. ring. Qed.

Lemma pow2_le a b : (a <= b)%Z -> (2 ^ a <= 2 ^ b)%Q.
Proof. intros H. by apply Qpower_le_compat_l. Qed.

Lemma pow2_lt a b : (a < b)%Z -> (2 ^ a < 2 ^ b)%Q.
Proof. intros H. by apply Qpower_lt_compat_l. Qed.

Lemma pow2_Z n : (0 <= n)%Z -> (inject_Z (2 ^ n) == 2 ^ n)%Q.
Proof. intros H. by rewrite Zpower_Qpower. Qed.

Lemma Qnum_den x : (x * inject_Z (Z.pos (Qden x)) == inject_Z (Qnum x))%Q.
Proof.
  destruct x as [p d]. unfold Qeq, Qmult, inject_Z. simpl. lia.
Qed.

Lemma binade_spec x :
  (0 < x)%Q -> (2 ^ binade x <= x /\ x < 2 ^ (binade x + 1))%Q.
Proof.
  intros Hx. unfold binade.
  set (lp := Z.log2 (Qnum x)). set (ld := Z.log2 (Z.pos (Qden x))).
  assert (Hp : (0 < Qnum x)%Z).
  { destruct x as [p d]. unfold Qlt in Hx. simpl in *. lia. }
  destruct (Z.log2_spec (Qnum x) Hp) as [Hp1 Hp2]. fold lp in Hp1, Hp2.
  destruct (Z.log2_spec (Z.pos (Qden x)) ltac:(lia)) as [Hd1 Hd2].
  fold ld in Hd1, Hd2.
  assert (Hlp : (0 <= lp)%Z) by apply Z.log2_nonneg.
  assert (Hld : (0 <= ld)%Z) by apply Z.log2_nonneg.
  pose proof (Qnum_den x) as Hnd.
  rewrite Zle_Qle in Hp1, Hd1. rewrite Zlt_Qlt in Hp2, Hd2.
  rewrite pow2_Z in Hp1, Hd1 by lia.
  replace (Z.succ lp) with (lp + 1)%Z in Hp2 by lia.
  replace (Z.succ ld) with (ld + 1)%Z in Hd2 by lia.
  rewrite pow2_Z in Hp2, Hd2 by lia.
  pose proof (pow2_pos ld) as Pld. pose proof (pow2_pos (ld + 1)) as Pld1.
  assert (Hup : (x < 2 ^ (lp - ld + 1))%Q).
  { apply Qmult_lt_r with (z := (2 ^ ld)%Q); [done|].
    rewrite <- pow2_plus. replace (lp - ld + 1 + ld)%Z with (lp + 1)%Z by lia.
    eapply Qle_lt_trans; [|exact Hp2]. rewrite <- Hnd.
    apply Qmult_le_l; [done|exact Hd1]. }
  assert (Hlo : (2 ^ (lp - ld - 1) < x)%Q).
  { apply Qmult_lt_r with (z := (2 ^ (ld + 1))%Q); [done|].
    rewrite <- pow2_plus. replace (lp - ld - 1 + (ld + 1))%Z with lp by lia.
    eapply Qle_lt_trans; [exact Hp1|]. rewrite <- Hnd.
    apply Qmult_lt_l; [done|exact Hd2]. }
  destruct (Qltb x (2 ^ (lp - ld))) eqn:E.
  - apply negb_true_iff in E.
    assert (Hlt : (x < 2 ^ (lp - ld))%Q).
    { apply Qnot_le_lt. intros Hle. apply Qle_bool_iff in Hle. congruence. }
    replace (lp - ld - 1 + 1)%Z with (lp - ld)%Z by lia.
    split; [by apply Qlt_le_weak|done].
  - apply negb_false_iff, Qle_bool_iff in E. split; done.
Qed.

Lemma binade_unique x k :
  (0 < x)%Q -> (2 ^ k <= x)%Q -> (x < 2 ^ (k + 1))%Q -> binade x = k.
Proof.
  intros Hx H1 H2. destruct (binade_spec x Hx) as [B1 B2].
  destruct (Z.lt_trichotomy (binade x) k) as [Hlt|[->|Hgt]]; [|done|]; exfalso.
  - assert (2 ^ (binade x + 1) <= 2 ^ k)%Q by (apply pow2_le; lia). lra.
  - assert (2 ^ (k + 1) <= 2 ^ binade x)%Q by (apply pow2_le; lia). lra.
Qed.

Lemma pow2_52 k : (2 ^ k == inject_Z (2 ^ 52) * 2 ^ (k - 52))%Q.
Proof.
  rewrite pow2_Z by lia. rewrite <- pow2_plus. by replace (52 + (k - 52))%Z with k by lia.
Qed.

Lemma pow2_53 k : (2 ^ (k + 1) == inject_Z (2 ^ 53) * 2 ^ (k - 52))%Q.
Proof.
  rewrite pow2_Z by lia. rewrite <- pow2_plus.
  by replace (53 + (k - 52))%Z with (k + 1)%Z by lia.
Qed.

(** The significand of a positive number lies between [2^52] and [2^53]. *)
Lemma significand_range x :
  (0 < x)%Q ->
  (2 ^ 52 <= round_half_even (x / 2 ^ (binade x - 52)) <= 2 ^ 53)%Z.
Proof.
  intros Hx. destruct (binade_spec x Hx) as [B1 B2].
  pose proof (pow2_pos (binade x - 52)) as Pu.
  rewrite pow2_52 in B1. rewrite pow2_53 in B2.
  split.
  - apply round_half_even_lower. by apply Qle_shift_div_l.
  - apply round_half_even_upper. apply Qle_shift_div_r; [done|].
    by apply Qlt_le_weak.
Qed.

Lemma float64_pos_range x :
  (0 < x)%Q ->
  (2 ^ binade x <= float64_pos x /\ float64_pos x <= 2 ^ (binade x + 1))%Q.
Proof.
  intros Hx. destruct (significand_range x Hx) as [S1 S2].
  unfold float64_pos. cbv zeta.
  pose proof (pow2_pos (binade x - 52)) as Pu.
  rewrite Zle_Qle in S1, S2.
  rewrite (pow2_52 (binade x)) at 1. rewrite (pow2_53 (binade x)).
  split; apply Qmult_le_compat_r; try done; by apply Qlt_le_weak.
Qed.

Lemma binade_mono x y : (0 < x)%Q -> (x <= y)%Q -> (binade x <= binade y)%Z.
Proof.
  intros Hx Hxy. assert (Hy : (0 < y)%Q) by lra.
  destruct (binade_spec x Hx) as [X1 X2]. destruct (binade_spec y Hy) as [Y1 Y2].
  destruct (Z_le_gt_dec (binade x) (binade y)) as [|Hgt]; [done|exfalso].
  assert (2 ^ (binade y + 1) <= 2 ^ binade x)%Q by (apply pow2_le; lia). lra.
Qed.

Lemma float64_pos_mono x y :
  (0 < x)%Q -> (x <= y)%Q -> (float64_pos x <= float64_pos y)%Q.
Proof.
  intros Hx Hxy. assert (Hy : (0 < y)%Q) by lra.
  pose proof (binade_mono x y Hx Hxy) as Hk.
  destruct (Z.eq_dec (binade x) (binade y)) as [E|E].
  - unfold float64_pos. cbv zeta. rewrite E.
    pose proof (pow2_pos (binade y - 52)) as Pu.
    apply Qmult_le_compat_r; [|by apply Qlt_le_weak].
    rewrite <- Zle_Qle. apply round_half_even_mono.
    apply Qmult_le_compat_r; [done|]. apply Qlt_le_weak. by apply Qinv_lt_0_compat.
  - destruct (float64_pos_range x Hx) as [_ X2].
    destruct (float64_pos_range y Hy) as [Y1 _].
    assert (2 ^ (binade x + 1) <= 2 ^ binade y)%Q by (apply pow2_le; lia). lra.
Qed.

(** A number with a significand of 53 bits is its own rounding. *)
Lemma float64_pos_exact m e :
  (2 ^ 52 <= m <= 2 ^ 53)%Z ->
  (float64_pos (inject_Z m * 2 ^ e) == inject_Z m * 2 ^ e)%Q.
Proof.
  intros [M1 M2]. pose proof (pow2_pos e) as Pe.
  assert (Hm : (0 < inject_Z m)%Q).
  { change 0%Q with (inject_Z 0). rewrite <- Zlt_Qlt. lia. }
  assert (Hx : (0 < inject_Z m * 2 ^ e)%Q) by (by apply Qmult_lt_0_compat).
  destruct (Z.eq_dec m (2 ^ 53)%Z) as [->|Hne].
  - assert (Hk : binade (inject_Z (2 ^ 53) * 2 ^ e) = (e + 53)%Z).
    { apply binade_unique; [done|..].
      - rewrite pow2_plus, (pow2_Z 53) by lia. lra.
      - replace (e + 53 + 1)%Z with ((e + 53) + 1)%Z by lia.
        rewrite pow2_succ, pow2_plus, (pow2_Z 53) by lia.
        pose proof (pow2_pos 53). nra. }
    unfold float64_pos. cbv zeta. rewrite Hk.
    replace (e + 53 - 52)%Z with (e + 1)%Z by lia.
    assert (E : (inject_Z (2 ^ 53) * 2 ^ e / 2 ^ (e + 1) == inject_Z (2 ^ 52))%Q).
    { rewrite pow2_succ. pose proof (pow2_pos e).
      change (inject_Z (2 ^ 53)) with (2 * inject_Z (2 ^ 52))%Q.
      field. lra. }
    rewrite (round_half_even_comp _ _ E), round_half_even_Z, pow2_succ.
    change (inject_Z (2 ^ 53)) with (2 * inject_Z (2 ^ 52))%Q. ring.
  - assert (H52 : (2 ^ 52 <= inject_Z m)%Q).
    { rewrite <- (pow2_Z 52) by lia. rewrite <- Zle_Qle. lia. }
    assert (H53 : (inject_Z m < 2 ^ 53)%Q).
    { rewrite <- (pow2_Z 53) by lia. rewrite <- Zlt_Qlt. lia. }
    assert (Hk : binade (inject_Z m * 2 ^ e) = (e + 52)%Z).
    { apply binade_unique; [done|..].
      - rewrite pow2_plus. nra.
      - replace (e + 52 + 1)%Z with (e + 53)%Z by lia.
        rewrite pow2_plus. nra. }
    unfold float64_pos. cbv zeta. rewrite Hk.
    replace (e + 52 - 52)%Z with e by lia.
    assert (E : (inject_Z m * 2 ^ e / 2 ^ e == inject_Z m)%Q) by (field; lra).
    by rewrite (round_half_even_comp _ _ E), round_half_even_Z.
Qed.

Lemma float64_pos_comp x y :
  (0 < x)%Q -> (x == y)%Q -> (float64_pos x == float64_pos y)%Q.
Proof.
  intros Hx E. apply Qle_antisym; apply float64_pos_mono; lra.
Qed.

Lemma float64_positive x : (0 < x)%Q -> float64 x = float64_pos x.
Proof. intros H. unfold float64. apply Qgt_alt in H. by rewrite H. Qed.

Lemma float64_zero x : (x == 0)%Q -> float64 x = 0%Q.
Proof. intros H. unfold float64. apply Qeq_alt in H. by rewrite H. Qed.

(** Rounding keeps a positive number positive. *)
Lemma float64_0_lt x : (0 < x)%Q -> (0 < float64 x)%Q.
Proof.
  intros H. rewrite (float64_positive x H).
  destruct (float64_pos_range x H) as [L _].
  pose proof (pow2_pos (binade x)). lra.
Qed.

Lemma float64_0_le x : (0 <= x)%Q -> (0 <= float64 x)%Q.
Proof.
  intros H. destruct (Qlt_le_dec 0 x) as [Hp|Hz].
  - apply Qlt_le_weak. by apply float64_0_lt.
  - rewrite float64_zero by lra. lra.
Qed.

(** Rounding is monotone. *)
Lemma float64_mono x y :
  (0 <= x)%Q -> (x <= y)%Q -> (float64 x <= float64 y)%Q.
Proof.
  intros Hx Hxy. destruct (Qlt_le_dec 0 x) as [Hp|Hz].
  - rewrite (float64_positive x Hp), (float64_positive y) by lra.
    by apply float64_pos_mono.
  - rewrite (float64_zero x) by lra. apply float64_0_le. lra.
Qed.

Lemma float64_comp x y : (0 <= x)%Q -> (x == y)%Q -> (float64 x == float64 y)%Q.
Proof. intros Hx E. apply Qle_antisym; apply float64_mono; lra. Qed.

(** Rounding twice is rounding once. *)
Lemma float64_idempotent x :
  (0 <= x)%Q -> (float64 (float64 x) == float64 x)%Q.
Proof.
  intros Hx. destruct (Qlt_le_dec 0 x) as [Hp|Hz].
  - rewrite (float64_positive _ (float64_0_lt x Hp)).
    rewrite (float64_positive x Hp).
    unfold float64_pos at 2 3. cbv zeta.
    apply float64_pos_exact. by apply significand_range.
  - rewrite (float64_zero x) by lra. by rewrite float64_zero.
Qed.

(** The integers up to [2^53] are binary64 numbers. *)
Lemma float64_integer n :
  (0 <= n <= 2 ^ 53)%Z -> (float64 (inject_Z n) == inject_Z n)%Q.
Proof.
  intros [N0 N1]. destruct (Z.eq_dec n 0%Z) as [->|Hn]; [done|].
  assert (Hp : (0 < inject_Z n)%Q).
  { change 0%Q with (inject_Z 0). rewrite <- Zlt_Qlt. lia. }
  rewrite (float64_positive _ Hp).
  destruct (Z.log2_spec n ltac:(lia)) as [L1 L2].
  set (k := Z.log2 n) in *.
  assert (K0 : (0 <= k)%Z) by apply Z.log2_nonneg.
  assert (K1 : (k <= 53)%Z).
  { destruct (Z_le_gt_dec k 53%Z) as [|Hgt]; [done|exfalso].
    assert (2 ^ 54 <= 2 ^ k)%Z by (apply Z.pow_le_mono_r; lia). lia. }
  destruct (Z.eq_dec k 53%Z) as [E|E].
  - assert (n = 2 ^ 53)%Z as -> by (rewrite E in L1; lia).
    assert (X : (inject_Z (2 ^ 53) == inject_Z (2 ^ 53) * 2 ^ 0)%Q)
      by (change (2 ^ 0)%Q with 1%Q; ring).
    rewrite (float64_pos_comp _ _ Hp X). rewrite float64_pos_exact by lia.
    change (2 ^ 0)%Q with 1%Q. ring.
  - assert (X : (inject_Z n == inject_Z (n * 2 ^ (52 - k)) * 2 ^ (k - 52))%Q).
    { rewrite inject_Z_mult, pow2_Z by lia.
      rewrite <- Qmult_assoc, <- pow2_plus.
      replace (52 - k + (k - 52))%Z with 0%Z by lia.
      change (2 ^ 0)%Q with 1%Q. ring. }
    rewrite (float64_pos_comp _ _ Hp X). rewrite float64_pos_exact; [by rewrite <- X|].
    replace (Z.succ k) with (k + 1)%Z in L2 by lia.
    split.
    + replace 52%Z with (k + (52 - k))%Z at 1 by lia.
      rewrite Z.pow_add_r by lia. apply Z.mul_le_mono_nonneg_r; lia.
    + replace 53%Z with ((k + 1) + (52 - k))%Z by lia.
      rewrite Z.pow_add_r by lia. apply Z.mul_le_mono_nonneg_r; lia.
Qed.

(** ** Binary search and digitize *)

Lemma Qltb_lt (a b : Q) : Qltb a b = true <-> (a < b)%Q.
Proof.
  unfold Qltb. rewrite negb_true_iff. split.
  - intros H. apply Qnot_le_lt. intros Hle. apply Qle_bool_iff in Hle. congruence.
  - intros H. destruct (Qle_bool b a) eqn:E; [|reflexivity].
    apply Qle_bool_iff in E. exfalso. eapply Qlt_not_le; eassumption.
Qed.

Lemma Qltb_ge (a b : Q) : Qltb a b = false <-> (b <= a)%Q.
Proof.
  unfold Qltb. rewrite negb_false_iff. apply Qle_bool_iff.
Qed.

Lemma nondecreasing_sorted arr :
  nondecreasing arr = true -> sorted_by_lookup arr.
Proof.
  induction arr as [|a0 arr IH]; intros H i j a b Hij Hi Hj; [done|].
  assert (Hrest : nondecreasing arr = true).
  { destruct arr; [done|]. simpl in H. by apply andb_true_iff in H as [_ ?]. }
  assert (Hhead : forall k c, arr !! k = Some c -> (a0 <= c)%Q).
  { clear i j a b Hij Hi Hj. intros k.
    induction k as [|k IHk]; intros c Hc.
    - destruct arr as [|a1 arr]; [done|]. simpl in Hc. injection Hc as ->.
      simpl in H. apply andb_true_iff in H as [H _]. by apply Qle_bool_iff.
    - destruct (arr !! k) as [d|] eqn:Ed.
      + eapply Qle_trans; [by apply IHk|].
        apply (IH Hrest k (S k) d c); [lia | done | done].
      + apply lookup_ge_None in Ed. apply lookup_lt_Some in Hc. lia. }
  destruct i as [|i], j as [|j]; simpl in Hi, Hj.
  - injection Hi as <-. injection Hj as <-. apply Qle_refl.
  - injection Hi as <-. by eapply Hhead.
  - lia.
  - apply (IH Hrest i j); [lia | done | done].
Qed.

Lemma binsearch_right_bounds fuel arr key : forall lo hi,
  lo <= hi ->
  lo <= binsearch_right fuel arr key lo hi <= hi.
Proof.
  induction fuel as [|fuel IH]; intros lo hi Hle; cbn [binsearch_right];
    [lia|].
  destruct (Nat.ltb_spec lo hi) as [Hlt|]; [|lia].
  assert (Hmid : lo <= lo + (hi - lo) / 2 < hi).
  { split; [lia|]. apply Nat.lt_le_trans with (lo + (hi - lo)); [|lia].
    apply Nat.add_lt_mono_l, Nat.div_lt; lia. }
  destruct (arr !! (lo + (hi - lo) / 2)); [|lia].
  destruct (Qltb key q).
  - specialize (IH lo (lo + (hi - lo) / 2)). lia.
  - specialize (IH (lo + (hi - lo) / 2 + 1) hi). lia.
Qed.

(** With enough fuel the search ends at the boundary between the entries
    that are at most [key] and those that exceed it. *)
Lemma binsearch_right_boundary arr key :
  sorted_by_lookup arr ->
  forall fuel lo hi,
    lo <= hi -> hi <= length arr -> hi - lo <= fuel ->
    (forall i a, i < lo -> arr !! i = Some a -> (a <= key)%Q) ->
    (forall i a, hi <= i -> arr !! i = Some a -> (key < a)%Q) ->
    let r := binsearch_right fuel arr key lo hi in
    (forall i a, i < r -> arr !! i = Some a -> (a <= key)%Q) /\
    (forall i a, r <= i -> arr !! i = Some a -> (key < a)%Q).
Proof.
  intros Hsorted.
  induction fuel as [|fuel IH]; intros lo hi Hle Hhi Hfuel Hlow Hhigh;
    cbn [binsearch_right].
  - assert (lo = hi) as -> by lia. auto.
  - destruct (Nat.ltb_spec lo hi) as [Hlt|Hge].
    2:{ assert (lo = hi) as -> by lia. auto. }
    assert (Hmid : lo <= lo + (hi - lo) / 2 < hi).
    { split; [lia|]. apply Nat.lt_le_trans with (lo + (hi - lo)); [|lia].
      apply Nat.add_lt_mono_l, Nat.div_lt; lia. }
    assert (Hhalf : hi - (lo + (hi - lo) / 2 + 1) <= fuel
                    /\ lo + (hi - lo) / 2 - lo <= fuel).
    { pose proof (Nat.div_mod_eq (hi - lo) 2) as Hd.
      pose proof (Nat.mod_upper_bound (hi - lo) 2 ltac:(lia)) as Hm. lia. }
    set (mid := lo + (hi - lo) / 2) in *.
    destruct (arr !! mid) as [mid_val|] eqn:Emid.
    2:{ apply lookup_ge_None in Emid. lia. }
    destruct (Qltb key mid_val) eqn:Ecmp.
    + apply Qltb_lt in Ecmp.
      apply IH; [lia | lia | lia | assumption |].
      intros i a Hi Ha.
      eapply Qlt_le_trans; [exact Ecmp|].
      apply (Hsorted mid i); [lia | done | done].
    + apply Qltb_ge in Ecmp.
      apply IH; [lia | lia | lia | | assumption].
      intros i a Hi Ha.
      eapply Qle_trans; [|exact Ecmp].
      apply (Hsorted i mid); [lia | done | done].
Qed.

Lemma splits_le_boundary arr key r :
  r <= length arr ->
  (forall i a, i < r -> arr !! i = Some a -> (a <= key)%Q) ->
  (forall i a, r <= i -> arr !! i = Some a -> (key < a)%Q) ->
  splits_le arr key = r.
Proof.
  unfold splits_le. revert r.
  induction arr as [|a0 arr IH]; intros r Hr Hlow Hhigh.
  - simpl in *. lia.
  - rewrite filter_cons. destruct r as [|r].
    + assert (Hgt : (key < a0)%Q) by (by apply (Hhigh 0)).
      destruct (decide (Qle_bool a0 key = true)) as [Hle|_].
      * apply Qle_bool_iff in Hle. exfalso. eapply Qlt_not_le; eassumption.
      * apply (IH 0); [lia | intros; lia |].
        intros i a _ Ha. by apply (Hhigh (S i)); [lia|].
    + assert (Hle : (a0 <= key)%Q) by (by apply (Hlow 0); [lia|]).
      apply Qle_bool_iff in Hle.
      rewrite decide_True by done. simpl. f_equal.
      apply IH; [simpl in Hr; lia | |].
      * intros i a Hi Ha. by apply (Hlow (S i)); [lia|].
      * intros i a Hi Ha. by apply (Hhigh (S i)); [lia|].
Qed.

Lemma np_searchsorted_right_count arr key :
  nondecreasing arr = true ->
  np_searchsorted_right arr key = splits_le arr key.
Proof.
  intros Hs. symmetry. unfold np_searchsorted_right.
  pose proof (binsearch_right_bounds (length arr) arr key 0 (length arr)
                ltac:(lia)) as Hb.
  destruct (binsearch_right_boundary arr key (nondecreasing_sorted _ Hs)
              (length arr) 0 (length arr)) as [Hlow Hhigh];
    [lia | lia | lia | intros; lia | |].
  - intros i a Hi Ha. apply lookup_lt_Some in Ha. lia.
  - apply splits_le_boundary; [lia | exact Hlow | exact Hhigh].
Qed.

Lemma np_digitize_ok_inv x bins idx :
  np_digitize x bins = Ok idx ->
  length idx = length x /\ Forall (fun k => k <= length bins) idx.
Proof.
  unfold np_digitize.
  destruct (nondecreasing bins); [|destruct (nonincreasing bins)];
    intros [= <-]; (split; [apply length_map|]);
    apply Forall_forall; intros k Hk;
    apply list_elem_of_In, in_map_iff in Hk as (v & <- & _).
  - apply (binsearch_right_bounds (length bins) bins v 0 (length bins)). lia.
  - lia.
Qed.

(** C6 (as the code has it).  For an ordered split array, [np.digitize]
    with [right=False] assigns to every value the number of split points
    that are less than or equal to it; the value lies in the right-open
    interval between the split point before that index and the one at it.
    The assignment is defined for every value. *)
Theorem digitize_counts_splits_le (splits x : list Q) :
  nondecreasing splits = true ->
  np_digitize x splits = Ok (map (splits_le splits) x) /\
  forall v,
    let i := splits_le splits v in
    i <= length splits /\
    (forall j s, j < i -> splits !! j = Some s -> (s <= v)%Q) /\
    (forall j s, i <= j -> splits !! j = Some s -> (v < s)%Q).
Proof.
  intros Hs. split.
  - unfold np_digitize. rewrite Hs. f_equal.
    apply map_ext. intros v. by apply np_searchsorted_right_count.
  - intros v i. unfold i.
    rewrite <- (np_searchsorted_right_count _ _ Hs).
    unfold np_searchsorted_right.
    pose proof (binsearch_right_bounds (length splits) splits v 0
                  (length splits) ltac:(lia)) as Hb.
    destruct (binsearch_right_boundary splits v (nondecreasing_sorted _ Hs)
                (length splits) 0 (length splits)) as [Hlow Hhigh];
      [lia | lia | lia | intros; lia | |].
    + intros j a Hj Ha. apply lookup_lt_Some in Ha. lia.
    + split; [lia|]. split; assumption.
Qed.

(** ** Configuration errors *)

Lemma raise_if_error c e0 e : raise_if c e0 = Raise e -> e = e0.
Proof. unfold raise_if. destruct c; congruence. Qed.

Lemma py_cmp_error cmp a b e :
  py_cmp cmp a b = Raise e -> is_configuration_error e.
Proof.
  unfold py_cmp. destruct (float_value a), (float_value b);
    intros [= <-]; exact I.
Qed.

Lemma float_value_finite v q :
  number_value v = Some q -> float_value v = Some (Finite q).
Proof. destruct v; simpl; try discriminate; by intros [= ->]. Qed.

(** Finite numbers compare by their values. *)
Lemma py_cmp_finite cmp a b x y :
  number_value a = Some x -> number_value b = Some y ->
  py_cmp cmp a b = Ok (cmp x y).
Proof.
  intros Ha Hb. unfold py_cmp.
  by rewrite (float_value_finite _ _ Ha), (float_value_finite _ _ Hb).
Qed.

(** Every way in which one check of [_check_parameters] can raise. *)
Ltac leaf_error H :=
  unfold check_bin_size in H;
  unfold check_positive_int, check_prebins, check_fraction, check_trend,
    check_nonnegative, check_codes in H;
  unfold py_in_left_open, py_in_closed in H;
  unfold py_le, py_lt, py_gt in H;
  repeat match type of H with
         | raise_if _ _ = Raise _ =>
             apply raise_if_error in H; subst; exact I
         | py_cmp _ _ _ = Raise _ => apply py_cmp_error in H; exact H
         | rbind _ _ = Raise _ =>
             apply rbind_raise_inv in H as [H | (? & _ & H)]
         | (if ?c then _ else _) = Raise _ => destruct c
         | Ok _ = Raise _ => discriminate H
         | Raise _ = Raise _ => injection H as <-; exact I
         end.

Lemma _check_parameters_error p e :
  _check_parameters p = Raise e -> is_configuration_error e.
Proof.
  unfold _check_parameters. intros H.
  do 27 (apply rbind_raise_inv in H as [H | (? & _ & H)];
         [ solve [leaf_error H] | ]).
  solve [leaf_error H].
Qed.

Lemma number_is_number v q : number_value v = Some q -> is_number v = true.
Proof. destruct v; simpl; congruence. Qed.

Lemma check_nonnegative_raises v q what :
  number_value v = Some q -> (q < 0)%Q ->
  exists e, check_nonnegative v what = Raise e.
Proof.
  intros Hv Hq. unfold check_nonnegative, py_lt.
  rewrite (number_is_number _ _ Hv).
  rewrite (py_cmp_finite _ v (PyInt 0) q (inject_Z 0) Hv eq_refl). cbn.
  replace (Qltb q (inject_Z 0)) with true; [simpl; eauto|].
  symmetry. by apply Qltb_lt.
Qed.

Lemma check_fraction_raises v q hi what :
  number_value v = Some q -> ~ (0 < q /\ q <= hi)%Q ->
  exists e, check_fraction v hi what = Raise e.
Proof.
  intros Hv Hq. unfold check_fraction, py_in_left_open, py_lt, py_le.
  rewrite (py_cmp_finite _ (PyFloat 0) v 0%Q q eq_refl Hv). cbn [rbind].
  rewrite (py_cmp_finite _ v (PyFloat hi) q hi Hv eq_refl).
  destruct (Qltb 0 q) eqn:E1; cbn; [|eauto].
  destruct (Qle_bool q hi) eqn:E2; cbn; [|eauto].
  exfalso. apply Hq. split; [by apply Qltb_lt | by apply Qle_bool_iff].
Qed.

Lemma invalid_configuration_rejected p :
  invalid_configuration p -> exists e, _check_parameters p = Raise e.
Proof.
  intros [g Hg Hneg | t Ht Hneg | q Hq Hout | q Hq Hout | a b Ha Hb Hlt | e He];
    [ | | | | | eauto ]; unfold _check_parameters.
  - do 21 (apply rbind_raises; intros _).
    apply rbind_raises_here. by eapply check_nonnegative_raises.
  - do 26 (apply rbind_raises; intros _).
    apply rbind_raises_here. by eapply check_nonnegative_raises.
  - do 9 (apply rbind_raises; intros _).
    apply rbind_raises_here. by eapply check_fraction_raises.
  - do 10 (apply rbind_raises; intros _).
    apply rbind_raises_here. by eapply check_fraction_raises.
  - do 13 (apply rbind_raises; intros _).
    apply rbind_raises_here. rewrite Ha, Hb. cbn.
    replace (Qltb (inject_Z b) (inject_Z a)) with true; [simpl; eauto|].
    symmetry. apply Qltb_lt. by rewrite <- Zlt_Qlt.
Qed.

(** ** The configurations that validation accepts *)

Lemma raise_if_ok c e : raise_if c e = Ok tt <-> c = false.
Proof. destruct c; simpl; split; congruence. Qed.

Lemma raise_if_negb_ok c e : raise_if (negb c) e = Ok tt <-> c = true.
Proof. destruct c; simpl; split; congruence. Qed.

Lemma str_in_one_of v allowed : str_in v allowed = true <-> one_of allowed v.
Proof.
  unfold one_of. destruct v; simpl; split;
    try discriminate; try (intros (s' & [=] & _); fail).
  - intros H. apply bool_decide_eq_true in H. eauto.
  - intros (s' & [= <-] & H). by apply bool_decide_eq_true.
Qed.

Lemma str_in_single v s : str_in v [s] = true <-> v = PyStr s.
Proof.
  rewrite str_in_one_of. unfold one_of. split.
  - intros (s' & -> & H). apply list_elem_of_singleton in H. by subst.
  - intros ->. exists s. split; [done|]. by apply list_elem_of_singleton.
Qed.

Lemma float_value_cases v :
  (exists q, number_value v = Some q) \/ v = PyInf false \/ v = PyInf true \/
  v = PyNan \/ float_value v = None.
Proof. destruct v as [| | | |[]| |]; simpl; eauto 10. Qed.

Lemma py_cmp_not_number_r cmp a v :
  float_value v = None -> exists e, py_cmp cmp a v = Raise e.
Proof. intros H. unfold py_cmp. rewrite H. destruct (float_value a); eauto. Qed.

Lemma float_value_none v q : float_value v = None -> number_value v <> Some q.
Proof. intros H Hq. by rewrite (float_value_finite _ _ Hq) in H. Qed.

(** Rewrite the comparisons of finite numbers into tests on their
    values. *)
Ltac finite_cmp :=
  unfold py_lt, py_le, py_gt;
  repeat (erewrite py_cmp_finite by (first [eassumption | reflexivity]);
          cbn [rbind]).

Lemma Qle_bool_false x y : Qle_bool x y = false <-> (y < x)%Q.
Proof.
  split.
  - intros H. apply Qnot_le_lt. intros Hle. apply Qle_bool_iff in Hle.
    congruence.
  - intros H. destruct (Qle_bool x y) eqn:E; [|done].
    apply Qle_bool_iff in E. exfalso. eapply Qlt_not_le; eauto.
Qed.

Lemma number_value_integral v : is_integral v = true -> is_Some (number_value v).
Proof. destruct v; simpl; try discriminate; eauto. Qed.

Lemma number_value_not_none v q : number_value v = Some q -> is_none v = false.
Proof. by destruct v. Qed.

Lemma is_none_true v : is_none v = true <-> v = PyNone.
Proof. destruct v; simpl; split; congruence. Qed.

Lemma check_prebins_ok v what :
  check_prebins v what = Ok tt <-> integer_with (fun q => 1 < q)%Q v.
Proof.
  unfold check_prebins, integer_with, number_with.
  destruct (is_integral v) eqn:Ei; simpl.
  - destruct (number_value_integral v Ei) as [q Hq]. finite_cmp.
    rewrite raise_if_ok, Qle_bool_false. split.
    + intros H. split; [done|]. by exists q.
    + intros (_ & q' & Hq' & H). rewrite Hq in Hq'. by injection Hq' as <-.
  - split; [discriminate|]. by intros [? _].
Qed.

Lemma in_left_open_finite v q hi :
  number_value v = Some q ->
  py_in_left_open 0 v hi = Ok (Qltb 0 q && Qle_bool q hi).
Proof.
  intros Hq. unfold py_in_left_open. finite_cmp. by destruct (Qltb 0 q).
Qed.

Lemma in_left_open_not_finite v hi :
  (forall q, number_value v <> Some q) -> py_in_left_open 0 v hi <> Ok true.
Proof.
  intros Hv.
  destruct (float_value_cases v) as [[q Hq]|[->|[->|[->|Hn]]]];
    [by destruct (Hv q)|discriminate..|].
  unfold py_in_left_open, py_lt.
  destruct (py_cmp_not_number_r Qltb (PyFloat 0) v Hn) as [e ->]. discriminate.
Qed.

Lemma check_fraction_ok v hi what :
  check_fraction v hi what = Ok tt <->
  number_with (fun q => 0 < q /\ q <= hi)%Q v.
Proof.
  unfold check_fraction, number_with.
  destruct (number_value v) as [q|] eqn:Hq.
  - rewrite (in_left_open_finite v q hi Hq). cbn [rbind].
    rewrite raise_if_negb_ok, andb_true_iff, Qltb_lt, Qle_bool_iff. split.
    + intros H. by exists q.
    + by intros (q' & [= <-] & H).
  - split; [|by intros (q & [=] & _)].
    intros H. apply rbind_ok_inv in H as (b & Hb & Hr).
    apply raise_if_negb_ok in Hr as ->.
    exfalso. revert Hb. apply in_left_open_not_finite.
    intros q. by rewrite Hq.
Qed.

Lemma check_positive_int_ok v what :
  check_positive_int v what = Ok tt <->
  optional (integer_with (fun q => 0 < q)%Q) v.
Proof.
  unfold check_positive_int, optional, integer_with, number_with.
  destruct (is_none v) eqn:En.
  { apply is_none_true in En. split; auto. }
  destruct (is_integral v) eqn:Ei; simpl.
  - destruct (number_value_integral v Ei) as [q Hq]. finite_cmp.
    rewrite raise_if_ok, Qle_bool_false. split.
    + intros H. right. split; [done|]. by exists q.
    + intros [->|(_ & q' & Hq' & H)]; [done|].
      rewrite Hq in Hq'. by injection Hq' as <-.
  - split; [discriminate|]. intros [->|[? _]]; done.
Qed.

Lemma check_bin_size_ok v hi what :
  check_bin_size v hi what = Ok tt <->
  optional (number_with (fun q => 0 < q /\ q <= hi)%Q) v.
Proof.
  unfold check_bin_size, optional.
  destruct (is_none v) eqn:En.
  { apply is_none_true in En. split; auto. }
  destruct (is_number v) eqn:Ei; simpl.
  - rewrite check_fraction_ok. split; [auto|].
    intros [->|H]; done.
  - split; [discriminate|]. intros [->|(q & Hq & _)]; [done|].
    apply number_is_number in Hq. congruence.
Qed.

Lemma check_trend_ok v what :
  check_trend v what = Ok tt <->
  optional (one_of ["ascending"; "descending"]) v.
Proof.
  unfold check_trend, optional.
  destruct (is_none v) eqn:En.
  { apply is_none_true in En. split; auto. }
  rewrite raise_if_negb_ok, str_in_one_of. split; [auto|].
  intros [->|H]; done.
Qed.

Lemma check_nonnegative_ok v what :
  check_nonnegative v what = Ok tt <-> not_negative v.
Proof.
  unfold check_nonnegative, not_negative, number_with.
  destruct (float_value_cases v) as [[q Hq]|[->|[->|[->|Hn]]]].
  - rewrite (number_is_number _ _ Hq). simpl. finite_cmp.
    rewrite raise_if_ok, Qltb_ge. split.
    + intros H. left. by exists q.
    + intros [(q' & Hq' & H)|[->| ->]]; [|done..].
      rewrite Hq in Hq'. by injection Hq' as <-.
  - split; [auto|done].
  - split; [discriminate|]. intros [(q & [=] & _)|[[=]|[=]]].
  - split; [auto|done].
  - destruct (is_number v) eqn:Ei; simpl.
    + unfold py_lt. destruct (py_cmp_not_number_r Qltb v (PyInt 0)) as [e He].
      { by destruct v as [| | | |[]| |]. }
      destruct v as [| | | |[]| |]; discriminate.
    + split; [discriminate|].
      intros [(q & Hq & _)|[->| ->]]; [|done..].
      apply number_is_number in Hq. congruence.
Qed.

Lemma check_codes_ok c what :
  check_codes c what = Ok tt <-> codes_accepted c.
Proof.
  unfold check_codes, codes_accepted.
  destruct c as [l|l|[]]; simpl; split;
    try (intros _; auto; fail); try discriminate; intros [[=]|[=]].
Qed.

(** The guard [if a is not None and b is not None: if a > b: raise]. *)
Lemma ordered_ok lo hi what :
  optional (number_with (fun _ => True)) lo ->
  optional (number_with (fun _ => True)) hi ->
  (if negb (is_none lo) && negb (is_none hi)
   then rbind (py_gt lo hi) (fun b => raise_if b (ValueError what))
   else Ok tt) = Ok tt <-> ordered lo hi.
Proof.
  unfold ordered, optional, py_gt.
  intros [->|(a & Ha & _)]; [simpl; split; [discriminate|done]|].
  intros [->|(b & Hb & _)].
  { rewrite andb_false_r. split; [discriminate|done]. }
  rewrite (number_value_not_none _ _ Ha), (number_value_not_none _ _ Hb).
  simpl. finite_cmp. rewrite raise_if_ok, Qltb_ge. split.
  - intros H a' b' Ha' Hb'. congruence.
  - intros H. by apply H.
Qed.

Lemma optional_weaken (P Q : pyobj -> Prop) v :
  (forall v, P v -> Q v) -> optional P v -> optional Q v.
Proof. intros H [->|Hv]; [by left|right; auto]. Qed.

Lemma split_digits_ok v :
  (if is_none v then Ok tt
   else if negb (is_integral v) then Raise (ValueError "split_digits")
   else rbind (py_in_closed 0 v 8)
          (fun b => raise_if (negb b) (ValueError "split_digits"))) = Ok tt
  <-> optional (integer_with (fun q => 0 <= q /\ q <= 8)%Q) v.
Proof.
  unfold optional, integer_with, number_with, py_in_closed.
  destruct (is_none v) eqn:En.
  { apply is_none_true in En. split; auto. }
  destruct (is_integral v) eqn:Ei; simpl.
  - destruct (number_value_integral v Ei) as [q Hq]. finite_cmp.
    destruct (Qle_bool (inject_Z 0) q) eqn:E0; cbn [rbind].
    + apply Qle_bool_iff in E0.
      rewrite raise_if_negb_ok, Qle_bool_iff. split.
      * intros H. right. split; [done|]. by exists q.
      * intros [->|(_ & q' & Hq' & _ & H)]; [done|].
        rewrite Hq in Hq'. by injection Hq' as <-.
    + split; [discriminate|]. intros [->|(_ & q' & Hq' & H & _)]; [done|].
      rewrite Hq in Hq'. injection Hq' as <-.
      apply Qle_bool_iff in H. change (Qle_bool 0 q = false) in E0.
      congruence.
  - split; [discriminate|]. intros [->|[? _]]; done.
Qed.

Lemma n_jobs_ok v :
  (if is_none v then Ok tt
   else raise_if (negb (is_integral v)) (ValueError "n_jobs")) = Ok tt
  <-> optional (fun v => is_integral v = true) v.
Proof.
  unfold optional. destruct (is_none v) eqn:En.
  { apply is_none_true in En. split; auto. }
  rewrite raise_if_negb_ok. split; [auto|]. intros [->|]; done.
Qed.

Lemma integer_is_number P v :
  optional (integer_with P) v -> optional (number_with (fun _ => True)) v.
Proof.
  apply optional_weaken. intros w (_ & q & Hq & _). by exists q.
Qed.

Lemma number_is_any P v :
  optional (number_with P) v -> optional (number_with (fun _ => True)) v.
Proof.
  apply optional_weaken. intros w (q & Hq & _). by exists q.
Qed.

Lemma rbind_unit_ok (r : result unit) (k : unit -> result unit) :
  rbind r k = Ok tt <-> r = Ok tt /\ k tt = Ok tt.
Proof.
  destruct r as [[]|e]; simpl; split; try tauto; try discriminate.
Qed.

Lemma _check_parameters_ok_inv p :
  _check_parameters p = Ok tt -> well_configured p.
Proof.
  unfold _check_parameters. rewrite !rbind_unit_ok.
  rewrite !raise_if_negb_ok, !str_in_single, !str_in_one_of,
    !check_prebins_ok, !check_fraction_ok, !check_positive_int_ok,
    !check_bin_size_ok, !check_trend_ok, !check_nonnegative_ok,
    !check_codes_ok, split_digits_ok, n_jobs_ok.
  intros (?&?&?&?&?&?&?&?&?&?&?&?&?&Hn&?&?&Hb&?&?&?&?&?&?&?&?&?&?&?).
  apply ordered_ok in Hn; [|eapply integer_is_number; eassumption..].
  apply ordered_ok in Hb; [|eapply number_is_any; eassumption..].
  by constructor.
Qed.

(** ** What validation guarantees to the later steps *)

Lemma one_of_two a b v :
  one_of [a; b] v -> v = PyStr a \/ v = PyStr b.
Proof.
  intros (s & -> & H). apply list_elem_of_In in H.
  destruct H as [<-|[<-|[]]]; auto.
Qed.

(** X2.  After validation the solver is one of the two known ones, so the
    branch on it binds the scale and the optimizer: one million and the
    constraint-programming formulation for "cp", no scale and the
    mixed-integer formulation for "mip". *)
Theorem validated_solver_is_bound p jobs :
  _check_parameters p = Ok tt ->
  exists optimizer,
    (solver p = PyStr "cp" /\
     choose_optimizer p jobs = Ok (Some 1000000%Z, optimizer) /\
     opt_backend optimizer = CP) \/
    (solver p = PyStr "mip" /\
     choose_optimizer p jobs = Ok (None, optimizer) /\
     opt_backend optimizer = MIP).
Proof.
  intros H. apply _check_parameters_ok_inv in H. destruct H.
  apply one_of_two in wc_solver0 as [E|E]; unfold choose_optimizer;
    rewrite E; eexists; [left|right]; done.
Qed.

Lemma sample_count_nonneg n : (0 <= inject_Z (Z.of_nat n))%Q.
Proof. change 0%Q with (inject_Z 0). rewrite <- Zle_Qle. lia. Qed.

Lemma bin_size_bound_value q n :
  (0 < q)%Q -> (q <= 1)%Q ->
  let b := Qceiling (float64 (q * float64 (inject_Z (Z.of_nat n)))) in
  ((1 <= n)%nat -> 1 <= b)%Z /\
  ((Z.of_nat n <= 2 ^ 53)%Z -> (b <= Z.of_nat n)%Z).
Proof.
  intros H0 H1 b. pose proof (sample_count_nonneg n) as HN.
  pose proof (float64_0_le _ HN) as HF. split.
  - intros Hn.
    assert (0 < float64 (inject_Z (Z.of_nat n)))%Q as HFp.
    { apply float64_0_lt. change 0%Q with (inject_Z 0).
      rewrite <- Zlt_Qlt. lia. }
    assert (0 < float64 (q * float64 (inject_Z (Z.of_nat n))))%Q as Hpos.
    { apply float64_0_lt. by apply Qmult_lt_0_compat. }
    pose proof (Qle_ceiling (float64 (q * float64 (inject_Z (Z.of_nat n)))))
      as Hc. fold b in Hc.
    assert (inject_Z 0 < inject_Z b)%Q as Hb
      by (eapply Qlt_le_trans; eauto).
    rewrite <- Zlt_Qlt in Hb. lia.
  - intros Hn. unfold b. rewrite <- (Qceiling_Z (Z.of_nat n)) at 2.
    apply Qceiling_resp_le.
    pose proof (float64_integer (Z.of_nat n) ltac:(lia)) as E.
    apply Qle_trans with (float64 (inject_Z (Z.of_nat n))); [|lra].
    apply float64_mono; nra.
Qed.

Lemma float64_unit_product x :
  (0 <= x)%Q -> (float64 (inject_Z 1 * float64 x) == float64 x)%Q.
Proof.
  intros Hx. rewrite <- (float64_idempotent x Hx) at 2.
  pose proof (float64_0_le x Hx). apply float64_comp; [|ring].
  change (inject_Z 1) with 1%Q. lra.
Qed.

(** The bound for a validated fraction of value [q], whichever its
    class. *)
Lemma bin_size_bound_number v q n :
  number_value v = Some q -> (0 < q)%Q -> (q <= 1)%Q ->
  bin_size_bound v (Some n) =
  Ok (Some (Qceiling (float64 (q * float64 (inject_Z (Z.of_nat n)))))).
Proof.
  intros Hv H0 H1. pose proof (sample_count_nonneg n) as HN.
  assert (Hone : forall k : Z, (0 < inject_Z k)%Q -> (inject_Z k <= 1)%Q ->
    Qceiling (float64 (inject_Z (k * Z.of_nat n))) =
    Qceiling (float64 (inject_Z k * float64 (inject_Z (Z.of_nat n))))).
  { intros k K0 K1. change 0%Q with (inject_Z 0) in K0.
    change 1%Q with (inject_Z 1) in K1.
    rewrite <- Zlt_Qlt in K0. rewrite <- Zle_Qle in K1.
    assert (k = 1%Z) as -> by lia. rewrite Z.mul_1_l.
    apply Qceiling_comp. symmetry. by apply float64_unit_product. }
  destruct v as [|b|k|q'| | |]; simpl in Hv; try discriminate;
    injection Hv as <-; simpl.
  - by rewrite Hone.
  - by rewrite Hone.
  - done.
Qed.

(** X3.  After validation the two bin-size bounds are computed without error
    for any number of samples; a bound is [None] exactly when its fraction
    is, a bound that is set is at least one when there is a sample and at
    most the number of samples as long as that number is a binary64
    number (up to [2^53]), and the minimum does not exceed the maximum. *)
Theorem validated_bin_size_bounds p n :
  _check_parameters p = Ok tt ->
  exists lo hi,
    bin_size_bound (min_bin_size p) (Some n) = Ok lo /\
    bin_size_bound (max_bin_size p) (Some n) = Ok hi /\
    (lo = None <-> min_bin_size p = PyNone) /\
    (hi = None <-> max_bin_size p = PyNone) /\
    (forall a, lo = Some a ->
       ((1 <= n)%nat -> 1 <= a)%Z /\
       ((Z.of_nat n <= 2 ^ 53)%Z -> (a <= Z.of_nat n)%Z)) /\
    (forall b, hi = Some b ->
       ((1 <= n)%nat -> 1 <= b)%Z /\
       ((Z.of_nat n <= 2 ^ 53)%Z -> (b <= Z.of_nat n)%Z)) /\
    (forall a b, lo = Some a -> hi = Some b -> (a <= b)%Z).
Proof.
  intros H. apply _check_parameters_ok_inv in H. destruct H.
  assert (Hbound : forall v hi, (hi <= 1)%Q ->
    optional (number_with (fun q => 0 < q /\ q <= hi)%Q) v ->
    exists b, bin_size_bound v (Some n) = Ok b /\
      (b = None <-> v = PyNone) /\
      (forall a, b = Some a ->
         (((1 <= n)%nat -> 1 <= a)%Z /\
          ((Z.of_nat n <= 2 ^ 53)%Z -> (a <= Z.of_nat n)%Z)) /\
         exists q, number_value v = Some q /\
           a = Qceiling (float64 (q * float64 (inject_Z (Z.of_nat n)))))).
  { intros v hi Hhi [->|(q & Hq & H0 & H1)].
    - exists None. repeat split; done.
    - assert (q <= 1)%Q by (by eapply Qle_trans).
      eexists. split; [by apply bin_size_bound_number|].
      split; [split; [done|intros ->; done]|].
      intros a [= <-]. split; [|eauto].
      by apply bin_size_bound_value. }
  destruct (Hbound _ (1 # 2)%Q ltac:(unfold Qle; simpl; lia) wc_min_bin_size0)
    as (lo & Elo & Nlo & Vlo).
  destruct (Hbound _ _ ltac:(apply Qle_refl) wc_max_bin_size0)
    as (hi & Ehi & Nhi & Vhi).
  exists lo, hi. do 4 (split; [done|]).
  split; [intros a Ha; by apply Vlo|].
  split; [intros b Hb; by apply Vhi|].
  intros a b Ha Hb.
  destruct (Vlo a Ha) as (_ & qa & Hqa & ->).
  destruct (Vhi b Hb) as (_ & qb & Hqb & ->).
  pose proof (float64_0_le _ (sample_count_nonneg n)) as HF.
  pose proof (wc_bin_size0 _ _ Hqa Hqb) as Hab.
  destruct wc_min_bin_size0 as [E|(qa' & Hqa' & Ha0 & _)];
    [by rewrite E in Hqa|].
  rewrite Hqa in Hqa'. injection Hqa' as <-.
  apply Qceiling_resp_le, float64_mono; nra.
Qed.

(** After validation the two names are strings, so the joined name is
    their concatenation around a dash. *)
Lemma validated_join_names p :
  _check_parameters p = Ok tt ->
  exists sx sy,
    name_x p = PyStr sx /\ name_y p = PyStr sy /\
    join_names (name_x p) (name_y p) = Ok (sx ++ "-" ++ sy)%string.
Proof.
  intros H. apply _check_parameters_ok_inv in H. destruct H.
  destruct (name_x p) as [| | | | | |sx]; try discriminate.
  destruct (name_y p) as [| | | | | |sy]; try discriminate.
  by exists sx, sy.
Qed.

(** X1.  On parameters that are [None], booleans, integers, floats ([nan]
    and the infinities included) or strings, [_check_parameters] returns
    exactly when the configuration is well configured: names are strings,
    the data types are "numerical", the method, strategy and solver are
    among the known ones, the pre-bin counts are integers above one, the
    pre-bin sizes lie in (0, 0.5], the optional bin counts are positive
    integers in order, the optional bin sizes lie in (0, 0.5] and (0, 1]
    in order, the trends are unset, "ascending" or "descending", the mean
    differences are numbers of any value, gamma and the time limit are
    numbers not below zero ([nan] and the positive infinity pass), the
    special codes are unset, a list or an array, the split digits are
    unset or an integer from 0 to 8, the job count is unset or an
    integer, and verbose is a boolean. *)
Theorem check_parameters_accepts_exactly_well_configured p :
  _check_parameters p = Ok tt <-> well_configured p.
Proof.
  split; [apply _check_parameters_ok_inv|].
  intros []. unfold _check_parameters. rewrite !rbind_unit_ok.
  rewrite !raise_if_negb_ok, !str_in_single, !str_in_one_of,
    !check_prebins_ok, !check_fraction_ok, !check_positive_int_ok,
    !check_bin_size_ok, !check_trend_ok, !check_nonnegative_ok,
    !check_codes_ok, split_digits_ok, n_jobs_ok.
  repeat (first [assumption | apply conj]).
  - apply ordered_ok; [eapply integer_is_number; eassumption..|done].
  - apply ordered_ok; [eapply number_is_any; eassumption..|done].
Qed.

(** ** Array writes *)

Section ArrayWrites.

Context {A : Type}.
Implicit Types (a : list A) (r : list nat) (v : A).

Lemma setitem_ok_inv a i v a' :
  setitem a i v = Ok a' -> i < length a /\ a' = <[i := v]> a.
Proof.
  unfold setitem. destruct (Nat.ltb_spec i (length a)); [|discriminate].
  intros [= <-]. auto.
Qed.

Lemma setitem_neg_ok_inv a k v a' :
  setitem_neg a k v = Ok a' ->
  k <= length a /\ a' = <[length a - k := v]> a.
Proof.
  unfold setitem_neg. destruct (Nat.leb_spec k (length a)); [|discriminate].
  intros [= <-]. auto.
Qed.

Lemma getitem_ok_inv a i v : getitem a i = Ok v -> a !! i = Some v.
Proof. unfold getitem. destruct (a !! i); [congruence | discriminate]. Qed.

Lemma getitem_mask_ok_inv a mask a' :
  getitem_mask a mask = Ok a' ->
  length mask = length a /\ a' = compress mask a.
Proof.
  unfold getitem_mask.
  destruct (Nat.eqb_spec (length mask) (length a)); [|discriminate].
  intros [= <-]. auto.
Qed.

Lemma length_paint a r v : length (paint a r v) = length a.
Proof.
  unfold paint. revert a. induction r as [|k r IH]; intros a; simpl; [done|].
  rewrite IH. apply length_insert.
Qed.

Lemma lookup_paint_notin a r v k : k ∉ r -> paint a r v !! k = a !! k.
Proof.
  unfold paint. revert a. induction r as [|j r IH]; intros a Hk; simpl; [done|].
  apply not_elem_of_cons in Hk as [Hne Hk].
  rewrite IH by done. apply list_lookup_insert_ne. congruence.
Qed.

Lemma lookup_paint_in a r v k :
  k ∈ r -> k < length a -> paint a r v !! k = Some v.
Proof.
  unfold paint. revert a. induction r as [|j r IH]; intros a Hk Hlen; simpl.
  - by apply elem_of_nil in Hk.
  - destruct (decide (k ∈ r)) as [Hin|Hnin].
    + apply IH; [done|]. by rewrite length_insert.
    + apply elem_of_cons in Hk as [->|Hin]; [|done].
      fold (paint (<[j:=v]> a) r v). rewrite lookup_paint_notin by done.
      by apply list_lookup_insert_eq.
Qed.

Lemma setitem_fancy_ok_inv a r v a' :
  setitem_fancy a r v = Ok a' ->
  Forall (fun k => k < length a) r /\ a' = paint a r v.
Proof.
  unfold setitem_fancy.
  destruct (forallb (fun k => k <? length a) r) eqn:E; [|discriminate].
  intros [= <-]. split; [|done].
  apply Forall_forall. intros k Hk.
  rewrite forallb_forall in E. apply Nat.ltb_lt, E. by apply list_elem_of_In.
Qed.

End ArrayWrites.

Lemma lookup_np_empty {A} (junk : nat -> A) n k :
  k < n -> np_empty junk n !! k = Some (junk k).
Proof.
  intros Hk. unfold np_empty. rewrite list_lookup_fmap, lookup_seq_lt by done.
  reflexivity.
Qed.

Lemma length_np_empty {A} (junk : nat -> A) n : length (np_empty junk n) = n.
Proof. unfold np_empty. by rewrite length_fmap, length_seq. Qed.

Lemma reshape_ok_inv {A} (a : list A) r c b :
  reshape a r c = Ok b ->
  length a = r * c /\ nrows b = r /\ ncols b = c /\ data b = a.
Proof.
  unfold reshape. destruct (Nat.eqb_spec (length a) (r * c)); [|discriminate].
  intros [= <-]. auto.
Qed.

Lemma last_cover_none a l k :
  (forall r, r ∈ l -> k ∉ r) -> last_cover a l k = None.
Proof.
  revert a. induction l as [|r l IH]; intros a H; simpl; [done|].
  rewrite IH by (intros r' Hr'; apply H; by right).
  rewrite bool_decide_eq_false_2; [done|]. apply H. by left.
Qed.

Lemma last_cover_last a l k i r :
  l !! i = Some r -> k ∈ r ->
  (forall j r', i < j -> l !! j = Some r' -> k ∉ r') ->
  last_cover a l k = Some (a + i).
Proof.
  revert a i. induction l as [|r0 l IH]; intros a i Hi Hk Hlast; [done|].
  simpl. destruct i as [|i]; simpl in Hi.
  - injection Hi as ->.
    rewrite last_cover_none.
    + rewrite bool_decide_eq_true_2 by done. f_equal. lia.
    + intros r' Hr'. apply list_elem_of_lookup in Hr' as [j Hj].
      apply (Hlast (S j)); [lia | done].
  - rewrite (IH (S a) i); [f_equal; lia | done | done |].
    intros j r' Hj Hr'. apply (Hlast (S j)); [lia | done].
Qed.

Section MaskWrites.

Context {A : Type}.

Lemma setitem_mask_ok_inv (a : list A) mask v a' :
  setitem_mask a mask v = Ok a' ->
  length mask = length a /\
  a' = zip_with (fun (b : bool) old => if b then v else old) mask a.
Proof.
  unfold setitem_mask.
  destruct (Nat.eqb_spec (length mask) (length a)); [|discriminate].
  intros [= <-]. auto.
Qed.

End MaskWrites.

(** [for i in range(n): xt[indices == i] = i] copies the indices below
    [n] into [xt]. *)
Lemma mask_fill_spec idx : forall n a xt0 xt,
  for_each (seq a n)
    (fun i xt => setitem_mask xt (np_eq_scalar idx i) (Z.of_nat i)) xt0 = Ok xt ->
  length xt0 = length idx ->
  forall j,
    xt !! j =
      match idx !! j with
      | Some k => if bool_decide (a <= k < a + n) then Some (Z.of_nat k)
                  else xt0 !! j
      | None => None
      end.
Proof.
  induction n as [|n IH]; intros a xt0 xt H Hlen j.
  - injection H as <-.
    destruct (idx !! j) as [k|] eqn:E.
    + rewrite bool_decide_eq_false_2 by lia. done.
    + apply lookup_ge_None in E. apply lookup_ge_None. lia.
  - cbn [seq for_each] in H.
    apply rbind_ok_inv in H as (xt1 & H1 & H).
    apply setitem_mask_ok_inv in H1 as [Hm ->].
    unfold np_eq_scalar in *. rewrite length_map in Hm.
    rewrite (IH _ _ _ H) by (rewrite length_zip_with, length_map; lia).
    destruct (idx !! j) as [k|] eqn:E; [|done].
    rewrite lookup_zip_with, list_lookup_fmap, E. simpl.
    destruct (xt0 !! j) as [old|] eqn:Eo.
    2:{ apply lookup_ge_None in Eo. apply lookup_lt_Some in E. lia. }
    simpl. destruct (Nat.eqb_spec k a) as [->|Hne].
    + rewrite bool_decide_eq_false_2 by lia.
      rewrite bool_decide_eq_true_2 by lia. done.
    + destruct (decide (S a <= k < S a + n)).
      * rewrite !bool_decide_eq_true_2 by lia. done.
      * rewrite !bool_decide_eq_false_2 by lia. done.
Qed.

(** ** The reconstruction loop *)

Section ReconstructionLoop.

Context `{ext : Externals}.
Variables (rows_2d : bool) (solution : list bool) (n_records : list Z)
  (sums stds : list Q).

Lemma reconstruct_body_ok_inv i r acc acc' :
  reconstruct_body rows_2d solution n_records sums stds (i, r) acc = Ok acc' ->
  exists n s d,
    compress solution n_records !! i = Some n /\
    compress solution sums !! i = Some s /\
    compress solution stds !! i = Some d /\
    Forall (fun k => k < length (rc_P acc)) r /\
    Forall (fun k => k < length (rc_D acc)) r /\
    i < length (opt_sums acc) /\
    i < length (opt_n_records acc) /\
    i < length (opt_stds acc) /\
    acc' = {| rc_P := paint (rc_P acc) r (Z.of_nat i);
              rc_D := paint (rc_D acc) r (np_true_divide s (inject_Z n));
              opt_sums := <[i := s]> (opt_sums acc);
              opt_n_records := <[i := n]> (opt_n_records acc);
              opt_stds := <[i := d]> (opt_stds acc) |}.
Proof.
  unfold reconstruct_body. cbn [fst snd]. intros H.
  apply rbind_ok_inv in H as (n_sel & H1 & H).
  apply rbind_ok_inv in H as (n & H2 & H).
  apply rbind_ok_inv in H as (s_sel & H3 & H).
  apply rbind_ok_inv in H as (s & H4 & H).
  apply rbind_ok_inv in H as (d_sel & H5 & H).
  apply rbind_ok_inv in H as (d & H6 & H).
  apply rbind_ok_inv in H as (P & H7 & H).
  apply rbind_ok_inv in H as (D & H8 & H).
  apply rbind_ok_inv in H as (os & H9 & H).
  apply rbind_ok_inv in H as (on & H10 & H).
  apply rbind_ok_inv in H as (ot & H11 & H).
  apply getitem_mask_ok_inv in H1 as [_ ->].
  apply getitem_mask_ok_inv in H3 as [_ ->].
  apply getitem_mask_ok_inv in H5 as [_ ->].
  apply getitem_ok_inv in H2, H4, H6.
  destruct rows_2d; [discriminate|].
  apply setitem_fancy_ok_inv in H7 as [? ->].
  apply setitem_fancy_ok_inv in H8 as [? ->].
  apply setitem_ok_inv in H9 as [? ->].
  apply setitem_ok_inv in H10 as [? ->].
  apply setitem_ok_inv in H11 as [? ->].
  injection H as <-. exists n, s, d. repeat split; assumption.
Qed.

(** An iteration only returns on a list of cells. *)
Lemma reconstruct_body_ok_lists ir acc acc' :
  reconstruct_body rows_2d solution n_records sums stds ir acc = Ok acc' ->
  rows_2d = false.
Proof.
  unfold reconstruct_body. intros H.
  do 6 (apply rbind_ok_inv in H as (? & _ & H)).
  apply rbind_ok_inv in H as (? & H7 & _). by destruct rows_2d.
Qed.

(** What the loop over the candidates numbered [a], [a+1], ... does to the
    arrays. *)
Lemma reconstruction_loop_spec l : forall a acc acc',
  for_each (zip (seq a (length l)) l)
    (reconstruct_body rows_2d solution n_records sums stds) acc = Ok acc' ->
  (length (rc_P acc') = length (rc_P acc) /\
   length (rc_D acc') = length (rc_D acc) /\
   length (opt_sums acc') = length (opt_sums acc) /\
   length (opt_n_records acc') = length (opt_n_records acc) /\
   length (opt_stds acc') = length (opt_stds acc)) /\
  (forall j, j < a \/ a + length l <= j ->
     opt_sums acc' !! j = opt_sums acc !! j /\
     opt_n_records acc' !! j = opt_n_records acc !! j /\
     opt_stds acc' !! j = opt_stds acc !! j) /\
  (forall i, i < length l ->
     a + i < length (opt_sums acc) /\
     is_Some (compress solution sums !! (a + i)) /\
     is_Some (compress solution n_records !! (a + i)) /\
     is_Some (compress solution stds !! (a + i)) /\
     opt_sums acc' !! (a + i) = compress solution sums !! (a + i) /\
     opt_n_records acc' !! (a + i) = compress solution n_records !! (a + i) /\
     opt_stds acc' !! (a + i) = compress solution stds !! (a + i)) /\
  (forall k,
     rc_P acc' !! k =
       match last_cover a l k with
       | Some j => Some (Z.of_nat j)
       | None => rc_P acc !! k
       end /\
     rc_D acc' !! k =
       match last_cover a l k with
       | Some j => selected_mean solution n_records sums j
       | None => rc_D acc !! k
       end).
Proof.
  induction l as [|r l IH]; intros a acc acc' H.
  - injection H as <-. repeat split; intros; try done; simpl in *; lia.
  - cbn [length seq zip zip_with for_each] in H.
    apply rbind_ok_inv in H as (acc1 & Hbody & H).
    apply reconstruct_body_ok_inv in Hbody
      as (n & s & d & Hn & Hs & Hd & HP & HD & Hls & Hln & Hlt & ->).
    apply IH in H as ((LP & LD & Ls & Ln & Lt) & Hout & Hin & Hcell).
    cbn [rc_P rc_D opt_sums opt_n_records opt_stds] in *.
    rewrite !length_paint in *. rewrite !length_insert in *.
    split; [ repeat split; assumption | ].
    split; [ | split ].
    + intros j Hj. cbn [length] in Hj.
      destruct (Hout j) as (-> & -> & ->); [lia|].
      rewrite !list_lookup_insert_ne by lia. done.
    + intros [|i] Hi; cbn [length] in Hi.
      * rewrite Nat.add_0_r.
        destruct (Hout a) as (-> & -> & ->); [lia|].
        rewrite !list_lookup_insert_eq by lia.
        rewrite Hs, Hn, Hd. repeat split; eauto.
      * replace (a + S i) with (S a + i) by lia.
        destruct (Hin i) as (? & ? & ? & ? & ? & ? & ?); [lia|].
        repeat split; try assumption.
    + intros k. destruct (Hcell k) as [HPk HDk].
      cbn [last_cover]. rewrite HPk, HDk.
      destruct (last_cover (S a) l k) as [j|]; [done|].
      case_bool_decide as Hk.
      * assert (k < length (rc_P acc) /\ k < length (rc_D acc)) as [? ?].
        { rewrite Forall_forall in HP, HD. split; [by apply HP | by apply HD]. }
        rewrite !lookup_paint_in by done.
        unfold selected_mean. rewrite Hs, Hn. done.
      * rewrite !lookup_paint_notin by done. done.
Qed.

End ReconstructionLoop.

(** ** When the reconstruction loop returns *)

Lemma length_compress_same {A B} mask (a : list A) (b : list B) :
  length mask = length a -> length mask = length b ->
  length (compress mask a) = length (compress mask b).
Proof.
  revert a b. induction mask as [|c mask IH]; intros [|x a] [|y b]; try done.
  simpl. intros [= Ha] [= Hb]. destruct c; simpl; auto.
Qed.

Lemma setitem_fancy_ok {A} (a : list A) r v :
  Forall (fun k => k < length a) r -> setitem_fancy a r v = Ok (paint a r v).
Proof.
  intros H. unfold setitem_fancy.
  rewrite (proj2 (forallb_forall _ _)); [done|].
  intros k Hk. apply Nat.ltb_lt.
  rewrite Forall_forall in H. apply H. by apply list_elem_of_In.
Qed.

Section LoopReturns.
Context `{ext : Externals}.
Variables (solution : list bool) (n_records : list Z) (sums stds : list Q).
Hypothesis Hn : length solution = length n_records.
Hypothesis Hs : length solution = length sums.
Hypothesis Hd : length solution = length stds.

Lemma reconstruct_body_ok i r acc :
  i < length (compress solution n_records) ->
  Forall (fun k => k < length (rc_P acc)) r ->
  length (rc_D acc) = length (rc_P acc) ->
  i < length (opt_sums acc) ->
  i < length (opt_n_records acc) ->
  i < length (opt_stds acc) ->
  exists acc',
    reconstruct_body false solution n_records sums stds (i, r) acc = Ok acc' /\
    length (rc_P acc') = length (rc_P acc) /\
    length (rc_D acc') = length (rc_D acc) /\
    length (opt_sums acc') = length (opt_sums acc) /\
    length (opt_n_records acc') = length (opt_n_records acc) /\
    length (opt_stds acc') = length (opt_stds acc).
Proof using Hn Hs Hd.
  intros Hi Hr HD H1 H2 H3.
  assert (is_Some (compress solution n_records !! i)) as [n En]
    by (by apply lookup_lt_is_Some).
  assert (is_Some (compress solution sums !! i)) as [s Es].
  { apply lookup_lt_is_Some.
    by rewrite (length_compress_same _ sums n_records). }
  assert (is_Some (compress solution stds !! i)) as [d Ed].
  { apply lookup_lt_is_Some.
    by rewrite (length_compress_same _ stds n_records). }
  unfold reconstruct_body, getitem_mask, getitem, setitem. cbn [fst snd].
  rewrite <- Hn, <- Hs, <- Hd, Nat.eqb_refl. cbn [rbind].
  rewrite En, Es, Ed. cbn [rbind].
  rewrite !setitem_fancy_ok by (by rewrite ?HD). cbn [rbind].
  destruct (Nat.ltb_spec i (length (opt_sums acc))); [|lia].
  destruct (Nat.ltb_spec i (length (opt_n_records acc))); [|lia].
  destruct (Nat.ltb_spec i (length (opt_stds acc))); [|lia].
  cbn [rbind]. eexists. split; [reflexivity|]. simpl.
  by rewrite !length_paint, !length_insert.
Qed.

Lemma reconstruction_loop_returns l : forall a acc,
  a + length l <= length (compress solution n_records) ->
  Forall (Forall (fun k => k < length (rc_P acc))) l ->
  length (rc_D acc) = length (rc_P acc) ->
  a + length l <= length (opt_sums acc) ->
  a + length l <= length (opt_n_records acc) ->
  a + length l <= length (opt_stds acc) ->
  exists acc',
    for_each (zip (seq a (length l)) l)
      (reconstruct_body false solution n_records sums stds) acc = Ok acc'.
Proof using Hn Hs Hd.
  induction l as [|r l IH]; intros a acc Hc Hr HD H1 H2 H3; [by eexists|].
  apply Forall_cons in Hr as [Hr Hl]. simpl in *.
  destruct (reconstruct_body_ok a r acc) as (acc1 & E & L1 & L2 & L3 & L4 & L5);
    try done; try lia.
  rewrite E. cbn [rbind].
  apply IH; rewrite ?L1, ?L2, ?L3, ?L4, ?L5; try done; lia.
Qed.

End LoopReturns.

(** ** A completed [_fit] and its trace *)

Section FitRuns.

Context `{ext : Externals}.

Lemma _prebinning_matrices_run sx sy xc yc zc xm ym zm xs ys zs self :
  _prebinning_matrices sx sy xc yc zc xm ym zm xs ys zs self =
  (cell_matrices sx sy xc yc zc, with_aux (subset_statistics zm zs) self).
Proof. reflexivity. Qed.

Lemma _fit_ok_inv x y z ci self self' :
  _fit x y z ci self = (Ok tt, self') ->
  exists t, fit_trace_ok x y z ci (params self) t /\ self' = fit_state x t self.
Proof.
  intros H. unfold _fit in H.
  run_lift H u Echeck. destruct u.
  run_lift H sd Esd.
  run_lift H sx Esx.
  run_lift H sy Esy.
  apply mbind_ok_inv in H as (mats & s1 & Hm & H).
  rewrite _prebinning_matrices_run in Hm.
  inversion Hm as [[Hcm Hs1]]; subst s1; clear Hm.
  apply mbind_ok_inv in H as ([] & s2 & Hc & H).
  rewrite mbind_setattr in H.
  apply mbind_ok_inv in H as (res & s3 & Ho & H).
  unfold _fit_optimizer in Ho.
  rewrite mbind_getattr in Ho. unfold id in Ho.
  run_lift Ho min_bs Emin.
  run_lift Ho max_bs Emax.
  run_lift Ho jobs Ejobs.
  run_lift Ho so Eso.
  run_lift Ho md Emd.
  run_lift Ho model Emodel.
  run_lift Ho solved Esolved.
  run_lift Ho stats Estats.
  repeat rewrite mbind_setattr in Ho.
  inversion Ho; subst res s3; clear Ho.
  cbn [fst snd] in H.
  rewrite mbind_setattr, mbind_getattr in H. unfold id in H.
  run_lift H sol Esol.
  run_lift H sel Esel.
  run_lift H rc1 Eloop.
  run_lift H rc Erc.
  run_lift H D2 ED.
  run_lift H P2 EP.
  run_lift H opt Eopt.
  run_lift H nm Enm.
  repeat rewrite mbind_setattr in H.
  assert (Hs2 : exists oclf,
    s2 = match oclf with
         | Some clf => with_attrs (set_clf clf)
             (with_aux (subset_statistics (z_missing sd) (z_special sd))
               (with_info (set_n_samples (length x)) self))
         | None => with_aux (subset_statistics (z_missing sd) (z_special sd))
               (with_info (set_n_samples (length x)) self)
         end /\
    if py_eq_str (strategy (params self)) "cart"
    then exists clf, oclf = Some clf /\
         fit_cart_tree (params self) sx sy (x_clean sd) (y_clean sd)
           (z_clean sd) = Ok clf
    else oclf = None).
  { destruct (py_eq_str (strategy (params self)) "cart").
    - run_lift Hc clf Eclf. inversion Hc. exists (Some clf). eauto.
    - inversion Hc. exists None. eauto. }
  destruct Hs2 as (oclf & -> & Hclf).
  set (args := {| arg_R := mats.1.1; arg_S := mats.1.2; arg_SS := mats.2;
        arg_monotonic_trend_x := monotonic_trend_x (params self);
        arg_monotonic_trend_y := monotonic_trend_y (params self);
        arg_scale := so.1;
        arg_min_bin_size := min_bs;
        arg_max_bin_size := max_bs |}).
  exists {| tr_sd := sd; tr_splits_x := sx; tr_splits_y := sy;
            tr_mats := mats; tr_clf := oclf; tr_jobs := jobs;
            tr_optimizer := so; tr_args := args; tr_md := md;
            tr_model := model; tr_solved := solved; tr_stats := stats;
            tr_selected_rows := sel; tr_loop := rc1; tr_rc := rc;
            tr_D := D2; tr_P := P2; tr_opt := opt; tr_name := nm |}.
  assert (Hsol : sol = solved.1.2) by (destruct oclf; cbn in Esol; congruence).
  subst sol.
  split.
  - unfold fit_trace_ok, tr_R, tr_solution, tr_status; cbn [tr_sd tr_splits_x tr_splits_y tr_mats tr_clf tr_jobs tr_optimizer tr_args tr_md tr_model tr_solved tr_stats tr_selected_rows tr_loop tr_rc tr_D tr_P tr_opt tr_name].
    destruct oclf as [clf|]; cbn in Emin, Emax, Ejobs, Eso, Emd, Estats, Erc;
      (destruct (py_eq_str (strategy (params self)) "cart");
       [ destruct Hclf as (clf' & Hclf & Hfit) | ];
       try discriminate; try (injection Hclf as <-));
      repeat split; eauto.
  - inversion H. unfold fit_state. destruct oclf; reflexivity.
Qed.


Lemma append_virtual_bins_ok_inv z_missing z_special rc1 rc :
  append_virtual_bins (subset_statistics z_missing z_special) rc1 = Ok rc ->
  2 <= length (opt_n_records rc1) /\
  2 <= length (opt_sums rc1) /\
  2 <= length (opt_stds rc1) /\
  rc = {| rc_P := rc_P rc1; rc_D := rc_D rc1;
          opt_sums :=
            <[length (opt_sums rc1) - 1 := Qsum z_missing]>
              (<[length (opt_sums rc1) - 2 := Qsum z_special]> (opt_sums rc1));
          opt_n_records :=
            <[length (opt_n_records rc1) - 1 := Z.of_nat (length z_missing)]>
              (<[length (opt_n_records rc1) - 2 := Z.of_nat (length z_special)]>
                 (opt_n_records rc1));
          opt_stds :=
            <[length (opt_stds rc1) - 1 := subset_std z_missing]>
              (<[length (opt_stds rc1) - 2 := subset_std z_special]>
                 (opt_stds rc1)) |}.
Proof.
  unfold append_virtual_bins, subset_statistics. cbn [require rbind
    _n_records_special _n_records_missing _sum_special _sum_missing
    _std_special _std_missing]. intros H.
  apply rbind_ok_inv in H as (on1 & H1 & H).
  apply rbind_ok_inv in H as (os1 & H2 & H).
  apply rbind_ok_inv in H as (ot1 & H3 & H).
  apply rbind_ok_inv in H as (on2 & H4 & H).
  apply rbind_ok_inv in H as (os2 & H5 & H).
  apply rbind_ok_inv in H as (ot2 & H6 & H).
  apply setitem_neg_ok_inv in H1 as [? ->].
  apply setitem_neg_ok_inv in H2 as [? ->].
  apply setitem_neg_ok_inv in H3 as [? ->].
  apply setitem_neg_ok_inv in H4 as [? ->].
  apply setitem_neg_ok_inv in H5 as [? ->].
  apply setitem_neg_ok_inv in H6 as [? ->].
  rewrite !length_insert in H. injection H as <-. auto.
Qed.


(** What a completed fit leaves in the table, in terms of the selection. *)
Lemma fit_table_arrays x y z check_input p t :
  fit_trace_ok x y z check_input p t ->
  let sel := tr_selected_rows t in
  let k := length sel in
  let md := tr_md t in
  let m := nrows (tr_R t) in
  let n := ncols (tr_R t) in
  (length (opt_n_records (tr_rc t)) = k + 2 /\
   length (opt_sums (tr_rc t)) = k + 2 /\
   length (opt_stds (tr_rc t)) = k + 2) /\
  (forall i, i < k ->
     is_Some (compress (tr_solution t) (md_sums md) !! i) /\
     is_Some (compress (tr_solution t) (md_n_records md) !! i) /\
     opt_sums (tr_rc t) !! i = compress (tr_solution t) (md_sums md) !! i /\
     opt_n_records (tr_rc t) !! i
       = compress (tr_solution t) (md_n_records md) !! i /\
     opt_stds (tr_rc t) !! i = compress (tr_solution t) (md_stds md) !! i) /\
  (opt_n_records (tr_rc t) !! k
     = Some (Z.of_nat (length (z_special (tr_sd t)))) /\
   opt_sums (tr_rc t) !! k = Some (Qsum (z_special (tr_sd t))) /\
   opt_stds (tr_rc t) !! k = Some (subset_std (z_special (tr_sd t))) /\
   opt_n_records (tr_rc t) !! (k + 1)
     = Some (Z.of_nat (length (z_missing (tr_sd t)))) /\
   opt_sums (tr_rc t) !! (k + 1) = Some (Qsum (z_missing (tr_sd t))) /\
   opt_stds (tr_rc t) !! (k + 1) = Some (subset_std (z_missing (tr_sd t)))) /\
  (nrows (tr_P t) = m /\ ncols (tr_P t) = n /\
   nrows (tr_D t) = m /\ ncols (tr_D t) = n /\
   length (data (tr_P t)) = m * n /\ length (data (tr_D t)) = m * n) /\
  (forall c j, last_cover 0 sel c = Some j ->
     data (tr_P t) !! c = Some (Z.of_nat j) /\
     data (tr_D t) !! c =
       selected_mean (tr_solution t) (md_n_records md) (md_sums md) j) /\
  (forall c, c < m * n -> last_cover 0 sel c = None ->
     data (tr_P t) !! c = Some (uninit_int c) /\
     data (tr_D t) !! c = Some (uninit_float64 c)).
Proof.
  intros Ht sel k md m n.
  destruct Ht as (_ & _ & _ & _ & _ & _ & _ & _ & _ & _ & _ & _ & _ & _ & _
                  & Esel & Eloop & Erc & ED & EP & _).
  apply reconstruction_loop_spec in Eloop
    as ((LP & LD & Ls & Ln & Lt) & _ & Hin & Hcell).
  apply append_virtual_bins_ok_inv in Erc as (_ & _ & _ & Hrc).
  apply reshape_ok_inv in ED as (HDlen & HDr & HDc & HD).
  apply reshape_ok_inv in EP as (HPlen & HPr & HPc & HP).
  cbn [reconstruction_start rc_P rc_D opt_sums opt_n_records opt_stds]
    in Ls, Ln, Lt, LP, LD, Hin, Hcell.
  rewrite !length_np_empty in *. rewrite length_replicate in Lt.
  fold sel k md m n in Ls, Ln, Lt, LP, LD, Hin, Hcell, HDlen, HPlen, HD, HP,
                       HDr, HDc, HPr, HPc.
  rewrite Hrc in *. cbn [rc_P rc_D opt_sums opt_n_records opt_stds] in *.
  rewrite Ls, Ln, Lt.
  replace (k + 2 - 1) with (k + 1) by lia.
  replace (k + 2 - 2) with k by lia.
  split; [ rewrite !length_insert; auto | ].
  split.
  { intros i Hi. destruct (Hin i Hi) as (_ & Hs & Hn & _ & Es & En & Et).
    simpl in Hs, Hn, Es, En, Et.
    rewrite !list_lookup_insert_ne by lia. auto. }
  split.
  { repeat split.
    all: first [ rewrite list_lookup_insert_eq by (rewrite length_insert; lia);
                 done
               | rewrite list_lookup_insert_ne by lia;
                 rewrite list_lookup_insert_eq by lia; done ]. }
  split.
  { rewrite HD, HP, HDlen, HPlen. repeat split; assumption. }
  rewrite HD, HP. split.
  - intros c j Hj. destruct (Hcell c) as [-> ->]. rewrite Hj. auto.
  - intros c Hc Hnone. destruct (Hcell c) as [-> ->]. rewrite Hnone.
    rewrite !lookup_np_empty by done. auto.
Qed.

Lemma digitized_copy idx n xt :
  for_each (seq 0 (n + 1))
    (fun i xt => setitem_mask xt (np_eq_scalar idx i) (Z.of_nat i))
    (np_empty uninit_int (length idx)) = Ok xt ->
  Forall (fun k => k <= n) idx ->
  xt = map Z.of_nat idx.
Proof.
  intros H Hb. apply list_eq. intros j.
  rewrite (mask_fill_spec _ _ _ _ _ H) by apply length_np_empty.
  rewrite list_lookup_fmap.
  destruct (idx !! j) as [k|] eqn:E; [|done].
  rewrite Forall_forall in Hb.
  rewrite bool_decide_eq_true_2; [done|].
  assert (k <= n) by (apply Hb; by eapply list_elem_of_lookup_2). lia.
Qed.

Lemma fit_cart_tree_ok_inv p splits_x splits_y xc yc zc clf :
  _check_parameters p = Ok tt ->
  fit_cart_tree p splits_x splits_y xc yc zc = Ok clf ->
  exists indices_x indices_y qx qy,
    np_digitize xc splits_x = Ok indices_x /\
    np_digitize yc splits_y = Ok indices_y /\
    number_value (min_prebin_size_x p) = Some qx /\
    number_value (min_prebin_size_y p) = Some qy /\
    (min_samples_leaf clf == Qmin qx qy * (1 # 4))%Q /\
    max_leaf_nodes clf = length splits_x * length splits_y /\
    tree_fit (min_samples_leaf clf) (max_leaf_nodes clf)
      (zip (map Z.of_nat indices_x) (map Z.of_nat indices_y)) zc
      = Ok (tree_ clf).
Proof.
  unfold fit_cart_tree. intros Hcheck H.
  apply _check_parameters_ok_inv in Hcheck.
  destruct (wc_min_prebin_size_x p Hcheck) as (qx & Ex & _).
  destruct (wc_min_prebin_size_y p Hcheck) as (qy & Ey & _).
  apply rbind_ok_inv in H as (ix & Hix & H).
  apply rbind_ok_inv in H as (iy & Hiy & H).
  apply rbind_ok_inv in H as (xt & Hxt & H).
  apply rbind_ok_inv in H as (yt & Hyt & H).
  apply rbind_ok_inv in H as (xyt & Hxyt & H).
  apply rbind_ok_inv in H as (smaller & Hmin & H).
  apply rbind_ok_inv in H as (leaf & Hleaf & H).
  apply rbind_ok_inv in H as (fitted & Hfit & H).
  injection H as <-. cbn [min_samples_leaf max_leaf_nodes tree_].
  destruct (np_digitize_ok_inv _ _ _ Hix) as [Lx Bx].
  destruct (np_digitize_ok_inv _ _ _ Hiy) as [Ly By].
  rewrite <- Lx in Hxt. rewrite <- Ly in Hyt.
  apply digitized_copy in Hxt; [|done]. apply digitized_copy in Hyt; [|done].
  subst xt yt.
  unfold np_c_ in Hxyt.
  destruct (length (map Z.of_nat ix) =? length (map Z.of_nat iy));
    [|discriminate].
  injection Hxyt as <-.
  unfold py_min, py_lt in Hmin.
  rewrite (py_cmp_finite _ _ _ qy qx Ey Ex) in Hmin.
  cbn [rbind] in Hmin. injection Hmin as <-.
  exists ix, iy, qx, qy. repeat split; try done.
  unfold py_mul_float in Hleaf.
  destruct (Qltb qy qx) eqn:Ecmp.
  - rewrite Ey in Hleaf. injection Hleaf as <-.
    apply Qltb_lt in Ecmp. rewrite Q.min_r; [reflexivity|]. by apply Qlt_le_weak.
  - rewrite Ex in Hleaf. injection Hleaf as <-.
    apply Qltb_ge in Ecmp. rewrite Q.min_l; [reflexivity|done].
Qed.

(** C10.  With the "cart" strategy a completed fit keeps a regression tree
    whose minimum leaf size is a quarter of the smaller of the two
    configured pre-bin size fractions, whose maximum number of leaves is
    the product of the lengths of the two split arrays, and which was
    fitted on the pairs of pre-bin indices of the clean samples. *)
Theorem fit_cart_tree_hyperparameters x y z check_input self self' :
  _fit x y z check_input self = (Ok tt, self') ->
  strategy (params self) = PyStr "cart" ->
  exists clf sd splits_x splits_y indices_x indices_y qx qy,
    _clf (attrs self') = Some clf /\
    split_data_2d (dtype_x (params self)) (dtype_y (params self)) x y z
      (special_codes_x (params self)) (special_codes_y (params self))
      check_input = Ok sd /\
    _fit_prebinning (params self) (dtype_x (params self)) (x_clean sd)
      (z_clean sd) (max_n_prebins_x (params self))
      (min_prebin_size_x (params self)) = Ok splits_x /\
    _fit_prebinning (params self) (dtype_y (params self)) (y_clean sd)
      (z_clean sd) (max_n_prebins_y (params self))
      (min_prebin_size_y (params self)) = Ok splits_y /\
    number_value (min_prebin_size_x (params self)) = Some qx /\
    number_value (min_prebin_size_y (params self)) = Some qy /\
    (min_samples_leaf clf == Qmin qx qy * (1 # 4))%Q /\
    max_leaf_nodes clf = length splits_x * length splits_y /\
    np_digitize (x_clean sd) splits_x = Ok indices_x /\
    np_digitize (y_clean sd) splits_y = Ok indices_y /\
    tree_fit (min_samples_leaf clf) (max_leaf_nodes clf)
      (zip (map Z.of_nat indices_x) (map Z.of_nat indices_y)) (z_clean sd)
      = Ok (tree_ clf).
Proof.
  intros H Hcart. apply _fit_ok_inv in H as (t & Ht & ->).
  destruct Ht as (Hcheck & Esd & Esx & Esy & _ & Hclf & _).
  rewrite Hcart in Hclf. cbn [py_eq_str] in Hclf.
  rewrite bool_decide_eq_true_2 in Hclf by reflexivity.
  destruct Hclf as (clf & Eclf & Hfit).
  apply fit_cart_tree_ok_inv in Hfit
    as (ix & iy & qx & qy & Hix & Hiy & Hqx & Hqy & Hleaf & Hnodes & Htree);
    [|exact Hcheck].
  exists clf, (tr_sd t), (tr_splits_x t), (tr_splits_y t), ix, iy, qx, qy.
  split.
  { unfold fit_state. rewrite Eclf. reflexivity. }
  repeat split; assumption.
Qed.

(** C7.  After a completed fit the per-bin arrays of the bin table hold the
    statistics of the selected candidates, as the model-data builder
    returned them, followed by exactly two more entries: the special
    subset at the second-to-last position and the missing subset at the
    last, each with its count, its sum and its standard deviation, which
    is zero for an empty subset and [np.std] of the subset otherwise. *)
Theorem fit_appends_virtual_bins x y z check_input self self' :
  _fit x y z check_input self = (Ok tt, self') ->
  exists t table,
    fit_trace_ok x y z check_input (params self) t /\
    self' = fit_state x t self /\
    let sd := tr_sd t in
    let md := tr_md t in
    let solution := tr_solution t in
    let selected := compress solution (md_rows md) in
    let k := length selected in
    split_data_2d (dtype_x (params self)) (dtype_y (params self)) x y z
      (special_codes_x (params self)) (special_codes_y (params self))
      check_input = Ok sd /\
    match tr_clf t with
    | Some clf => continuous_model_data_cart clf (tr_args t)
    | None => continuous_model_data (tr_args t)
    end = Ok md /\
    _selected_rows (attrs self') = Some selected /\
    _solution (info self') = Some solution /\
    _binning_table (info self') = Some table /\
    _n_records (attrs self') = Some (bt_n_records table) /\
    _sums (attrs self') = Some (bt_sums table) /\
    (length (bt_n_records table) = k + 2 /\
     length (bt_sums table) = k + 2 /\
     length (bt_stds table) = k + 2) /\
    (forall i, i < k ->
       exists n s d,
         compress solution (md_n_records md) !! i = Some n /\
         compress solution (md_sums md) !! i = Some s /\
         compress solution (md_stds md) !! i = Some d /\
         bt_n_records table !! i = Some n /\
         bt_sums table !! i = Some s /\
         bt_stds table !! i = Some d) /\
    (bt_n_records table !! k = Some (Z.of_nat (length (z_special sd))) /\
     bt_sums table !! k = Some (Qsum (z_special sd)) /\
     bt_stds table !! k =
       Some (match z_special sd with
             | [] => 0%Q
             | _ :: _ => np_std (z_special sd)
             end)) /\
    (bt_n_records table !! (k + 1) = Some (Z.of_nat (length (z_missing sd))) /\
     bt_sums table !! (k + 1) = Some (Qsum (z_missing sd)) /\
     bt_stds table !! (k + 1) =
       Some (match z_missing sd with
             | [] => 0%Q
             | _ :: _ => np_std (z_missing sd)
             end)).
Proof.
  intros H. apply _fit_ok_inv in H as (t & Ht & ->).
  pose proof (fit_table_arrays _ _ _ _ _ _ Ht)
    as (Hlen & Hsel & (Hn1 & Hs1 & Ht1 & Hn2 & Hs2 & Ht2) & _).
  pose proof Ht
    as (_ & Esd & _ & _ & _ & _ & _ & _ & _ & _ & _ & Emd & _ & _ & _
        & Erows & _).
  apply getitem_mask_ok_inv in Erows as [_ Erows].
  cbv zeta in Hlen, Hsel, Hn1, Hs1, Ht1, Hn2, Hs2, Ht2. rewrite Erows in *.
  exists t, (fit_table (params self) t).
  split; [exact Ht|]. split; [reflexivity|]. cbv zeta.
  split; [exact Esd|]. split; [exact Emd|].
  split; [unfold fit_state; cbn; by rewrite Erows|].
  do 4 (split; [reflexivity|]).
  cbn [fit_table bt_n_records bt_sums bt_stds].
  split; [exact Hlen|]. split.
  { intros i Hi.
    destruct (Hsel i Hi) as ([s Es] & [n En] & E1 & E2 & E3).
    destruct Hlen as (_ & _ & L3).
    destruct (lookup_lt_is_Some_2 (opt_stds (tr_rc t)) i ltac:(lia)) as [d Ed].
    exists n, s, d. repeat split; congruence. }
  unfold subset_std in Ht1, Ht2.
  split; (split; [|split]); try done.
  - by destruct (z_special (tr_sd t)).
  - by destruct (z_missing (tr_sd t)).
Qed.

(** C2 (as the code has it).  After a completed fit, the mean stored for a
    grid cell is the true division of the sum by the count of the last
    selected candidate that lists the cell, with no guard on the count:
    for a non-zero count it is the quotient, for a zero count it is [nan]
    or an infinity, never zero. *)
Theorem fit_mean_is_unguarded_quotient x y z check_input self self' :
  _fit x y z check_input self = (Ok tt, self') ->
  exists selected table,
    _selected_rows (attrs self') = Some selected /\
    _binning_table (info self') = Some table /\
    forall i r c,
      selected !! i = Some r -> c ∈ r ->
      (forall j r', i < j -> selected !! j = Some r' -> c ∉ r') ->
      exists s n,
        bt_sums table !! i = Some s /\
        bt_n_records table !! i = Some n /\
        data (bt_D table) !! c = Some (np_true_divide s (inject_Z n)) /\
        (n <> 0%Z -> np_true_divide s (inject_Z n) = Finite (s / inject_Z n)) /\
        (n = 0%Z ->
           np_true_divide s (inject_Z n) =
             if Qeq_bool s 0 then NaN
             else if Qltb 0 s then PosInf else NegInf).
Proof.
  intros H. apply _fit_ok_inv in H as (t & Ht & ->).
  pose proof (fit_table_arrays _ _ _ _ _ _ Ht)
    as (_ & Hsel & _ & _ & Hcell & _).
  exists (tr_selected_rows t), (fit_table (params self) t).
  do 2 (split; [reflexivity|]).
  intros i r c Hi Hc Hlast.
  cbn [fit_table bt_n_records bt_sums bt_D].
  assert (Hik : i < length (tr_selected_rows t)) by (by eapply lookup_lt_Some).
  destruct (Hsel i Hik) as ([s Hs] & [n Hn] & -> & -> & _).
  assert (Hcov : last_cover 0 (tr_selected_rows t) c = Some i)
    by (by apply (last_cover_last 0 _ _ i r)).
  destruct (Hcell c i Hcov) as [_ ->].
  unfold selected_mean. rewrite Hs, Hn.
  exists s, n. repeat split; try reflexivity.
  - intros Hnz. unfold np_true_divide.
    destruct (Qeq_bool (inject_Z n) 0) eqn:E; [|reflexivity].
    apply Qeq_bool_eq in E. exfalso. apply Hnz.
    unfold Qeq in E. simpl in E. lia.
  - intros ->. reflexivity.
Qed.

(** C5 (as the code has it).  [_fit] never compares the selection with the
    grid.  After a completed fit, each cell of the partition map holds the
    index of the last selected candidate that lists it, whether or not
    another candidate lists it too, and a cell that no selected candidate
    lists keeps the uninitialised contents of the two arrays; the bin
    table is built from these arrays as they are. *)
Theorem fit_partition_map_last_writer x y z check_input self self' :
  _fit x y z check_input self = (Ok tt, self') ->
  exists selected table m n,
    _selected_rows (attrs self') = Some selected /\
    _binning_table (info self') = Some table /\
    _m (attrs self') = Some m /\ _n (attrs self') = Some n /\
    _is_fitted self' = true /\
    nrows (bt_P table) = m /\ ncols (bt_P table) = n /\
    length (data (bt_P table)) = m * n /\
    (forall i r c,
       selected !! i = Some r -> c ∈ r ->
       (forall j r', i < j -> selected !! j = Some r' -> c ∉ r') ->
       data (bt_P table) !! c = Some (Z.of_nat i)) /\
    (forall c,
       c < m * n -> (forall r, r ∈ selected -> c ∉ r) ->
       data (bt_P table) !! c = Some (uninit_int c) /\
       data (bt_D table) !! c = Some (uninit_float64 c)).
Proof.
  intros H. apply _fit_ok_inv in H as (t & Ht & ->).
  pose proof (fit_table_arrays _ _ _ _ _ _ Ht)
    as (_ & _ & _ & (HPr & HPc & _ & _ & HPlen & _) & Hcov & Hfree).
  exists (tr_selected_rows t), (fit_table (params self) t),
    (nrows (tr_R t)), (ncols (tr_R t)).
  do 5 (split; [reflexivity|]).
  cbn [fit_table bt_P bt_D].
  do 3 (split; [assumption|]). split.
  - intros i r c Hi Hc Hlast.
    apply (Hcov c i). by apply (last_cover_last 0 _ _ i r).
  - intros c Hc Hnone. apply Hfree; [done|]. by apply last_cover_none.
Qed.

(** C3 (as the code has it).  [_fit] records whatever status and selection
    the solver reports as attributes and carries on with post-processing
    without looking at the status; a fit that completes marks the instance
    fitted, so that a later query passes the fitted check and reaches the
    scoring collaborator. *)
Theorem fit_records_status_and_marks_fitted x y z check_input self self' :
  _fit x y z check_input self = (Ok tt, self') ->
  exists model status solution handle,
    solve model = Ok (status, solution, handle) /\
    _status (info self') = Some status /\
    _solution (info self') = Some solution /\
    _is_fitted self' = true /\
    _check_is_fitted self' = (Ok tt, self') /\
    forall x' y' metric metric_special metric_missing show_digits check',
      transform x' y' metric metric_special metric_missing show_digits check'
        self'
      = (transform_continuous_target
           (_splits_x_optimal (info self')) (_splits_y_optimal (info self'))
           x' y' (_n_records (attrs self')) (_sums (attrs self'))
           (special_codes_x (params self')) (special_codes_y (params self'))
           metric metric_special metric_missing show_digits check',
         self').
Proof.
  intros H. apply _fit_ok_inv in H as (t & Ht & ->).
  destruct Ht as (_ & _ & _ & _ & _ & _ & _ & _ & _ & _ & _ & _ & _ & Esolve
                  & _).
  exists (tr_model t), (tr_status t), (tr_solution t), (snd (tr_solved t)).
  split.
  { rewrite Esolve. unfold tr_status, tr_solution.
    destruct (tr_solved t) as [[? ?] ?]. reflexivity. }
  repeat split.
Qed.

(** C4 (as the code has it).  In a completed fit the model-data builder is
    called with arguments whose minimum and maximum bin size are [None]
    where the configured fraction is [None] and otherwise the ceiling of
    the binary64 product of the fraction and the number of samples passed
    to [fit], [len(x)], which counts the special and missing samples
    too. *)
Theorem fit_bin_size_bound_uses_all_samples x y z check_input self self' :
  _fit x y z check_input self = (Ok tt, self') ->
  exists t,
    fit_trace_ok x y z check_input (params self) t /\
    self' = fit_state x t self /\
    match tr_clf t with
    | Some clf => continuous_model_data_cart clf (tr_args t)
    | None => continuous_model_data (tr_args t)
    end = Ok (tr_md t) /\
    _rows (attrs self') = Some (md_rows (tr_md t)) /\
    _n_samples (info self') = Some (length x) /\
    let bound fraction :=
      match number_value fraction with
      | Some q =>
          Some (Qceiling
                  (float64 (q * float64 (inject_Z (Z.of_nat (length x))))))
      | None => None
      end in
    arg_min_bin_size (tr_args t) = bound (min_bin_size (params self)) /\
    arg_max_bin_size (tr_args t) = bound (max_bin_size (params self)).
Proof.
  intros H. apply _fit_ok_inv in H as (t & Ht & ->).
  pose proof Ht
    as (Hcheck & _ & _ & _ & _ & _ & Emin & Emax & _ & _ & _ & Emd & _).
  exists t. do 3 (split; [done|]).
  split; [ reflexivity | ].
  split; [ unfold fit_state; destruct (tr_clf t); reflexivity | ].
  cbn zeta. apply _check_parameters_ok_inv in Hcheck. split.
  - destruct (wc_min_bin_size _ Hcheck) as [E|(q & Hq & H0 & H1)].
    + rewrite E in *. simpl in *. congruence.
    + rewrite (bin_size_bound_number _ q) in Emin; [|done|done|lra].
      rewrite Hq. congruence.
  - destruct (wc_max_bin_size _ Hcheck) as [E|(q & Hq & H0 & H1)].
    + rewrite E in *. simpl in *. congruence.
    + rewrite (bin_size_bound_number _ q) in Emax by done.
      rewrite Hq. congruence.
Qed.

(** C8.  After a completed fit the recorded number of refinements is
    m n (m+1) (n+1) / 4 minus the number of candidates, for the grid
    dimensions m, n and the candidate list kept on the instance; the
    division by four is exact. *)
Theorem fit_refinement_count_exact x y z check_input self self' :
  _fit x y z check_input self = (Ok tt, self') ->
  exists m n rows,
    _m (attrs self') = Some m /\
    _n (attrs self') = Some n /\
    _rows (attrs self') = Some rows /\
    let full := (Z.of_nat m * Z.of_nat n * (Z.of_nat m + 1)
                 * (Z.of_nat n + 1))%Z in
    (4 * (full / 4) = full)%Z /\
    (_n_refinements (info self') = full / 4 - Z.of_nat (length rows))%Z.
Proof.
  intros H. apply _fit_ok_inv in H as (t & Ht & ->).
  exists (nrows (tr_R t)), (ncols (tr_R t)), (md_rows (tr_md t)).
  repeat split; try reflexivity. apply quarter_exact.
Qed.


(** C9.  With an invalid configuration [_fit] raises the configuration
    error of [_check_parameters], a [TypeError] or a [ValueError], whatever
    the data, and leaves the instance as it was. *)
Theorem fit_rejects_invalid_configuration_first self :
  invalid_configuration (params self) ->
  exists e,
    is_configuration_error e /\
    _check_parameters (params self) = Raise e /\
    forall x y z check_input,
      _fit x y z check_input self = (Raise e, self).
Proof.
  intros Hinv. apply invalid_configuration_rejected in Hinv as [e He].
  exists e. split; [by eapply _check_parameters_error|]. split; [done|].
  intros x y z ci. unfold _fit.
  rewrite mbind_getattr, mbind_lift, He. reflexivity.
Qed.

End FitRuns.

(** ** What a fit leaves behind *)

Section Keeps.
Context `{ext : Externals}.

Lemma keeps_mbind {A B C} (f : ContinuousOptimalBinning2D -> C)
    (m : M A) (k : A -> M B) :
  keeps f m -> (forall a, keeps f (k a)) -> keeps f (mbind m k).
Proof.
  intros Hm Hk self. unfold mbind. specialize (Hm self).
  destruct (m self) as [[a|e] s]; simpl in *; [|done].
  by rewrite Hk.
Qed.

Lemma keeps_lift {A C} (f : ContinuousOptimalBinning2D -> C) (r : result A) :
  keeps f (lift r).
Proof. done. Qed.

Lemma keeps_getattr {A C} (f : ContinuousOptimalBinning2D -> C)
    (g : ContinuousOptimalBinning2D -> A) :
  keeps f (getattr g).
Proof. done. Qed.

Lemma keeps_mret {A C} (f : ContinuousOptimalBinning2D -> C) (a : A) :
  keeps f (mret a).
Proof. done. Qed.

Lemma keeps_setattr {C} (f : ContinuousOptimalBinning2D -> C) g :
  (forall self, f (g self) = f self) -> keeps f (setattr g).
Proof. intros H self. apply H. Qed.

Lemma keeps_if {A C} (f : ContinuousOptimalBinning2D -> C) (b : bool)
    (m1 m2 : M A) :
  keeps f m1 -> keeps f m2 -> keeps f (if b then m1 else m2).
Proof. by destruct b. Qed.

End Keeps.

Ltac keeps_step :=
  first [ apply keeps_mbind; [|intros ?]
        | apply keeps_lift
        | apply keeps_getattr
        | apply keeps_mret
        | apply keeps_if
        | apply keeps_setattr; intros ?; reflexivity ].

Section FitKeeps.
Context `{ext : Externals}.

Lemma _prebinning_matrices_keeps {C} (f : ContinuousOptimalBinning2D -> C)
    sx sy xc yc zc xm ym zm xs ys zs :
  (forall a self, f (with_aux a self) = f self) ->
  keeps f (_prebinning_matrices sx sy xc yc zc xm ym zm xs ys zs).
Proof.
  intros H. unfold _prebinning_matrices.
  apply keeps_mbind; [|intros ?; apply keeps_lift].
  apply keeps_setattr. intros self. apply H.
Qed.

Lemma _fit_optimizer_keeps_params sx sy mR mS mSS :
  keeps params (_fit_optimizer sx sy mR mS mSS).
Proof. unfold _fit_optimizer. cbv zeta. repeat keeps_step. Qed.

Lemma _fit_optimizer_keeps_is_fitted sx sy mR mS mSS :
  keeps _is_fitted (_fit_optimizer sx sy mR mS mSS).
Proof. unfold _fit_optimizer. cbv zeta. repeat keeps_step. Qed.

Lemma _fit_optimizer_keeps_n_samples sx sy mR mS mSS :
  keeps (fun s => _n_samples (info s)) (_fit_optimizer sx sy mR mS mSS).
Proof. unfold _fit_optimizer. cbv zeta. repeat keeps_step. Qed.


End FitKeeps.

Section Failures.
Context `{ext : Externals}.

Lemma keeps_on_failure_mbind {A B C} (f : ContinuousOptimalBinning2D -> C)
    (m : M A) (k : A -> M B) :
  keeps f m -> (forall a, keeps_on_failure f (k a)) ->
  keeps_on_failure f (mbind m k).
Proof.
  intros Hm Hk self e. unfold mbind. specialize (Hm self).
  destruct (m self) as [[a|e'] s]; simpl in *; [|done].
  intros H. rewrite (Hk a s e H). done.
Qed.

Lemma keeps_on_failure_never {A C} (f : ContinuousOptimalBinning2D -> C)
    (m : M A) :
  never_fails m -> keeps_on_failure f m.
Proof. intros H self e He. destruct (H self) as [a Ha]. congruence. Qed.

Lemma never_fails_mbind {A B} (m : M A) (k : A -> M B) :
  never_fails m -> (forall a, never_fails (k a)) -> never_fails (mbind m k).
Proof.
  intros Hm Hk self. unfold mbind. destruct (Hm self) as [a Ha].
  destruct (m self) as [[a'|e] s]; simpl in *; [|done]. apply Hk.
Qed.

Lemma never_fails_setattr g : never_fails (setattr g).
Proof. intros self. by exists tt. Qed.

Lemma never_fails_mret {A} (a : A) : never_fails (mret a).
Proof. intros self. by exists a. Qed.

Lemma never_fails_lift {A} (r : result A) a : r = Ok a -> never_fails (lift r).
Proof. intros -> self. by exists a. Qed.

End Failures.

Section FitFailures.
Context `{ext : Externals}.

Lemma _fit_optimizer_keeps_published sx sy mR mS mSS :
  keeps published (_fit_optimizer sx sy mR mS mSS).
Proof. unfold _fit_optimizer. cbv zeta. repeat keeps_step. Qed.

(** X11.  A call of [_fit] that raises leaves the fitted flag, the binning
    table, the optimal splits and the name as they were: a failed fit of a
    fresh instance leaves it unfitted, and a failed refit of a fitted one
    leaves it fitted with its previous table. *)
Theorem fit_failure_keeps_published_results x y z check_input self e :
  fst (_fit x y z check_input self) = Raise e ->
  _is_fitted (snd (_fit x y z check_input self)) = _is_fitted self /\
  _binning_table (info (snd (_fit x y z check_input self)))
    = _binning_table (info self) /\
  _splits_x_optimal (info (snd (_fit x y z check_input self)))
    = _splits_x_optimal (info self) /\
  _splits_y_optimal (info (snd (_fit x y z check_input self)))
    = _splits_y_optimal (info self) /\
  name (attrs (snd (_fit x y z check_input self))) = name (attrs self).
Proof.
  intros H.
  cut (published (snd (_fit x y z check_input self)) = published self).
  { unfold published. intros [= -> -> -> -> ->]. done. }
  revert H. unfold _fit. rewrite mbind_getattr, mbind_lift.
  destruct (_check_parameters (params self)) as [[]|e'] eqn:Echeck; [|done].
  rewrite mbind_setattr.
  destruct (validated_join_names _ Echeck) as (sx & sy & _ & _ & Ejoin).
  change (published self)
    with (published (with_info (set_n_samples (length x)) self)).
  match goal with
  | |- fst (?m ?s) = _ -> _ =>
      cut (keeps_on_failure published m); [intros Hk; apply Hk|]
  end.
  cbv zeta.
  repeat first
    [ apply keeps_on_failure_mbind;
        [ solve [ apply _fit_optimizer_keeps_published
                | apply _prebinning_matrices_keeps; intros; reflexivity
                | repeat keeps_step ]
        | intros ? ]
    | apply keeps_on_failure_never;
        repeat first [ apply never_fails_mbind; [|intros ?]
                     | apply never_fails_setattr
                     | eapply never_fails_lift; exact Ejoin ] ].
Qed.

End FitFailures.

Section FitOutcomes.
Context `{ext : Externals}.

(** X12.  Whatever its outcome, [_fit] leaves every constructor parameter as it
    was. *)
Theorem fit_keeps_parameters x y z check_input self :
  params (snd (_fit x y z check_input self)) = params self.
Proof.
  revert self. change (keeps params (_fit x y z check_input)).
  unfold _fit. cbv zeta.
  repeat first [ apply _fit_optimizer_keeps_params
               | apply _prebinning_matrices_keeps; intros; reflexivity
               | keeps_step ].
Qed.

(** X13.  Once the configuration is accepted, the number of samples passed to
    [fit] is recorded whether or not the rest of the fit succeeds. *)
Theorem fit_records_sample_count_first x y z check_input self :
  _check_parameters (params self) = Ok tt ->
  _n_samples (info (snd (_fit x y z check_input self))) = Some (length x).
Proof.
  intros Echeck. unfold _fit.
  rewrite mbind_getattr, mbind_lift, Echeck, mbind_setattr.
  match goal with
  | |- _n_samples (info (snd (?m ?s))) = _ =>
      cut (keeps (fun c => _n_samples (info c)) m);
        [intros Hk; exact (Hk s)|]
  end.
  cbv zeta.
  repeat first
    [ apply _fit_optimizer_keeps_n_samples
    | apply _prebinning_matrices_keeps; intros; reflexivity
    | keeps_step ].
Qed.

Lemma transform_keeps_instance x y metric metric_special metric_missing
    show_digits check_input self :
  snd (transform x y metric metric_special metric_missing show_digits
         check_input self) = self.
Proof.
  unfold transform, _check_is_fitted.
  rewrite mbind_assoc, mbind_getattr.
  destruct (_is_fitted self); reflexivity.
Qed.

(** X14.  [fit_transform] is [fit] followed by [transform]: when it returns, the
    fit completed and left the instance that [fit_transform] leaves, that
    instance is fitted, and transforming the same data on it again gives
    the same result without changing it. *)
Theorem fit_transform_is_fit_then_transform
    x y z metric metric_special metric_missing show_digits check_input
    self self' out :
  fit_transform x y z metric metric_special metric_missing show_digits
    check_input self = (Ok out, self') ->
  fit x y z check_input self = (Ok tt, self') /\
  _is_fitted self' = true /\
  transform x y metric metric_special metric_missing show_digits
    check_input self' = (Ok out, self').
Proof.
  unfold fit_transform. intros H.
  apply mbind_ok_inv in H as ([] & s & Hfit & Htr).
  pose proof (transform_keeps_instance x y metric metric_special
                metric_missing show_digits check_input s) as Hs.
  rewrite Htr in Hs. simpl in Hs. subst s.
  split; [exact Hfit|]. split; [|exact Htr].
  unfold fit in Hfit. apply _fit_ok_inv in Hfit as (t & _ & ->). reflexivity.
Qed.

(** When the fit raises, [fit_transform] raises the same exception and
    never reaches [transform]; the instance is as the failed fit left it. *)
Lemma fit_transform_fit_failure
    x y z metric metric_special metric_missing show_digits check_input
    self e self' :
  fit x y z check_input self = (Raise e, self') ->
  fit_transform x y z metric metric_special metric_missing show_digits
    check_input self = (Raise e, self').
Proof. intros H. unfold fit_transform, mbind. by rewrite H. Qed.

(** X15.  A call of [_fit_optimizer] that raises leaves the recorded
    status, the solver statistics and the candidate columns, rows and
    costs as they were: every statement after the last one that can
    raise is an assignment. *)
Theorem fit_optimizer_failure_keeps_status splits_x splits_y mR mS mSS self e :
  fst (_fit_optimizer splits_x splits_y mR mS mSS self) = Raise e ->
  let self' := snd (_fit_optimizer splits_x splits_y mR mS mSS self) in
  _status (info self') = _status (info self) /\
  _optimizer (info self') = _optimizer (info self) /\
  _time_optimizer (info self') = _time_optimizer (info self) /\
  _cols (attrs self') = _cols (attrs self) /\
  _rows (attrs self') = _rows (attrs self) /\
  _c (attrs self') = _c (attrs self).
Proof.
  intros H. cbv zeta.
  set (f := fun s : ContinuousOptimalBinning2D =>
              (_status (info s), _optimizer (info s),
               _time_optimizer (info s), _cols (attrs s), _rows (attrs s),
               _c (attrs s))).
  cut (f (snd (_fit_optimizer splits_x splits_y mR mS mSS self)) = f self).
  { unfold f. intros [= -> -> -> -> -> ->]. done. }
  revert H. 
  cut (keeps_on_failure f (_fit_optimizer splits_x splits_y mR mS mSS)).
  { intros Hk. apply Hk. }
  unfold _fit_optimizer. cbv zeta.
  repeat first
    [ apply keeps_on_failure_mbind; [ solve [ repeat keeps_step ] | intros ? ]
    | apply keeps_on_failure_never;
        repeat first [ apply never_fails_mbind; [|intros ?]
                     | apply never_fails_setattr
                     | apply never_fails_mret ] ].
Qed.

End FitOutcomes.

(** ** The cell matrices *)

Section CellMatrices.

Context `{ext : Externals}.

(** C1.  One split point on the x axis and two on the y axis give two
    pre-bins by three.  The matrices are allocated with one row per x
    pre-bin and one column per y pre-bin, and the loops then index them
    with the y pre-bin as row and the x pre-bin as column: the third y
    pre-bin has no row, and [_prebinning_matrices] raises instead of
    returning matrices that sum to the clean samples. *)
Theorem prebinning_matrices_rectangular_grid_raises self :
  cell_matrices [0]%Q [0; 1]%Q [0]%Q [0]%Q [5]%Q
    = Raise (IndexError "index out of bounds") /\
  fst (_prebinning_matrices [0]%Q [0; 1]%Q [0]%Q [0]%Q [5]%Q
         [] [] [] [] [] [] self)
    = Raise (IndexError "index out of bounds").
Proof. split; reflexivity. Qed.

End CellMatrices.

(** ** The cell loops in general *)

Lemma setitem2_ok_inv {A} (a : ndarray2 A) i j v a' :
  setitem2 a i j v = Ok a' ->
  i < nrows a /\ j < ncols a /\
  a' = {| nrows := nrows a; ncols := ncols a;
          data := <[i * ncols a + j := v]> (data a) |}.
Proof.
  unfold setitem2.
  destruct (Nat.ltb_spec i (nrows a)), (Nat.ltb_spec j (ncols a));
    simpl; try discriminate.
  intros [= <-]. auto.
Qed.

Lemma setitem2_same_shape r c (a : ndarray2 Q) i j v a' :
  setitem2 a i j v = Ok a' -> same_shape r c a -> same_shape r c a'.
Proof.
  intros H (Hr & Hc & Hl). apply setitem2_ok_inv in H as (_ & _ & ->).
  unfold same_shape. simpl. by rewrite length_insert.
Qed.

Lemma cell_body_ok_inv ix iy zc i j acc acc' :
  cell_body ix iy zc i j acc = Ok acc' ->
  i < nrows acc.1.1 /\ j < ncols acc.1.1 /\
  forall r c, shaped r c acc -> shaped r c acc'.
Proof.
  destruct acc as [[mR mS] mSS]. unfold cell_body. intros H.
  apply rbind_ok_inv in H as (mask & _ & H).
  apply rbind_ok_inv in H as (zmask & _ & H).
  apply rbind_ok_inv in H as (mR' & HR & H).
  apply rbind_ok_inv in H as (mS' & HS & H).
  apply rbind_ok_inv in H as (mSS' & HSS & H).
  injection H as <-. simpl.
  destruct (setitem2_ok_inv _ _ _ _ _ HR) as (? & ? & _).
  do 2 (split; [done|]).
  intros r c (? & ? & ?). unfold shaped. simpl in *.
  split; [|split]; eapply setitem2_same_shape; eassumption.
Qed.

Section CellLoops.
Context `{ext : Externals}.

Lemma same_shape_np_empty2 r c :
  same_shape r c (np_empty2 uninit_float r c).
Proof.
  unfold same_shape, np_empty2. simpl. by rewrite length_np_empty.
Qed.

(** The loops only return on a square grid. *)
Lemma cell_matrices_ok_shape splits_x splits_y x_clean y_clean z_clean mats :
  cell_matrices splits_x splits_y x_clean y_clean z_clean = Ok mats ->
  length splits_x = length splits_y /\
  shaped (length splits_x + 1) (length splits_y + 1) mats.
Proof.
  unfold cell_matrices. intros H.
  apply rbind_ok_inv in H as (ix & _ & H).
  apply rbind_ok_inv in H as (iy & _ & H).
  set (nx := length splits_x + 1) in *. set (ny := length splits_y + 1) in *.
  assert (Hinner : forall i a a',
    for_each (seq 0 nx) (cell_body ix iy z_clean i) a = Ok a' ->
    shaped nx ny a -> shaped nx ny a').
  { intros i a a' Hi Ha.
    eapply (for_each_ok_inv (shaped nx ny)); [|exact Hi|exact Ha].
    intros j b b' Hb. apply cell_body_ok_inv in Hb as (_ & _ & Hb). apply Hb. }
  destruct (for_each_ok_inv (shaped nx ny) _ _ Hinner _ _ H) as [Hshape Hall].
  { repeat split; apply same_shape_np_empty2. }
  split; [|exact Hshape].
  destruct (Hall (ny - 1)) as (a & a' & Ha & Hrow).
  { apply elem_of_seq. unfold ny. lia. }
  destruct (for_each_ok_inv (shaped nx ny) (seq 0 nx)
              (cell_body ix iy z_clean (ny - 1))) with (acc := a) (acc' := a')
    as [_ Hcells]; [| done | done |].
  { intros j b b' Hb. apply cell_body_ok_inv in Hb as (_ & _ & Hb). apply Hb. }
  destruct (Hcells (nx - 1)) as (b & b' & Hb & Hcell).
  { apply elem_of_seq. unfold nx. lia. }
  apply cell_body_ok_inv in Hcell as (Hi & Hj & _).
  destruct Hb as ((Hr & Hc & _) & _). rewrite Hr in Hi. rewrite Hc in Hj.
  unfold nx, ny in *. lia.
Qed.

Lemma position_row_column i j c :
  j < c -> (i * c + j) / c = i /\ (i * c + j) mod c = j.
Proof.
  intros Hj. split.
  - symmetry. apply (Nat.div_unique _ _ _ j); lia.
  - symmetry. apply (Nat.mod_unique _ _ i); lia.
Qed.

Lemma filled_write F c lo p (old mid : ndarray2 Q) i j :
  filled F c lo p old mid ->
  p = i * c + j -> j < c -> lo <= p -> p < length (data mid) ->
  filled F c lo (S p) old
    {| nrows := nrows mid; ncols := ncols mid;
       data := <[p := F i j]> (data mid) |}.
Proof.
  intros Hf -> Hj Hlo Hlen q. simpl.
  destruct (decide (q = i * c + j)) as [->|Hne].
  - rewrite list_lookup_insert_eq by done.
    rewrite decide_True by lia. unfold at_position.
    by destruct (position_row_column i j c Hj) as [-> ->].
  - rewrite list_lookup_insert_ne by done. rewrite Hf.
    destruct (decide (lo <= q < i * c + j)).
    + rewrite decide_True by lia. done.
    + rewrite decide_False by lia. done.
Qed.

Lemma filled_refl F c lo old : filled F c lo lo old old.
Proof. intros p. rewrite decide_False by lia. done. Qed.

Lemma cell_body_ok ix iy zc r c i j acc :
  length ix = length zc -> length iy = length zc ->
  shaped r c acc -> i < r -> j < c ->
  cell_body ix iy zc i j acc =
  Ok ({| nrows := nrows acc.1.1; ncols := ncols acc.1.1;
         data := <[i * c + j := cell_count ix iy i j]> (data acc.1.1) |},
      {| nrows := nrows acc.1.2; ncols := ncols acc.1.2;
         data := <[i * c + j := cell_sum ix iy zc i j]> (data acc.1.2) |},
      {| nrows := nrows acc.2; ncols := ncols acc.2;
         data := <[i * c + j := cell_sum_squares ix iy zc i j]> (data acc.2) |}).
Proof.
  intros Hx Hy Hs Hi Hj. destruct acc as [[mR mS] mSS].
  destruct Hs as ((HRr & HRc & _) & (HSr & HSc & _) & (HQr & HQc & _)).
  simpl in *. unfold cell_body, np_logical_and, np_eq_scalar.
  rewrite !length_map, Hx, Hy, Nat.eqb_refl. cbn [rbind].
  unfold getitem_mask.
  rewrite length_zip_with, !length_map, Hx, Hy, Nat.min_id, Nat.eqb_refl.
  cbn [rbind]. unfold setitem2.
  rewrite HRr, HRc, HSr, HSc, HQr, HQc.
  destruct (Nat.ltb_spec i r); [|lia]. destruct (Nat.ltb_spec j c); [|lia].
  reflexivity.
Qed.

(** One row of the grid. *)
Lemma row_loop ix iy zc r c i :
  length ix = length zc -> length iy = length zc -> i < r ->
  forall k acc, k <= c -> shaped r c acc ->
  exists acc',
    for_each (seq 0 k) (cell_body ix iy zc i) acc = Ok acc' /\
    shaped r c acc' /\
    all_filled ix iy zc c (i * c) (i * c + k) acc acc'.
Proof.
  intros Hx Hy Hi. induction k as [|k IH]; intros acc Hk Hs.
  - exists acc. split; [done|]. split; [done|].
    rewrite Nat.add_0_r. repeat split; apply filled_refl.
  - destruct (IH acc ltac:(lia) Hs) as (acc1 & Hrun & Hs1 & HR & HS & HQ).
    rewrite seq_S, for_each_app, Hrun. cbn [rbind for_each Nat.add].
    rewrite (cell_body_ok ix iy zc r c) by (done || lia). cbn [rbind].
    eexists. split; [reflexivity|].
    pose proof Hs1 as ((? & ? & L1) & (? & ? & L2) & (? & ? & L3)).
    assert (i * c + k < r * c) by nia.
    split.
    { unfold shaped, same_shape. simpl. rewrite !length_insert. done. }
    replace (i * c + S k) with (S (i * c + k)) by lia.
    repeat split; simpl; apply filled_write; try done; lia.
Qed.

Lemma filled_trans F c lo mid hi a b d :
  lo <= mid <= hi ->
  filled F c lo mid a b -> filled F c mid hi b d -> filled F c lo hi a d.
Proof.
  intros Hm H1 H2 p. rewrite H2.
  destruct (decide (mid <= p < hi)).
  - rewrite decide_True by lia. done.
  - rewrite H1. destruct (decide (lo <= p < mid)).
    + rewrite decide_True by lia. done.
    + rewrite decide_False by lia. done.
Qed.

(** The first [k] rows. *)
Lemma rows_loop ix iy zc r c :
  length ix = length zc -> length iy = length zc ->
  forall k acc, k <= r -> shaped r c acc ->
  exists acc',
    for_each (seq 0 k)
      (fun i a => for_each (seq 0 c) (cell_body ix iy zc i) a) acc = Ok acc' /\
    shaped r c acc' /\
    all_filled ix iy zc c 0 (k * c) acc acc'.
Proof.
  intros Hx Hy. induction k as [|k IH]; intros acc Hk Hs.
  - exists acc. split; [done|]. split; [done|].
    repeat split; apply filled_refl.
  - destruct (IH acc ltac:(lia) Hs) as (acc1 & Hrun & Hs1 & HR & HS & HQ).
    destruct (row_loop ix iy zc r c k Hx Hy ltac:(lia) c acc1 ltac:(lia) Hs1)
      as (acc2 & Hrow & Hs2 & HR2 & HS2 & HQ2).
    rewrite seq_S, for_each_app, Hrun. cbn [rbind for_each Nat.add].
    rewrite Hrow. cbn [rbind].
    exists acc2. split; [done|]. split; [done|].
    replace (S k * c) with (k * c + c) by lia.
    repeat split; eapply filled_trans; eauto; lia.
Qed.

Lemma filled_all F c n (old new : ndarray2 Q) :
  filled F c 0 n old new -> length (data new) = n ->
  data new = map (at_position F c) (seq 0 n).
Proof.
  intros Hf Hlen. apply list_eq. intros p.
  rewrite list_lookup_fmap.
  destruct (decide (0 <= p < n)) as [Hp|Hp].
  - rewrite Hf, decide_True by done. rewrite lookup_seq_lt by lia. done.
  - rewrite lookup_seq_ge by lia. simpl. apply lookup_ge_None. lia.
Qed.

Lemma np_digitize_monotone x bins :
  monotone bins = true -> exists idx, np_digitize x bins = Ok idx.
Proof.
  unfold monotone, np_digitize. intros H.
  destruct (nondecreasing bins); [eauto|].
  destruct (nonincreasing bins); [eauto|done].
Qed.

(** The closed form of the three matrices on a square grid. *)
Lemma cell_matrices_square_data splits_x splits_y x_clean y_clean z_clean ix iy :
  length splits_x = length splits_y ->
  np_digitize x_clean splits_x = Ok ix ->
  np_digitize y_clean splits_y = Ok iy ->
  length x_clean = length z_clean ->
  length y_clean = length z_clean ->
  let n := length splits_x + 1 in
  exists mats,
    cell_matrices splits_x splits_y x_clean y_clean z_clean = Ok mats /\
    shaped n n mats /\
    data mats.1.1 = map (at_position (cell_count ix iy) n) (seq 0 (n * n)) /\
    data mats.1.2 = map (at_position (cell_sum ix iy z_clean) n) (seq 0 (n * n)) /\
    data mats.2 =
      map (at_position (cell_sum_squares ix iy z_clean) n) (seq 0 (n * n)).
Proof.
  intros Hsq Hx Hy Lx Ly n. unfold cell_matrices.
  rewrite Hx, Hy. cbn [rbind]. rewrite <- Hsq. fold n.
  apply np_digitize_ok_inv in Hx as [Lix _].
  apply np_digitize_ok_inv in Hy as [Liy _].
  destruct (rows_loop ix iy z_clean n n ltac:(lia) ltac:(lia) n
              (np_empty2 uninit_float n n, np_empty2 uninit_float n n,
               np_empty2 uninit_float n n) ltac:(lia))
    as (mats & Hrun & Hs & HR & HS & HQ).
  { repeat split; apply same_shape_np_empty2. }
  exists mats. split; [exact Hrun|]. split; [exact Hs|].
  destruct Hs as ((_ & _ & L1) & (_ & _ & L2) & (_ & _ & L3)).
  repeat split; eapply filled_all; eauto.
Qed.
End CellLoops.

(** ** Totals over the cells *)

Lemma Qsum_app l k : (Qsum (l ++ k) == Qsum l + Qsum k)%Q.
Proof.
  induction l as [|a l IH]; simpl; [ring|]. rewrite IH. ring.
Qed.

Lemma Qsum_map_plus {A} (f g : A -> Q) l :
  (Qsum (map (fun p => f p + g p) l) == Qsum (map f l) + Qsum (map g l))%Q.
Proof.
  induction l as [|a l IH]; simpl; [ring|]. rewrite IH. ring.
Qed.

Lemma Qsum_map_ext {A} (f g : A -> Q) l :
  (forall p, p ∈ l -> f p == g p)%Q ->
  (Qsum (map f l) == Qsum (map g l))%Q.
Proof.
  induction l as [|a l IH]; intros H; simpl; [reflexivity|].
  rewrite H by left. rewrite IH; [reflexivity|].
  intros p Hp. apply H. by right.
Qed.

Lemma Qsum_map_zero {A} (l : list A) : (Qsum (map (fun _ => 0) l) == 0)%Q.
Proof. induction l as [|a l IH]; simpl; [reflexivity|]. rewrite IH. ring. Qed.

(** A value placed at one position of a range sums to itself. *)
Lemma Qsum_single (v : Q) p0 N :
  p0 < N ->
  (Qsum (map (fun p => if (p =? p0)%nat then v else 0) (seq 0 N)) == v)%Q.
Proof.
  induction N as [|N IH]; intros Hp; [lia|].
  rewrite seq_S, map_app, Qsum_app. simpl.
  destruct (Nat.eqb_spec N p0) as [->|Hne].
  - rewrite (Qsum_map_ext _ (fun _ => 0%Q)).
    + rewrite Qsum_map_zero. ring.
    + intros p Hp'. apply elem_of_seq in Hp'.
      destruct (Nat.eqb_spec p p0); [lia|reflexivity].
  - rewrite IH by lia. ring.
Qed.

Lemma cell_mask_position a b n p :
  a < n ->
  ((a =? p mod n) && (b =? p / n))%nat = (p =? b * n + a)%nat.
Proof.
  intros Ha.
  destruct (Nat.eqb_spec p (b * n + a)) as [->|Hne].
  - destruct (position_row_column b a n Ha) as [-> ->].
    by rewrite !Nat.eqb_refl.
  - destruct (Nat.eqb_spec a (p mod n)) as [->|]; [|done].
    destruct (Nat.eqb_spec b (p / n)) as [->|]; [|done].
    exfalso. apply Hne. pose proof (Nat.div_mod_eq p n). lia.
Qed.

(** Every sample falls in exactly one cell: the cell sums add up to the
    sum of the samples. *)
Lemma cell_sums_total n : forall ix iy w,
  length ix = length w -> length iy = length w ->
  Forall (fun k => k < n) ix -> Forall (fun k => k < n) iy ->
  (Qsum (map (at_position (cell_sum ix iy w) n) (seq 0 (n * n))) == Qsum w)%Q.
Proof.
  induction ix as [|a ix IH]; intros iy w Lx Ly Fx Fy.
  - destruct w; [|done]. simpl.
    rewrite (Qsum_map_ext _ (fun _ => 0%Q)); [apply Qsum_map_zero|].
    intros p _. reflexivity.
  - destruct w as [|v w]; [done|]. destruct iy as [|b iy]; [done|].
    apply Forall_cons in Fx as [Ha Fx]. apply Forall_cons in Fy as [Hb Fy].
    simpl in Lx, Ly.
    rewrite (Qsum_map_ext _
      (fun p => (if (p =? b * n + a)%nat then v else 0) +
                at_position (cell_sum ix iy w) n p)%Q).
    + rewrite Qsum_map_plus, Qsum_single by nia.
      rewrite IH by (done || lia). simpl. reflexivity.
    + intros p _. unfold at_position, cell_sum, cell_mask, np_eq_scalar.
      cbn [map zip_with compress].
      rewrite cell_mask_position by done.
      destruct (p =? b * n + a)%nat; simpl; ring.
Qed.

Lemma count_nonzero_compress {A} mask (l : list A) :
  length mask = length l ->
  (inject_Z (Z.of_nat (np_count_nonzero mask)) ==
   Qsum (compress mask (map (fun _ => 1) l)))%Q.
Proof.
  unfold np_count_nonzero.
  revert l. induction mask as [|b mask IH]; intros [|v l] L; try done.
  simpl in L. destruct b.
  - rewrite filter_cons_True by done. cbn [length map compress Qsum foldr].
    change (foldr Qplus 0 ?l)%Q with (Qsum l).
    rewrite <- IH by lia.
    rewrite Nat2Z.inj_succ. unfold Z.succ. rewrite inject_Z_plus. ring.
  - rewrite filter_cons_False by done. cbn [map compress].
    apply IH. lia.
Qed.

Lemma Qsum_ones {A} (l : list A) :
  (Qsum (map (fun _ => 1) l) == inject_Z (Z.of_nat (length l)))%Q.
Proof.
  induction l as [|a l IH]; [reflexivity|].
  cbn [map Qsum foldr length]. change (foldr Qplus 0 ?l)%Q with (Qsum l).
  rewrite IH, Nat2Z.inj_succ. unfold Z.succ. rewrite inject_Z_plus. ring.
Qed.

Lemma length_cell_mask ix iy i j :
  length (cell_mask ix iy i j) = Nat.min (length ix) (length iy).
Proof.
  unfold cell_mask, np_eq_scalar. by rewrite length_zip_with, !length_map.
Qed.

Lemma digitize_in_grid x bins idx :
  np_digitize x bins = Ok idx ->
  length idx = length x /\ Forall (fun k => k < length bins + 1) idx.
Proof.
  intros H. apply np_digitize_ok_inv in H as [L F]. split; [done|].
  eapply Forall_impl; [exact F|]. simpl. intros. lia.
Qed.

Section CellTheorems.
Context `{ext : Externals}.

(** X5.  On a square grid with aligned clean arrays the loops return, and cell
    [(i, j)] of each matrix holds the statistic of the clean samples whose
    index along [y] is [i] and whose index along [x] is [j]. *)
Theorem cell_matrices_square_cells
    splits_x splits_y x_clean y_clean z_clean ix iy :
  length splits_x = length splits_y ->
  np_digitize x_clean splits_x = Ok ix ->
  np_digitize y_clean splits_y = Ok iy ->
  length x_clean = length z_clean ->
  length y_clean = length z_clean ->
  let n := length splits_x + 1 in
  exists mats,
    cell_matrices splits_x splits_y x_clean y_clean z_clean = Ok mats /\
    forall i j, i < n -> j < n ->
      data mats.1.1 !! (i * n + j) = Some (cell_count ix iy i j) /\
      data mats.1.2 !! (i * n + j) = Some (cell_sum ix iy z_clean i j) /\
      data mats.2 !! (i * n + j) = Some (cell_sum_squares ix iy z_clean i j).
Proof.
  intros Hsq Hx Hy Lx Ly n.
  destruct (cell_matrices_square_data _ _ _ _ _ _ _ Hsq Hx Hy Lx Ly)
    as (mats & Hrun & _ & HR & HS & HQ).
  fold n in HR, HS, HQ.
  exists mats. split; [exact Hrun|]. intros i j Hi Hj.
  assert (Hp : i * n + j < n * n) by nia.
  rewrite HR, HS, HQ, !list_lookup_fmap, !lookup_seq_lt by done.
  unfold at_position. simpl.
  by destruct (position_row_column i j n Hj) as [-> ->].
Qed.

(** X6.  On a square grid every clean sample is counted in exactly one
    cell: the counts in [R] add up to the number of clean samples. *)
Theorem cell_matrices_counts_every_sample_once
    splits_x splits_y x_clean y_clean z_clean :
  length splits_x = length splits_y ->
  monotone splits_x = true -> monotone splits_y = true ->
  length x_clean = length z_clean ->
  length y_clean = length z_clean ->
  exists mats,
    cell_matrices splits_x splits_y x_clean y_clean z_clean = Ok mats /\
    (Qsum (data mats.1.1) == inject_Z (Z.of_nat (length z_clean)))%Q.
Proof.
  intros Hsq Mx My Lx Ly.
  destruct (np_digitize_monotone x_clean _ Mx) as [ix Hx].
  destruct (np_digitize_monotone y_clean _ My) as [iy Hy].
  destruct (cell_matrices_square_data _ _ _ _ _ _ _ Hsq Hx Hy Lx Ly)
    as (mats & Hrun & _ & HR & _ & _).
  apply digitize_in_grid in Hx as [Lix Fx].
  apply digitize_in_grid in Hy as [Liy Fy]. rewrite <- Hsq in Fy.
  exists mats. split; [exact Hrun|].
  rewrite HR.
  rewrite (Qsum_map_ext _
    (at_position (cell_sum ix iy (map (fun _ => 1%Q) z_clean))
       (length splits_x + 1))).
  - rewrite cell_sums_total by (rewrite ?length_map; congruence || done).
    apply Qsum_ones.
  - intros p _. unfold at_position, cell_count, cell_sum.
    apply count_nonzero_compress.
    rewrite length_cell_mask. lia.
Qed.

Lemma cell_body_raise_inv ix iy zc i j acc e :
  length ix = length zc -> length iy = length zc ->
  cell_body ix iy zc i j acc = Raise e ->
  e = IndexError "index out of bounds".
Proof.
  intros Hx Hy. destruct acc as [[mR mS] mSS].
  unfold cell_body, np_logical_and, np_eq_scalar.
  rewrite !length_map, Hx, Hy, Nat.eqb_refl. cbn [rbind].
  unfold getitem_mask.
  rewrite length_zip_with, !length_map, Hx, Hy, Nat.min_id, Nat.eqb_refl.
  cbn [rbind]. unfold setitem2.
  repeat (match goal with
          | |- context [if ?b then _ else _] => destruct b
          end; cbn [rbind]); congruence.
Qed.

(** X7.  With monotone splits and aligned clean arrays, split lists of
    different lengths make the loops raise an [IndexError], whatever the
    data. *)
Theorem cell_matrices_rectangular_raises
    splits_x splits_y x_clean y_clean z_clean :
  length splits_x <> length splits_y ->
  monotone splits_x = true -> monotone splits_y = true ->
  length x_clean = length z_clean ->
  length y_clean = length z_clean ->
  cell_matrices splits_x splits_y x_clean y_clean z_clean =
  Raise (IndexError "index out of bounds").
Proof.
  intros Hne Mx My Lx Ly.
  destruct (cell_matrices splits_x splits_y x_clean y_clean z_clean)
    as [mats|e] eqn:E.
  { apply cell_matrices_ok_shape in E as [E _]. done. }
  f_equal. unfold cell_matrices in E.
  destruct (np_digitize_monotone x_clean _ Mx) as [ix Hx].
  destruct (np_digitize_monotone y_clean _ My) as [iy Hy].
  rewrite Hx, Hy in E. cbn [rbind] in E.
  apply np_digitize_ok_inv in Hx as [Lix _].
  apply np_digitize_ok_inv in Hy as [Liy _].
  apply (for_each_raise_inv (fun _ => True)) in E as (i & a & _ & _ & E);
    [|done..].
  apply (for_each_raise_inv (fun _ => True)) in E as (j & b & _ & _ & E);
    [|done..].
  eapply cell_body_raise_inv; [| |exact E]; congruence.
Qed.
End CellTheorems.

(** ** Post-processing and completed fits *)

Lemma setitem_neg_ok {A} (a : list A) k v :
  k <= length a -> setitem_neg a k v = Ok (<[length a - k := v]> a).
Proof.
  intros H. unfold setitem_neg. by destruct (Nat.leb_spec k (length a)); [|lia].
Qed.

Lemma reshape_ok {A} (a : list A) r c :
  length a = r * c -> reshape a r c = Ok {| nrows := r; ncols := c; data := a |}.
Proof. intros H. unfold reshape. by rewrite H, Nat.eqb_refl. Qed.

Section PostProcessing.
Context `{ext : Externals}.

Lemma append_virtual_bins_ok z_missing z_special rc1 :
  2 <= length (opt_n_records rc1) ->
  2 <= length (opt_sums rc1) ->
  2 <= length (opt_stds rc1) ->
  exists rc,
    append_virtual_bins (subset_statistics z_missing z_special) rc1 = Ok rc /\
    rc_P rc = rc_P rc1 /\ rc_D rc = rc_D rc1.
Proof.
  intros H1 H2 H3.
  unfold append_virtual_bins, subset_statistics. cbn [require rbind
    _n_records_special _n_records_missing _sum_special _sum_missing
    _std_special _std_missing].
  rewrite !setitem_neg_ok by done. cbn [rbind].
  rewrite !setitem_neg_ok by (rewrite length_insert; lia). cbn [rbind].
  eexists. split; [reflexivity|]. done.
Qed.

(** X10.  The post-processing of a selection returns whenever the model data
    is consistent and the candidates do not all have the same length (so
    that the array of candidates holds lists): with as many counts, sums
    and deviations as candidates, a selection vector of that length and
    selected candidates that stay inside the grid, the reconstruction
    loop, the two virtual bins and the two reshapes all succeed, whether
    or not the selection tiles the grid. *)
Theorem reconstruction_returns_for_in_grid_selection
    (solution : list bool) (rows : list (list nat)) (n_records : list Z)
    (sums stds : list Q) (m n : nat) (z_missing z_special : list Q) :
  object_array_is_2d rows = false ->
  length solution = length rows ->
  length solution = length n_records ->
  length solution = length sums ->
  length solution = length stds ->
  Forall (Forall (fun k => k < m * n)) (compress solution rows) ->
  exists rc1 rc mD mP,
    for_each (enumerate (compress solution rows))
      (reconstruct_body (object_array_is_2d rows)
         solution n_records sums stds)
      (reconstruction_start m n (length (compress solution rows))) = Ok rc1 /\
    append_virtual_bins (subset_statistics z_missing z_special) rc1 = Ok rc /\
    reshape (rc_D rc) m n = Ok mD /\
    reshape (rc_P rc) m n = Ok mP.
Proof.
  intros H2d Hr Hn Hs Hd Hin. rewrite H2d.
  set (sel := compress solution rows) in *.
  assert (Hlen : length sel = length (compress solution n_records))
    by (by apply length_compress_same).
  destruct (reconstruction_loop_returns solution n_records sums stds
              Hn Hs Hd sel 0 (reconstruction_start m n (length sel)))
    as [rc1 Eloop]; simpl;
    rewrite ?length_np_empty, ?length_replicate; try done; try lia.
  pose proof (reconstruction_loop_spec false solution n_records sums stds
                sel 0 _ _ Eloop) as ((L1 & L2 & L3 & L4 & L5) & _).
  simpl in L1, L2, L3, L4, L5.
  rewrite ?length_np_empty, ?length_replicate in *.
  destruct (append_virtual_bins_ok z_missing z_special rc1)
    as (rc & Eapp & EP & ED); try lia.
  exists rc1, rc. do 2 eexists.
  split; [exact Eloop|]. split; [exact Eapp|].
  split; apply reshape_ok; congruence.
Qed.

End PostProcessing.

Section CompletedFit.
Context `{ext : Externals}.

(** X8.  A fit only completes on a square grid: the two pre-binnings returned
    the same number [k] of splits, the recorded grid dimensions are both
    [k + 1], the recorded number of pre-bins is [(k + 1)^2], and the
    table has these dimensions and a partition map of that many cells. *)
Theorem fit_completes_only_on_square_grid x y z check_input self self' :
  _fit x y z check_input self = (Ok tt, self') ->
  exists t k table,
    fit_trace_ok x y z check_input (params self) t /\
    length (tr_splits_x t) = k /\
    length (tr_splits_y t) = k /\
    _m (attrs self') = Some (k + 1) /\
    _n (attrs self') = Some (k + 1) /\
    _n_prebins (info self') = Some ((k + 1) * (k + 1)) /\
    _binning_table (info self') = Some table /\
    bt_m table = k + 1 /\ bt_n table = k + 1 /\
    length (data (bt_P table)) = (k + 1) * (k + 1) /\
    length (data (bt_D table)) = (k + 1) * (k + 1).
Proof.
  intros H. apply _fit_ok_inv in H as (t & Ht & ->).
  pose proof Ht as (_ & _ & _ & _ & Ecells & _).
  apply cell_matrices_ok_shape in Ecells as (Hsq & (Hr & Hc & Hl) & _).
  rewrite <- Hsq in Hc, Hl.
  pose proof (fit_table_arrays _ _ _ _ _ _ Ht)
    as (_ & _ & _ & (_ & _ & _ & _ & LP & LD) & _).
  cbv zeta in LP, LD. unfold tr_R in *.
  exists t, (length (tr_splits_x t)), (fit_table (params self) t).
  split; [exact Ht|]. split; [reflexivity|]. split; [by rewrite Hsq|].
  unfold fit_state, fit_table, tr_R. cbn.
  rewrite Hr, Hc, Hl in *. rewrite LP, LD.
  destruct (tr_clf t); repeat split; reflexivity.
Qed.

(** X9.  After a completed fit the selection vector has one entry per
    candidate rectangle, the selected rectangles are those it marks, the
    table has one row per selected rectangle plus two, and the arrays
    that [transform] reads are the table's. *)
Theorem fit_selection_and_table_agree x y z check_input self self' :
  _fit x y z check_input self = (Ok tt, self') ->
  exists rows solution table,
    _rows (attrs self') = Some rows /\
    _solution (info self') = Some solution /\
    _binning_table (info self') = Some table /\
    length solution = length rows /\
    _selected_rows (attrs self') = Some (compress solution rows) /\
    length (bt_n_records table) = length (compress solution rows) + 2 /\
    length (bt_sums table) = length (compress solution rows) + 2 /\
    length (bt_stds table) = length (compress solution rows) + 2 /\
    _sums (attrs self') = Some (bt_sums table) /\
    _n_records (attrs self') = Some (bt_n_records table).
Proof.
  intros H. apply _fit_ok_inv in H as (t & Ht & ->).
  pose proof (fit_table_arrays _ _ _ _ _ _ Ht) as ((L1 & L2 & L3) & _).
  cbv zeta in L1, L2, L3.
  destruct Ht as (_&_&_&_&_&_&_&_&_&_&_&_&_&_&_&Esel&_).
  apply getitem_mask_ok_inv in Esel as [Hlen Esel].
  rewrite Esel in L1, L2, L3.
  exists (md_rows (tr_md t)), (tr_solution t), (fit_table (params self) t).
  unfold fit_state, fit_table. cbn. rewrite Esel.
  destruct (tr_clf t); repeat split; try reflexivity; assumption.
Qed.

End CompletedFit.

Section CartLeaf.
Context `{ext : Externals}.


End CartLeaf.

(** ** Runs on concrete data *)

Lemma digitize_counts_splits_le_witness :
  nondecreasing [1; 3]%Q = true /\
  np_digitize [0; 1; 2; 3; 4]%Q [1; 3]%Q
    = Ok (map (splits_le [1; 3]%Q) [0; 1; 2; 3; 4]%Q) /\
  forall v,
    let i := splits_le [1; 3]%Q v in
    i <= length [1; 3]%Q /\
    (forall j s, j < i -> [1; 3]%Q !! j = Some s -> (s <= v)%Q) /\
    (forall j s, i <= j -> [1; 3]%Q !! j = Some s -> (v < s)%Q).
Proof.
  split; [reflexivity|].
  apply (digitize_counts_splits_le [1; 3]%Q [0; 1; 2; 3; 4]%Q). reflexivity.
Defined.

Lemma digitize_tie_not_strict_count :
  np_digitize [1%Q] [1%Q] = Ok [1] /\
  splits_lt [1%Q] 1%Q = 0 /\
  ~ digitize_counts_strictly_less [1%Q] 1%Q.
Proof.
  split; [reflexivity|]. split; [reflexivity|].
  unfold digitize_counts_strictly_less. vm_compute. discriminate.
Qed.

Lemma fit_appends_virtual_bins_witness :
  let E := Demo.ext "OPTIMAL" Run.two_rows in
  let x := Run.xs8 in
  let y := Run.ys8 in
  let z := Run.zs8 in
  let check_input := false in
  let self := @__init__ E Run.grid2_codes in
  let self' := snd (@_fit E x y z check_input self) in
  _fit x y z check_input self = (Ok tt, self') /\
  (exists t table,
    fit_trace_ok x y z check_input (params self) t /\
    self' = fit_state x t self /\
    let sd := tr_sd t in
    let md := tr_md t in
    let solution := tr_solution t in
    let selected := compress solution (md_rows md) in
    let k := length selected in
    split_data_2d (dtype_x (params self)) (dtype_y (params self)) x y z
      (special_codes_x (params self)) (special_codes_y (params self))
      check_input = Ok sd /\
    match tr_clf t with
    | Some clf => continuous_model_data_cart clf (tr_args t)
    | None => continuous_model_data (tr_args t)
    end = Ok md /\
    _selected_rows (attrs self') = Some selected /\
    _solution (info self') = Some solution /\
    _binning_table (info self') = Some table /\
    _n_records (attrs self') = Some (bt_n_records table) /\
    _sums (attrs self') = Some (bt_sums table) /\
    (length (bt_n_records table) = k + 2 /\
     length (bt_sums table) = k + 2 /\
     length (bt_stds table) = k + 2) /\
    (forall i, i < k ->
       exists n s d,
         compress solution (md_n_records md) !! i = Some n /\
         compress solution (md_sums md) !! i = Some s /\
         compress solution (md_stds md) !! i = Some d /\
         bt_n_records table !! i = Some n /\
         bt_sums table !! i = Some s /\
         bt_stds table !! i = Some d) /\
    (bt_n_records table !! k = Some (Z.of_nat (length (z_special sd))) /\
     bt_sums table !! k = Some (Qsum (z_special sd)) /\
     bt_stds table !! k =
       Some (match z_special sd with
             | [] => 0%Q
             | _ :: _ => np_std (z_special sd)
             end)) /\
    (bt_n_records table !! (k + 1) = Some (Z.of_nat (length (z_missing sd))) /\
     bt_sums table !! (k + 1) = Some (Qsum (z_missing sd)) /\
     bt_stds table !! (k + 1) =
       Some (match z_missing sd with
             | [] => 0%Q
             | _ :: _ => np_std (z_missing sd)
             end))).
Proof.
  cbv zeta.
  split; [apply method_returned; vm_compute; reflexivity|].
  apply (@fit_appends_virtual_bins (Demo.ext "OPTIMAL" Run.two_rows) Run.xs8 Run.ys8 Run.zs8 false
           (@__init__ (Demo.ext "OPTIMAL" Run.two_rows) Run.grid2_codes)).
  apply method_returned; vm_compute; reflexivity.
Defined.

Lemma fit_refinement_count_exact_witness :
  let E := Demo.ext "OPTIMAL" Run.two_rows in
  let x := Run.xs in
  let y := Run.ys in
  let z := Run.zs in
  let check_input := false in
  let self := @__init__ E Run.grid2 in
  let self' := snd (@_fit E x y z check_input self) in
  _fit x y z check_input self = (Ok tt, self') /\
  (exists m n rows,
    _m (attrs self') = Some m /\
    _n (attrs self') = Some n /\
    _rows (attrs self') = Some rows /\
    let full := (Z.of_nat m * Z.of_nat n * (Z.of_nat m + 1)
                 * (Z.of_nat n + 1))%Z in
    (4 * (full / 4) = full)%Z /\
    (_n_refinements (info self') = full / 4 - Z.of_nat (length rows))%Z).
Proof.
  cbv zeta.
  split; [apply method_returned; vm_compute; reflexivity|].
  apply (@fit_refinement_count_exact (Demo.ext "OPTIMAL" Run.two_rows) Run.xs Run.ys Run.zs false
           (@__init__ (Demo.ext "OPTIMAL" Run.two_rows) Run.grid2)).
  apply method_returned; vm_compute; reflexivity.
Defined.

Lemma fit_mean_is_unguarded_quotient_witness :
  let E := Demo.ext "OPTIMAL" Run.row_and_two_cells in
  let x := Run.xs3 in
  let y := Run.ys3 in
  let z := Run.zs3 in
  let check_input := false in
  let self := @__init__ E Run.grid2 in
  let self' := snd (@_fit E x y z check_input self) in
  _fit x y z check_input self = (Ok tt, self') /\
  (exists selected table,
    _selected_rows (attrs self') = Some selected /\
    _binning_table (info self') = Some table /\
    forall i r c,
      selected !! i = Some r -> c ∈ r ->
      (forall j r', i < j -> selected !! j = Some r' -> c ∉ r') ->
      exists s n,
        bt_sums table !! i = Some s /\
        bt_n_records table !! i = Some n /\
        data (bt_D table) !! c = Some (np_true_divide s (inject_Z n)) /\
        (n <> 0%Z -> np_true_divide s (inject_Z n) = Finite (s / inject_Z n)) /\
        (n = 0%Z ->
           np_true_divide s (inject_Z n) =
             if Qeq_bool s 0 then NaN
             else if Qltb 0 s then PosInf else NegInf)).
Proof.
  cbv zeta.
  split; [apply method_returned; vm_compute; reflexivity|].
  apply (@fit_mean_is_unguarded_quotient (Demo.ext "OPTIMAL" Run.row_and_two_cells) Run.xs3 Run.ys3 Run.zs3 false
           (@__init__ (Demo.ext "OPTIMAL" Run.row_and_two_cells) Run.grid2)).
  apply method_returned; vm_compute; reflexivity.
Defined.

Lemma fit_partition_map_last_writer_witness :
  let E := Demo.ext "OPTIMAL" Run.overlapping in
  let x := Run.xs in
  let y := Run.ys in
  let z := Run.zs in
  let check_input := false in
  let self := @__init__ E Run.grid2 in
  let self' := snd (@_fit E x y z check_input self) in
  _fit x y z check_input self = (Ok tt, self') /\
  (exists selected table m n,
    _selected_rows (attrs self') = Some selected /\
    _binning_table (info self') = Some table /\
    _m (attrs self') = Some m /\ _n (attrs self') = Some n /\
    _is_fitted self' = true /\
    nrows (bt_P table) = m /\ ncols (bt_P table) = n /\
    length (data (bt_P table)) = m * n /\
    (forall i r c,
       selected !! i = Some r -> c ∈ r ->
       (forall j r', i < j -> selected !! j = Some r' -> c ∉ r') ->
       data (bt_P table) !! c = Some (Z.of_nat i)) /\
    (forall c,
       c < m * n -> (forall r, r ∈ selected -> c ∉ r) ->
       data (bt_P table) !! c = Some (uninit_int c) /\
       data (bt_D table) !! c = Some (uninit_float64 c))).
Proof.
  cbv zeta.
  split; [apply method_returned; vm_compute; reflexivity|].
  apply (@fit_partition_map_last_writer (Demo.ext "OPTIMAL" Run.overlapping) Run.xs Run.ys Run.zs false
           (@__init__ (Demo.ext "OPTIMAL" Run.overlapping) Run.grid2)).
  apply method_returned; vm_compute; reflexivity.
Defined.

Lemma fit_records_status_and_marks_fitted_witness :
  let E := Demo.ext "INFEASIBLE" Run.nothing in
  let x := Run.xs in
  let y := Run.ys in
  let z := Run.zs in
  let check_input := false in
  let self := @__init__ E Run.grid2 in
  let self' := snd (@_fit E x y z check_input self) in
  _fit x y z check_input self = (Ok tt, self') /\
  (exists model status solution handle,
    solve model = Ok (status, solution, handle) /\
    _status (info self') = Some status /\
    _solution (info self') = Some solution /\
    _is_fitted self' = true /\
    _check_is_fitted self' = (Ok tt, self') /\
    forall x' y' metric metric_special metric_missing show_digits check',
      transform x' y' metric metric_special metric_missing show_digits check'
        self'
      = (transform_continuous_target
           (_splits_x_optimal (info self')) (_splits_y_optimal (info self'))
           x' y' (_n_records (attrs self')) (_sums (attrs self'))
           (special_codes_x (params self')) (special_codes_y (params self'))
           metric metric_special metric_missing show_digits check',
         self')).
Proof.
  cbv zeta.
  split; [apply method_returned; vm_compute; reflexivity|].
  apply (@fit_records_status_and_marks_fitted (Demo.ext "INFEASIBLE" Run.nothing) Run.xs Run.ys Run.zs false
           (@__init__ (Demo.ext "INFEASIBLE" Run.nothing) Run.grid2)).
  apply method_returned; vm_compute; reflexivity.
Defined.

Lemma fit_bin_size_bound_uses_all_samples_witness :
  let E := Demo.ext "OPTIMAL" Run.two_rows in
  let x := Run.xs in
  let y := Run.ys in
  let z := Run.zs in
  let check_input := false in
  let self := @__init__ E Run.grid2_half in
  let self' := snd (@_fit E x y z check_input self) in
  _fit x y z check_input self = (Ok tt, self') /\
  (exists t,
    fit_trace_ok x y z check_input (params self) t /\
    self' = fit_state x t self /\
    match tr_clf t with
    | Some clf => continuous_model_data_cart clf (tr_args t)
    | None => continuous_model_data (tr_args t)
    end = Ok (tr_md t) /\
    _rows (attrs self') = Some (md_rows (tr_md t)) /\
    _n_samples (info self') = Some (length x) /\
    let bound fraction :=
      match number_value fraction with
      | Some q =>
          Some (Qceiling
                  (float64 (q * float64 (inject_Z (Z.of_nat (length x))))))
      | None => None
      end in
    arg_min_bin_size (tr_args t) = bound (min_bin_size (params self)) /\
    arg_max_bin_size (tr_args t) = bound (max_bin_size (params self))).
Proof.
  cbv zeta.
  split; [apply method_returned; vm_compute; reflexivity|].
  apply (@fit_bin_size_bound_uses_all_samples (Demo.ext "OPTIMAL" Run.two_rows) Run.xs Run.ys Run.zs false
           (@__init__ (Demo.ext "OPTIMAL" Run.two_rows) Run.grid2_half)).
  apply method_returned; vm_compute; reflexivity.
Defined.

Lemma fit_cart_tree_hyperparameters_witness :
  let E := Demo.ext "OPTIMAL" Run.whole_grid3 in
  let x := Run.xs in
  let y := Run.ys in
  let z := Run.zs in
  let check_input := false in
  let self := @__init__ E Run.cart3 in
  let self' := snd (@_fit E x y z check_input self) in
  _fit x y z check_input self = (Ok tt, self') /\
  strategy (params self) = PyStr "cart" /\
  (exists clf sd splits_x splits_y indices_x indices_y qx qy,
    _clf (attrs self') = Some clf /\
    split_data_2d (dtype_x (params self)) (dtype_y (params self)) x y z
      (special_codes_x (params self)) (special_codes_y (params self))
      check_input = Ok sd /\
    _fit_prebinning (params self) (dtype_x (params self)) (x_clean sd)
      (z_clean sd) (max_n_prebins_x (params self))
      (min_prebin_size_x (params self)) = Ok splits_x /\
    _fit_prebinning (params self) (dtype_y (params self)) (y_clean sd)
      (z_clean sd) (max_n_prebins_y (params self))
      (min_prebin_size_y (params self)) = Ok splits_y /\
    number_value (min_prebin_size_x (params self)) = Some qx /\
    number_value (min_prebin_size_y (params self)) = Some qy /\
    (min_samples_leaf clf == Qmin qx qy * (1 # 4))%Q /\
    max_leaf_nodes clf = length splits_x * length splits_y /\
    np_digitize (x_clean sd) splits_x = Ok indices_x /\
    np_digitize (y_clean sd) splits_y = Ok indices_y /\
    tree_fit (min_samples_leaf clf) (max_leaf_nodes clf)
      (zip (map Z.of_nat indices_x) (map Z.of_nat indices_y)) (z_clean sd)
      = Ok (tree_ clf)).
Proof.
  cbv zeta.
  split; [apply method_returned; vm_compute; reflexivity|].
  split; [reflexivity|].
  apply (@fit_cart_tree_hyperparameters (Demo.ext "OPTIMAL" Run.whole_grid3)
           Run.xs Run.ys Run.zs false
           (@__init__ (Demo.ext "OPTIMAL" Run.whole_grid3) Run.cart3));
    [|reflexivity].
  apply method_returned; vm_compute; reflexivity.
Defined.

Lemma fit_rejects_invalid_configuration_first_witness :
  let E := Demo.ext "OPTIMAL" [] in
  let self := @__init__ E Run.negative_gamma_params in
  invalid_configuration (params self) /\
  exists e,
    is_configuration_error e /\
    _check_parameters (params self) = Raise e /\
    forall x y z check_input,
      _fit x y z check_input self = (Raise e, self).
Proof.
  cbv zeta.
  split; [apply (negative_gamma _ (-1)%Q); reflexivity|].
  apply fit_rejects_invalid_configuration_first.
  apply (negative_gamma _ (-1)%Q); reflexivity.
Defined.

(** *** Where the documentation and the code part ways *)

(** C2.  The third selected candidate of this tiling is the empty cell 3:
    its count and its sum are zero and its mean is [nan], not zero. *)
Lemma zero_count_mean_is_nan :
  fst Run.empty_cell_out = Ok tt /\
  _selected_rows (attrs (snd Run.empty_cell_out))
    = Some [[0; 1]; [2]; [3]] /\
  option_map bt_n_records Run.empty_cell_table = Some [2; 1; 0; 0; 0]%Z /\
  option_map bt_sums Run.empty_cell_table = Some [3; 3; 0; 0; 0]%Q /\
  option_map (fun t => data (bt_D t)) Run.empty_cell_table
    = Some [Finite (3 # 2); Finite (3 # 2); Finite 3; NaN] /\
  forall t, Run.empty_cell_table = Some t ->
    ~ zero_count_gives_zero_mean [[0; 1]; [2]; [3]] t.
Proof.
  assert (Hn : option_map bt_n_records Run.empty_cell_table
               = Some [2; 1; 0; 0; 0]%Z)
    by (vm_compute; reflexivity).
  assert (Hd : option_map (fun t => data (bt_D t)) Run.empty_cell_table
               = Some [Finite (3 # 2); Finite (3 # 2); Finite 3; NaN])
    by (vm_compute; reflexivity).
  do 2 (split; [vm_compute; reflexivity|]).
  split; [exact Hn|]. split; [vm_compute; reflexivity|].
  split; [exact Hd|].
  intros t Ht Hzero. rewrite Ht in Hn, Hd.
  injection Hn as Hn. injection Hd as Hd.
  destruct (Hzero 2 [3] 3) as (v & Hv & Hz).
  - reflexivity.
  - apply list_elem_of_singleton. reflexivity.
  - rewrite Hn. reflexivity.
  - rewrite Hd in Hv. injection Hv as <-. exact Hz.
Qed.

(** C3.  The solver answers INFEASIBLE with an empty selection: the fit
    completes, the instance is marked fitted, the fitted check passes and
    [transform] returns a value. *)
Lemma infeasible_fit_is_marked_fitted :
  fst Run.infeasible_out = Ok tt /\
  _status (info (snd Run.infeasible_out)) = Some "INFEASIBLE" /\
  _is_fitted (snd Run.infeasible_out) = true /\
  _check_is_fitted (snd Run.infeasible_out)
    = (Ok tt, snd Run.infeasible_out) /\
  fst (@transform Run.infeasible_ext Run.xs Run.ys (PyStr "mean") (PyInt 0)
         (PyInt 0) (PyInt 2) false (snd Run.infeasible_out))
    = Ok ([0%Z; 1%Z], [0%Q; 9%Q]) /\
  ~ infeasible_leaves_unfit (snd Run.infeasible_out).
Proof.
  assert (Hs : _status (info (snd Run.infeasible_out)) = Some "INFEASIBLE")
    by (vm_compute; reflexivity).
  assert (Hf : _is_fitted (snd Run.infeasible_out) = true)
    by (vm_compute; reflexivity).
  split; [vm_compute; reflexivity|].
  split; [exact Hs|]. split; [exact Hf|].
  split; [by apply _check_is_fitted_passes|].
  split; [vm_compute; reflexivity|].
  intros H. specialize (H Hs).
  rewrite (_check_is_fitted_passes _ Hf) in H. discriminate H.
Qed.

(** C4.  Five samples, four of them clean, and a minimum bin size of one
    half: the builder receives the bound 3, the ceiling of 5/2, where the
    clean sample count would give 2. *)
Lemma bin_size_bound_counts_missing_samples :
  exists t : @FitTrace Run.half_ext,
    @fit_trace_ok Run.half_ext Run.xs Run.ys Run.zs false
      (params Run.half_self) t /\
    @_fit Run.half_ext Run.xs Run.ys Run.zs false Run.half_self
      = (Ok tt, @fit_state Run.half_ext Run.xs t Run.half_self) /\
    @continuous_model_data Run.half_ext (tr_args t) = Ok (tr_md t) /\
    length Run.xs = 5 /\
    length (z_clean (tr_sd t)) = 4 /\
    arg_min_bin_size (tr_args t) = Some 3%Z /\
    bound_from_clean_samples (1 # 2) (tr_sd t) = 2%Z.
Proof.
  assert (Hrun : @_fit Run.half_ext Run.xs Run.ys Run.zs false Run.half_self
                 = (Ok tt, snd (@_fit Run.half_ext Run.xs Run.ys Run.zs false
                                  Run.half_self)))
    by (apply method_returned; vm_compute; reflexivity).
  destruct (_fit_ok_inv _ _ _ _ _ _ Hrun) as (t & Ht & Hstate).
  exists t. split; [exact Ht|]. split; [rewrite <- Hstate; exact Hrun|].
  pose proof Ht
    as (_ & Esd & _ & _ & _ & Eclf & Emin & _ & _ & _ & _ & Emd & _).
  assert (Hsd : Ok (tr_sd t)
                = Ok (Demo.segment (CodesScalar PyNone) (CodesScalar PyNone)
                        Run.xs Run.ys Run.zs))
    by (rewrite <- Esd; reflexivity).
  injection Hsd as Hsd.
  assert (Hgrid : py_eq_str (strategy (params Run.half_self)) "cart" = false)
    by reflexivity.
  rewrite Hgrid in Eclf. rewrite Eclf in Emd.
  assert (Hb : Ok (arg_min_bin_size (tr_args t)) = Ok (Some 3%Z))
    by (rewrite <- Emin; vm_compute; reflexivity).
  injection Hb as Hb.
  split; [exact Emd|]. split; [reflexivity|].
  unfold bound_from_clean_samples. rewrite Hsd.
  split; [reflexivity|]. split; [exact Hb|reflexivity].
Qed.

(** C5.  The selection lists cell 0 twice and cell 3 never: the fit
    completes and builds a bin table whose cell 3 holds uninitialised
    values. *)
Lemma fit_accepts_non_tiling_selection :
  fst Run.non_tiling_out = Ok tt /\
  _is_fitted (snd Run.non_tiling_out) = true /\
  _selected_rows (attrs (snd Run.non_tiling_out))
    = Some [[0; 1]; [0; 2]] /\
  _m (attrs (snd Run.non_tiling_out)) = Some 2 /\
  _n (attrs (snd Run.non_tiling_out)) = Some 2 /\
  ~ tiles_grid 2 2 [[0; 1]; [0; 2]] /\
  option_map (fun t => data (bt_P t)) Run.non_tiling_table
    = Some [1; 0; 1; @uninit_int Run.non_tiling_ext 3]%Z /\
  option_map bt_n_records Run.non_tiling_table = Some [2; 2; 0; 1]%Z /\
  ~ non_tiling_selection_raises Run.non_tiling_out.
Proof.
  assert (Hok : fst Run.non_tiling_out = Ok tt) by (vm_compute; reflexivity).
  assert (Hsel : _selected_rows (attrs (snd Run.non_tiling_out))
                 = Some [[0; 1]; [0; 2]])
    by (vm_compute; reflexivity).
  assert (Hm : _m (attrs (snd Run.non_tiling_out)) = Some 2)
    by (vm_compute; reflexivity).
  assert (Hn : _n (attrs (snd Run.non_tiling_out)) = Some 2)
    by (vm_compute; reflexivity).
  assert (Hnt : ~ tiles_grid 2 2 [[0; 1]; [0; 2]]).
  { intros H. specialize (H 3 ltac:(lia)).
    assert (H0 : length (filter (fun r => 3 ∈ r) [[0; 1]; [0; 2]]) = 0)
      by (vm_compute; reflexivity).
    rewrite H0 in H. discriminate H. }
  split; [exact Hok|]. split; [vm_compute; reflexivity|].
  split; [exact Hsel|]. split; [exact Hm|]. split; [exact Hn|].
  split; [exact Hnt|].
  do 2 (split; [vm_compute; reflexivity|]).
  intros H. destruct (H _ _ _ Hsel Hm Hn Hnt) as [e He].
  rewrite Hok in He. discriminate He.
Qed.

(** The two virtual bins of the run on eight samples: two special samples
    with targets 5 and 9 and two missing ones with targets 9 and 11. *)
Lemma virtual_bins_of_eight_samples :
  fst Run.codes_out = Ok tt /\
  option_map bt_n_records Run.codes_table = Some [2; 2; 2; 2]%Z /\
  option_map (fun table => map Qred (bt_sums table)) Run.codes_table
    = Some [3; 7; 14; 20]%Q /\
  option_map (fun table => map Qred (bt_stds table)) Run.codes_table
    = Some [0; 0; 2; 1]%Q.
Proof. repeat split; vm_compute; reflexivity. Qed.

(** The bound follows the rounded product: [0.1 * 10] is [1.0] in binary64
    although the number written 0.1 exceeds one tenth, and [0.07 * 100]
    exceeds 7. *)
Lemma bin_size_bound_rounds_the_product :
  bin_size_bound (PyFloat Run.tenth) (Some 10) = Ok (Some 1%Z) /\
  Qceiling (Run.tenth * 10) = 2%Z /\
  bin_size_bound (PyFloat Run.seven_hundredths) (Some 100) = Ok (Some 8%Z) /\
  Qred (float64 (1 # 10)) = Run.tenth /\
  Qred (float64 (7 # 100)) = Run.seven_hundredths.
Proof. repeat split; vm_compute; reflexivity. Qed.

(** On a grid of one cell the array of candidates has two dimensions, and
    the first iteration of the reconstruction loop raises. *)
Lemma single_cell_grid_raises :
  fst Run.single_cell_out =
    Raise (IndexError
      "arrays used as indices must be of integer (or boolean) type") /\
  _is_fitted (snd Run.single_cell_out) = false.
Proof. split; vm_compute; reflexivity. Qed.

(** [nan < 0] is false: a [gamma] that is [nan] or the positive infinity
    passes validation, the negative infinity does not. *)
Lemma nan_gamma_is_accepted :
  _check_parameters (Run.with_gamma PyNan) = Ok tt /\
  _check_parameters (Run.with_gamma (PyInf false)) = Ok tt /\
  _check_parameters (Run.with_gamma (PyInf true))
    = Raise (ValueError "gamma") /\
  _check_parameters (Run.with_gamma (PyInt (-1))) = Raise (ValueError "gamma").
Proof. repeat split; vm_compute; reflexivity. Qed.
(** ** Further runs *)

Lemma cell_matrices_square_cells_witness :
  exists mats,
    @cell_matrices (Demo.ext "OPTIMAL" Run.two_rows)
      [1 # 2]%Q [1 # 2]%Q [0; 1; 1]%Q [0; 0; 1]%Q [2; 3; 5]%Q = Ok mats /\
    forall i j, i < 2 -> j < 2 ->
      data mats.1.1 !! (i * 2 + j) = Some (cell_count [0; 1; 1] [0; 0; 1] i j) /\
      data mats.1.2 !! (i * 2 + j)
        = Some (cell_sum [0; 1; 1] [0; 0; 1] [2; 3; 5]%Q i j) /\
      data mats.2 !! (i * 2 + j)
        = Some (cell_sum_squares [0; 1; 1] [0; 0; 1] [2; 3; 5]%Q i j).
Proof.
  apply (@cell_matrices_square_cells (Demo.ext "OPTIMAL" Run.two_rows)
           [1 # 2]%Q [1 # 2]%Q [0; 1; 1]%Q [0; 0; 1]%Q [2; 3; 5]%Q
           [0; 1; 1] [0; 0; 1]); reflexivity.
Defined.

Lemma cell_matrices_counts_every_sample_once_witness :
  exists mats,
    @cell_matrices (Demo.ext "OPTIMAL" Run.two_rows)
      [1 # 2]%Q [1 # 2]%Q [0; 1; 1]%Q [0; 0; 1]%Q [2; 3; 5]%Q = Ok mats /\
    (Qsum (data mats.1.1) == inject_Z (Z.of_nat 3))%Q.
Proof.
  apply (@cell_matrices_counts_every_sample_once
           (Demo.ext "OPTIMAL" Run.two_rows)
           [1 # 2]%Q [1 # 2]%Q [0; 1; 1]%Q [0; 0; 1]%Q [2; 3; 5]%Q);
    reflexivity.
Defined.

Lemma cell_matrices_rectangular_raises_witness :
  @cell_matrices (Demo.ext "OPTIMAL" Run.two_rows)
    [1 # 2]%Q [1 # 3; 2 # 3]%Q [0; 1; 1]%Q [0; 0; 1]%Q [2; 3; 5]%Q
  = Raise (IndexError "index out of bounds").
Proof.
  apply (@cell_matrices_rectangular_raises (Demo.ext "OPTIMAL" Run.two_rows)
           [1 # 2]%Q [1 # 3; 2 # 3]%Q [0; 1; 1]%Q [0; 0; 1]%Q [2; 3; 5]%Q);
    [simpl; lia | reflexivity..].
Defined.

Lemma reconstruction_returns_for_in_grid_selection_witness :
  exists rc1 rc mD mP,
    for_each (enumerate (compress [true; false; true] [[0; 1]; [2]; [1; 3]]))
      (reconstruct_body (object_array_is_2d [[0; 1]; [2]; [1; 3]])
         [true; false; true] [2; 1; 0]%Z [3; 1; 0]%Q [0; 0; 0]%Q)
      (@reconstruction_start (Demo.ext "OPTIMAL" Run.two_rows) 2 2
         (length (compress [true; false; true] [[0; 1]; [2]; [1; 3]])))
      = Ok rc1 /\
    append_virtual_bins
      (@subset_statistics (Demo.ext "OPTIMAL" Run.two_rows) [9]%Q []) rc1
      = Ok rc /\
    reshape (rc_D rc) 2 2 = Ok mD /\
    reshape (rc_P rc) 2 2 = Ok mP.
Proof.
  apply (@reconstruction_returns_for_in_grid_selection
           (Demo.ext "OPTIMAL" Run.two_rows)
           [true; false; true] [[0; 1]; [2]; [1; 3]]
           [2; 1; 0]%Z [3; 1; 0]%Q [0; 0; 0]%Q 2 2 [9]%Q []);
    [reflexivity.. |].
  simpl. repeat constructor.
Defined.

Lemma validated_solver_is_bound_witness :
  _check_parameters Demo.default_params = Ok tt /\
  exists optimizer,
    (solver Demo.default_params = PyStr "cp" /\
     choose_optimizer Demo.default_params 1
       = Ok (Some 1000000%Z, optimizer) /\
     opt_backend optimizer = CP) \/
    (solver Demo.default_params = PyStr "mip" /\
     choose_optimizer Demo.default_params 1 = Ok (None, optimizer) /\
     opt_backend optimizer = MIP).
Proof.
  split; [reflexivity|].
  apply (validated_solver_is_bound Demo.default_params 1). reflexivity.
Defined.

Lemma validated_bin_size_bounds_witness :
  _check_parameters Run.grid2_half = Ok tt /\
  exists lo hi,
    bin_size_bound (min_bin_size Run.grid2_half) (Some 5) = Ok lo /\
    bin_size_bound (max_bin_size Run.grid2_half) (Some 5) = Ok hi /\
    (lo = None <-> min_bin_size Run.grid2_half = PyNone) /\
    (hi = None <-> max_bin_size Run.grid2_half = PyNone) /\
    (forall a, lo = Some a ->
       ((1 <= 5)%nat -> 1 <= a)%Z /\
       ((Z.of_nat 5 <= 2 ^ 53)%Z -> (a <= Z.of_nat 5)%Z)) /\
    (forall b, hi = Some b ->
       ((1 <= 5)%nat -> 1 <= b)%Z /\
       ((Z.of_nat 5 <= 2 ^ 53)%Z -> (b <= Z.of_nat 5)%Z)) /\
    (forall a b, lo = Some a -> hi = Some b -> (a <= b)%Z).
Proof.
  split; [reflexivity|].
  apply (validated_bin_size_bounds Run.grid2_half 5). reflexivity.
Defined.


Lemma fit_failure_keeps_published_results_witness :
  let E := Demo.ext "OPTIMAL" Run.two_rows in
  let self := @__init__ E Run.grid2x3 in
  let out := @_fit E Run.xs Run.ys Run.zs false self in
  fst out = Raise (IndexError "index out of bounds") /\
  _is_fitted (snd out) = _is_fitted self /\
  _binning_table (info (snd out)) = _binning_table (info self) /\
  _splits_x_optimal (info (snd out)) = _splits_x_optimal (info self) /\
  _splits_y_optimal (info (snd out)) = _splits_y_optimal (info self) /\
  name (attrs (snd out)) = name (attrs self).
Proof.
  cbv zeta.
  split; [vm_compute; reflexivity|].
  apply (@fit_failure_keeps_published_results
           (Demo.ext "OPTIMAL" Run.two_rows) Run.xs Run.ys Run.zs false
           (@__init__ (Demo.ext "OPTIMAL" Run.two_rows) Run.grid2x3)
           (IndexError "index out of bounds")).
  vm_compute; reflexivity.
Defined.

Lemma fit_records_sample_count_first_witness :
  let E := Demo.ext "OPTIMAL" Run.two_rows in
  let self := @__init__ E Run.grid2x3 in
  _check_parameters (params self) = Ok tt /\
  _n_samples (info (snd (@_fit E Run.xs Run.ys Run.zs false self)))
    = Some (length Run.xs).
Proof.
  cbv zeta.
  split; [reflexivity|].
  apply (@fit_records_sample_count_first
           (Demo.ext "OPTIMAL" Run.two_rows) Run.xs Run.ys Run.zs false
           (@__init__ (Demo.ext "OPTIMAL" Run.two_rows) Run.grid2x3)).
  reflexivity.
Defined.

Lemma fit_completes_only_on_square_grid_witness :
  let E := Demo.ext "OPTIMAL" Run.two_rows in
  let x := Run.xs in
  let y := Run.ys in
  let z := Run.zs in
  let check_input := false in
  let self := @__init__ E Run.grid2 in
  let self' := snd (@_fit E x y z check_input self) in
  _fit x y z check_input self = (Ok tt, self') /\
  (exists t k table,
    fit_trace_ok x y z check_input (params self) t /\
    length (tr_splits_x t) = k /\
    length (tr_splits_y t) = k /\
    _m (attrs self') = Some (k + 1) /\
    _n (attrs self') = Some (k + 1) /\
    _n_prebins (info self') = Some ((k + 1) * (k + 1)) /\
    _binning_table (info self') = Some table /\
    bt_m table = k + 1 /\ bt_n table = k + 1 /\
    length (data (bt_P table)) = (k + 1) * (k + 1) /\
    length (data (bt_D table)) = (k + 1) * (k + 1)).
Proof.
  cbv zeta.
  split; [apply method_returned; vm_compute; reflexivity|].
  apply (@fit_completes_only_on_square_grid (Demo.ext "OPTIMAL" Run.two_rows) Run.xs Run.ys Run.zs false
           (@__init__ (Demo.ext "OPTIMAL" Run.two_rows) Run.grid2)).
  apply method_returned; vm_compute; reflexivity.
Defined.

Lemma fit_selection_and_table_agree_witness :
  let E := Demo.ext "OPTIMAL" Run.two_rows in
  let x := Run.xs in
  let y := Run.ys in
  let z := Run.zs in
  let check_input := false in
  let self := @__init__ E Run.grid2 in
  let self' := snd (@_fit E x y z check_input self) in
  _fit x y z check_input self = (Ok tt, self') /\
  (exists rows solution table,
    _rows (attrs self') = Some rows /\
    _solution (info self') = Some solution /\
    _binning_table (info self') = Some table /\
    length solution = length rows /\
    _selected_rows (attrs self') = Some (compress solution rows) /\
    length (bt_n_records table) = length (compress solution rows) + 2 /\
    length (bt_sums table) = length (compress solution rows) + 2 /\
    length (bt_stds table) = length (compress solution rows) + 2 /\
    _sums (attrs self') = Some (bt_sums table) /\
    _n_records (attrs self') = Some (bt_n_records table)).
Proof.
  cbv zeta.
  split; [apply method_returned; vm_compute; reflexivity|].
  apply (@fit_selection_and_table_agree (Demo.ext "OPTIMAL" Run.two_rows) Run.xs Run.ys Run.zs false
           (@__init__ (Demo.ext "OPTIMAL" Run.two_rows) Run.grid2)).
  apply method_returned; vm_compute; reflexivity.
Defined.

Lemma fit_transform_is_fit_then_transform_witness :
  let E := Demo.ext "OPTIMAL" Run.two_rows in
  let self := @__init__ E Run.grid2 in
  let run :=
    @fit_transform E Run.xs Run.ys Run.zs (PyStr "mean") (PyInt 0) (PyInt 0)
      (PyInt 2) false self in
  let self' := snd run in
  exists out,
    run = (Ok out, self') /\
    fit Run.xs Run.ys Run.zs false self = (Ok tt, self') /\
    _is_fitted self' = true /\
    transform Run.xs Run.ys (PyStr "mean") (PyInt 0) (PyInt 0) (PyInt 2)
      false self' = (Ok out, self').
Proof.
  cbv zeta. eexists.
  split; [apply method_returned; vm_compute; reflexivity|].
  apply (@fit_transform_is_fit_then_transform
           (Demo.ext "OPTIMAL" Run.two_rows) Run.xs Run.ys Run.zs
           (PyStr "mean") (PyInt 0) (PyInt 0) (PyInt 2) false
           (@__init__ (Demo.ext "OPTIMAL" Run.two_rows) Run.grid2)).
  apply method_returned; vm_compute; reflexivity.
Defined.

Lemma fit_optimizer_failure_keeps_status_witness :
  let E := Demo.ext "OPTIMAL" Run.two_rows in
  let self := @__init__ E Run.grid2_half in
  let one := {| nrows := 1; ncols := 1; data := [0%Q] |} in
  let out := @_fit_optimizer E [] [] one one one self in
  fst out = Raise (TypeError "unsupported operand types for *") /\
  _status (info (snd out)) = _status (info self) /\
  _optimizer (info (snd out)) = _optimizer (info self) /\
  _time_optimizer (info (snd out)) = _time_optimizer (info self) /\
  _cols (attrs (snd out)) = _cols (attrs self) /\
  _rows (attrs (snd out)) = _rows (attrs self) /\
  _c (attrs (snd out)) = _c (attrs self).
Proof.
  cbv zeta.
  split; [vm_compute; reflexivity|].
  apply (@fit_optimizer_failure_keeps_status
           (Demo.ext "OPTIMAL" Run.two_rows) [] []
           {| nrows := 1; ncols := 1; data := [0%Q] |}
           {| nrows := 1; ncols := 1; data := [0%Q] |}
           {| nrows := 1; ncols := 1; data := [0%Q] |}
           (@__init__ (Demo.ext "OPTIMAL" Run.two_rows) Run.grid2_half)
           (TypeError "unsupported operand types for *")).
  vm_compute; reflexivity.
Defined.

